(** * django-omnitenant: routing, configuration and provisioning, verified

    A shallow embedding of the parts of django-omnitenant that decide where
    data goes: the database router ([routers.py]), the helpers of
    [utils.py], the settings wrapper of [conf.py], the database backend
    ([backends/database_backend.py]) and the [migratetenants] command.

    Conventions of the embedding.
    - A Python [str] is a Rocq [string]; a character stands for the code
      point of the same number (0..255).
    - A Python value that may be of any JSON type is a [pyval]; a [dict] is
      an association list in insertion order, as Python keeps it.
    - A call that may raise returns an [outcome]: [Return v] or [Raise e].
    - Module-level state (the context stack, the settings objects, standard
      output) is passed explicitly.
    - Where the code keeps an object and goes on reading it (the settings
      wrapper, the bootstrapper), values are references into a store of
      objects, so that what is done to a list or a dictionary in place
      shows under every name it goes by. *)

From Stdlib Require Import String Ascii ZArith List Bool Lia.
From stdpp Require Import base option list strings gmap.

Local Open Scope string_scope.
Local Open Scope Z_scope.

(** ** Python values *)

Local Set Warnings "-register-all".

Module Py.

(** Exceptions. All of them are instances of [Exception] but
    [KeyboardInterrupt], which only is a [BaseException]. *)
Inductive exn :=
| LookupError
| ConnectionDoesNotExist
| AttributeError
| TypeError
| ValueError (msg : string)
| Exception (msg : string)
| KeyboardInterrupt.

(** [isinstance(e, Exception)] *)
Definition is_Exception (e : exn) : bool :=
  match e with
  | KeyboardInterrupt => false
  | _ => true
  end.

(** [str(e)] *)
Definition exn_str (e : exn) : string :=
  match e with
  | ValueError msg => msg
  | Exception msg => msg
  | _ => ""
  end.

Inductive outcome (A : Type) :=
| Return (a : A)
| Raise (e : exn).
Arguments Return {A} a.
Arguments Raise {A} e.

Definition bind {A B} (m : outcome A) (k : A -> outcome B) : outcome B :=
  match m with
  | Return a => k a
  | Raise e => Raise e
  end.

Inductive pyval :=
| VNone
| VBool (b : bool)
| VInt (n : Z)
| VStr (s : string)
| VList (l : list pyval)
| VDict (d : list (string * pyval)).

Definition dict := list (string * pyval).

(** [bool(v)] *)
Definition truthy (v : pyval) : bool :=
  match v with
  | VNone => false
  | VBool b => b
  | VInt n => negb (n =? 0)
  | VStr s => negb (String.eqb s "")
  | VList l => match l with [] => false | _ => true end
  | VDict d => match d with [] => false | _ => true end
  end.

(** [a or b] *)
Definition or_ (a b : pyval) : pyval := if truthy a then a else b.

(** [key in d] *)
Definition dict_has (k : string) (d : dict) : bool :=
  existsb (fun kv => String.eqb (fst kv) k) d.

(** [d.get(key, default)] *)
Fixpoint dict_get_default (k : string) (dflt : pyval) (d : dict) : pyval :=
  match d with
  | [] => dflt
  | (k', v) :: rest => if String.eqb k' k then v else dict_get_default k dflt rest
  end.

(** [d.get(key)] *)
Definition dict_get (k : string) (d : dict) : pyval := dict_get_default k VNone d.

(** [d[key] = value]: an existing key keeps its place, a new one goes last *)
Fixpoint dict_set (k : string) (v : pyval) (d : dict) : dict :=
  match d with
  | [] => [(k, v)]
  | (k', v') :: rest =>
      if String.eqb k' k then (k, v) :: rest else (k', v') :: dict_set k v rest
  end.

(** [str.lower] moves A-Z and the Latin-1 capitals (all of 192..222 but the
    multiplication sign 215) 32 places up and leaves every other code point
    below 256 as it is. *)
Definition lower_char (c : ascii) : ascii :=
  let n := N_of_ascii c in
  if ((65 <=? n) && (n <=? 90))%N then ascii_of_N (n + 32)
  else if ((192 <=? n) && (n <=? 222) && negb (n =? 215))%N then ascii_of_N (n + 32)
  else c.

(** [s.lower()] *)
Fixpoint lower (s : string) : string :=
  match s with
  | EmptyString => EmptyString
  | String c rest => String (lower_char c) (lower rest)
  end.

(** [needle in hay] on strings *)
Fixpoint str_in (needle hay : string) : bool :=
  String.prefix needle hay
  || match hay with
     | EmptyString => false
     | String _ rest => str_in needle rest
     end.

(** [s[:n]] *)
Fixpoint take_str (n : nat) (s : string) : string :=
  match n, s with
  | O, _ => EmptyString
  | S n', String c rest => String c (take_str n' rest)
  | S _, EmptyString => EmptyString
  end.

(** [s[n:]] *)
Fixpoint drop_str (n : nat) (s : string) : string :=
  match n, s with
  | O, _ => s
  | S n', String _ rest => drop_str n' rest
  | S _, EmptyString => EmptyString
  end.

End Py.
Import Py.

(** ** conf.py: the settings wrapper *)

Module Conf.

(** Objects. What a name, an attribute or an item holds in Python is a
    reference to an object. A list, a tuple and a dictionary hold
    references to their items, and two names may refer to one object: what
    is done in place to a list or a dictionary shows under every name it
    goes by. The store gives the object of a reference; new objects go to
    its end. *)
Abbreviation loc := nat (only parsing).

Inductive object :=
| ONone
| OBool (b : bool)
| OInt (n : Z)
| OStr (s : string)
| OList (items : list loc)
| OTuple (items : list loc)
| ODict (entries : list (string * loc)).

(** [bool(o)] *)
Definition truthy_object (o : object) : bool :=
  match o with
  | ONone => false
  | OBool b => b
  | OInt n => negb (n =? 0)
  | OStr s => negb (String.eqb s "")
  | OList items | OTuple items => match items with [] => false | _ => true end
  | ODict entries => match entries with [] => false | _ => true end
  end.

(** The item of a dictionary under a key, if there is one *)
Definition entries_get (key : string) (entries : list (string * loc)) : option loc :=
  snd <$> find (fun kv => String.eqb (fst kv) key) entries.

(** The wrapper instance's own [__dict__], the attributes of Django's
    settings object it stands in front of, and the objects of the
    process. *)
Record state := {
  wrapper_dict : gmap string loc;
  django_settings : gmap string loc;
  heap : list object
}.

Definition result : Type := outcome loc * state.

(** A new object *)
Definition new (o : object) (st : state) : loc * state :=
  (length (heap st),
   {| wrapper_dict := wrapper_dict st;
      django_settings := django_settings st;
      heap := (heap st ++ [o])%list |}).

(** [bool(x)] for the object [x] refers to *)
Definition truthy_at (st : state) (l : loc) : bool :=
  match heap st !! l with
  | Some o => truthy_object o
  | None => false
  end.

(** [_WrappedSettings.__getattr__]: [getattr(django_settings, item)] *)
Definition __getattr__ (item : string) (st : state) : result :=
  match django_settings st !! item with
  | Some l => (Return l, st)
  | None => (Raise AttributeError, st)
  end.

(** [getattr(django_settings, item, default)] with the default at hand *)
Definition getattr_default (item : string) (dflt : loc) (st : state) : result :=
  (Return (default dflt (django_settings st !! item)), st).

(** [_WrappedSettings.__setattr__] *)
Definition __setattr__ (key : string) (value : loc) (st : state) : outcome unit * state :=
  if bool_decide (is_Some (wrapper_dict st !! key)) then
    (Raise (ValueError "Item assignment is not supported"), st)
  else
    (Return tt, {| wrapper_dict := wrapper_dict st;
                   django_settings := <[key := value]> (django_settings st);
                   heap := heap st |}).

(** [instance.__dict__[name] = value], as [cached_property] does it,
    past [__setattr__] *)
Definition cache (name : string) (value : loc) (st : state) : state :=
  {| wrapper_dict := <[name := value]> (wrapper_dict st);
     django_settings := django_settings st;
     heap := heap st |}.

(** [cached_property.__get__]: run the function once and keep what it
    returns in the instance's [__dict__]; an exception caches nothing. *)
Definition cached_property (name : string) (func : state -> result) (st : state) : result :=
  match func st with
  | (Return l, st') => (Return l, cache name l st')
  | (Raise e, st') => (Raise e, st')
  end.

(** Reading [self.name] where the class declares [name] as a cached
    property: the instance [__dict__] is looked at first, then the
    property is computed, and when that raises [AttributeError] Python
    turns to [__getattr__]. *)
Definition read_property (name : string) (func : state -> result) (st : state) : result :=
  match wrapper_dict st !! name with
  | Some l => (Return l, st)
  | None =>
      match cached_property name func st with
      | (Raise AttributeError, st') => __getattr__ name st'
      | done => done
      end
  end.

(** [ImproperlyConfigured(msg)], an instance of [Exception] that no code at
    hand tells from another one *)
Definition ImproperlyConfigured (msg : string) : exn := Exception msg.

(** The functions under [@cached_property], in the order of the class.
    The keys are the values the docstrings give for the names of
    [constants.py], which is not part of the sources at hand. *)

Definition OMNITENANT_CONFIG (st : state) : result :=
  let (empty, st1) := new (ODict []) st in
  getattr_default "OMNITENANT_CONFIG" empty st1.

(** [self.OMNITENANT_CONFIG.get(key, default)] *)
Definition config_get (key : string) (dflt : object) (st : state) : result :=
  match read_property "OMNITENANT_CONFIG" OMNITENANT_CONFIG st with
  | (Raise e, st1) => (Raise e, st1)
  | (Return config, st1) =>
      match heap st1 !! config with
      | Some (ODict entries) =>
          let (d, st2) := new dflt st1 in
          (Return (default d (entries_get key entries)), st2)
      | _ => (Raise AttributeError, st1)   (* no [get] *)
      end
  end.

Definition SCHEMA_CONFIG : state -> result := config_get "schema_config" (ODict []).

Definition TENANT_RESOLVER : state -> result :=
  config_get "TENANT_RESOLVER"
    (OStr "django_omnitenant.resolvers.CustomDomainTenantResolver").

Definition TIME_ZONE (st : state) : result :=
  let (utc, st1) := new (OStr "UTC") st in
  getattr_default "TIME_ZONE" utc st1.

Definition DATABASE_ROUTERS (st : state) : result :=
  let (router, st1) := new (OStr "django_omnitenant.routers.TenantRouter") st in
  let (routers, st2) := new (OList [router]) st1 in
  getattr_default "DATABASE_ROUTERS" routers st2.

Definition MASTER_TENANT_NAME : state -> result :=
  config_get "MASTER_TENANT_NAME" (OStr "Master").

Definition PUBLIC_TENANT_NAME : state -> result :=
  config_get "PUBLIC_TENANT_NAME" (OStr "public_omnitenant").

Definition TEST_TENANT_NAME : state -> result :=
  config_get "TEST_TENANT_NAME" (OStr "omitenant_test_tenant").

Definition PUBLIC_DB_ALIAS : state -> result := config_get "PUBLIC_DB_ALIAS" (OStr "public").

Definition MASTER_DB_ALIAS : state -> result := config_get "MASTER_DB_ALIAS" (OStr "default").

Definition MASTER_CACHE_ALIAS : state -> result :=
  config_get "DEFAULT_CACHE_ALIAS" (OStr "default").

Definition DEFAULT_SCHEMA_NAME : state -> result :=
  config_get "DEFAULT_SCHEMA_NAME" (OStr "public").

(** The body of the two required settings:
    [value = self.OMNITENANT_CONFIG.get(key, "")], then
    [if not value: raise ImproperlyConfigured(msg)], then [return value] *)
Definition required (key msg : string) (st : state) : result :=
  match config_get key (OStr "") st with
  | (Return value, st') =>
      if negb (truthy_at st' value) then (Raise (ImproperlyConfigured msg), st')
      else (Return value, st')
  | (Raise e, st') => (Raise e, st')
  end.

Definition TENANT_MODEL_not_set : string :=
  "OMNITENANT_CONFIG.TENANT_MODEL is not set. "
  +:+ "You must define TENANT_MODEL in your Omnitenant configuration.".

Definition DOMAIN_MODEL_not_set : string :=
  "OMNITENANT_CONFIG.DOMAIN_MODEL is not set. "
  +:+ "You must define DOMAIN_MODEL in your Omnitenant configuration.".

Definition TENANT_MODEL : state -> result := required "TENANT_MODEL" TENANT_MODEL_not_set.

Definition DOMAIN_MODEL : state -> result := required "DOMAIN_MODEL" DOMAIN_MODEL_not_set.

Definition PUBLIC_HOST : state -> result := config_get "PUBLIC_HOST" (OStr "localhost").

(** The cached properties of the class, by name *)
Definition class_properties : list (string * (state -> result)) :=
  [ ("OMNITENANT_CONFIG", OMNITENANT_CONFIG);
    ("SCHEMA_CONFIG", SCHEMA_CONFIG);
    ("TENANT_RESOLVER", TENANT_RESOLVER);
    ("TIME_ZONE", TIME_ZONE);
    ("DATABASE_ROUTERS", DATABASE_ROUTERS);
    ("MASTER_TENANT_NAME", MASTER_TENANT_NAME);
    ("PUBLIC_TENANT_NAME", PUBLIC_TENANT_NAME);
    ("TEST_TENANT_NAME", TEST_TENANT_NAME);
    ("PUBLIC_DB_ALIAS", PUBLIC_DB_ALIAS);
    ("MASTER_DB_ALIAS", MASTER_DB_ALIAS);
    ("MASTER_CACHE_ALIAS", MASTER_CACHE_ALIAS);
    ("DEFAULT_SCHEMA_NAME", DEFAULT_SCHEMA_NAME);
    ("TENANT_MODEL", TENANT_MODEL);
    ("DOMAIN_MODEL", DOMAIN_MODEL);
    ("PUBLIC_HOST", PUBLIC_HOST) ].

Definition class_property (item : string) : option (state -> result) :=
  snd <$> find (fun entry => String.eqb (fst entry) item) class_properties.

(** [settings.item]: the instance [__dict__], then the class, then
    [__getattr__]. *)
Definition getattr (item : string) (st : state) : result :=
  match class_property item with
  | Some func => read_property item func st
  | None =>
      match wrapper_dict st !! item with
      | Some l => (Return l, st)
      | None => __getattr__ item st
      end
  end.

(** What the code of a process can do to the settings and to the objects
    they refer to: read an attribute of the wrapper or assign to one, make
    an object, change a list or a dictionary in place, and set or delete
    an attribute of Django's settings object itself. *)
Inductive action :=
| Get (item : string)
| Set_ (key : string) (value : loc)
| New (o : object)
| Change (l : loc) (o : object)
| DjangoSet (key : string) (value : loc)
| DjangoDel (key : string).

(** A list stays a list and a dictionary a dictionary; no other object
    changes. *)
Definition change (l : loc) (o : object) (st : state) : state :=
  match heap st !! l, o with
  | Some (OList _), OList _ | Some (ODict _), ODict _ =>
      {| wrapper_dict := wrapper_dict st;
         django_settings := django_settings st;
         heap := <[l := o]> (heap st) |}
  | _, _ => st
  end.

Definition step (a : action) (st : state) : state :=
  match a with
  | Get item => snd (getattr item st)
  | Set_ key value => snd (__setattr__ key value st)
  | New o => snd (new o st)
  | Change l o => change l o st
  | DjangoSet key value =>
      {| wrapper_dict := wrapper_dict st;
         django_settings := <[key := value]> (django_settings st);
         heap := heap st |}
  | DjangoDel key =>
      {| wrapper_dict := wrapper_dict st;
         django_settings := delete key (django_settings st);
         heap := heap st |}
  end.

Definition run (acts : list action) (st : state) : state :=
  fold_left (fun s a => step a s) acts st.

(** An action that changes no object in place *)
Definition in_place (a : action) : bool :=
  match a with
  | Change _ _ => true
  | _ => false
  end.

(** From [st] to [st'] the cache and the objects were kept: what was
    cached is cached, every object is what it was, Django's settings are
    what they were. *)
Definition kept (st st' : state) : Prop :=
  (forall name l, wrapper_dict st !! name = Some l -> wrapper_dict st' !! name = Some l)
  /\ (forall l o, heap st !! l = Some o -> heap st' !! l = Some o)
  /\ django_settings st' = django_settings st.

Definition keeps (f : state -> result) : Prop := forall st, kept st (snd (f st)).

(** The entries of the configuration a read of the wrapper goes by, when
    it is a dictionary: the cached object, else the one of Django's
    settings, else a new empty dictionary. *)
Definition config_entries (st : state) : option (list (string * loc)) :=
  match wrapper_dict st !! "OMNITENANT_CONFIG" with
  | Some config =>
      match heap st !! config with
      | Some (ODict entries) => Some entries
      | _ => None
      end
  | None =>
      match django_settings st !! "OMNITENANT_CONFIG" with
      | Some config =>
          match heap st !! config with
          | Some (ODict entries) => Some entries
          | _ => None
          end
      | None => Some []
      end
  end.

(** A configuration gives a value that is true for Python under a key. *)
Definition truthy_entry (st : state) (entries : list (string * loc)) (key : string) : bool :=
  match entries_get key entries with
  | Some l => truthy_at st l
  | None => false
  end.

End Conf.

(** ** The Django project as the package sees it *)

Module Django.

(** utils.py, [class TenantScope(Enum)] *)
Inductive TenantScope := MASTER | TENANT | SHARED.

Definition TenantScope_eqb (a b : TenantScope) : bool :=
  match a, b with
  | MASTER, MASTER | TENANT, TENANT | SHARED, SHARED => true
  | _, _ => false
  end.

(** The value of a [tenant_scope] attribute: a member of the enum, or any
    other object. *)
Inductive attr :=
| Scope (s : TenantScope)
| Other (v : pyval).

(** [scope == TenantScope.X]: no other object equals a member of the enum *)
Definition attr_is (a : attr) (s : TenantScope) : bool :=
  match a with
  | Scope s' => TenantScope_eqb s' s
  | Other _ => false
  end.

Record AppConfig := {
  label : string;
  name : string;
  path : string;
  app_tenant_scope : option attr   (* the attribute may be missing *)
}.

Record Model := {
  app_label : string;                (* model._meta.app_label *)
  model_tenant_scope : option attr   (* the attribute may be missing *)
}.

(** A database connection: [settings_dict["OPTIONS"]], when there is one. *)
Record Connection := {
  OPTIONS : option (gmap string string)
}.

(** The values the package reads from the settings, the registry of
    installed apps and the connection handler. *)
Record Project := {
  MASTER_DB_ALIAS : string;
  DEFAULT_SCHEMA_NAME : string;
  CUSTOM_APPS : option (list string);   (* hasattr(settings, "CUSTOM_APPS") *)
  BASE_DIR : string;
  TIME_ZONE : string;
  DATABASES : list (string * dict);
  app_configs : list AppConfig;                       (* apps.get_app_configs() *)
  registered_model : string -> string -> option Model; (* None: LookupError *)
  connections : string -> option Connection           (* None: no such alias *)
}.

(** [apps.get_app_config(label)] *)
Definition get_app_config (p : Project) (l : string) : outcome AppConfig :=
  match find (fun ac => String.eqb (label ac) l) (app_configs p) with
  | Some ac => Return ac
  | None => Raise LookupError
  end.

(** [apps.get_model(app_label, model_name)] *)
Definition get_model (p : Project) (l model_name : string) : outcome Model :=
  match registered_model p l model_name with
  | Some m => Return m
  | None => Raise LookupError
  end.

(** [connections[db]] *)
Definition connection (p : Project) (db : string) : outcome Connection :=
  match connections p db with
  | Some c => Return c
  | None => Raise ConnectionDoesNotExist
  end.

End Django.

(** ** models.py (not part of the sources at hand) *)

Module Models.

(** Modelled from the spec: [BaseTenant.IsolationType], the enumeration
    DATABASE | SCHEMA | TABLE of section 3. *)
Inductive IsolationType := DATABASE | SCHEMA | TABLE.

Definition IsolationType_eqb (a b : IsolationType) : bool :=
  match a, b with
  | DATABASE, DATABASE | SCHEMA, SCHEMA | TABLE, TABLE => true
  | _, _ => false
  end.

(** Modelled from the spec: a tenant record, with the attributes the code
    reads. [db_config] is [tenant.config.get("db_config")]: missing, or a
    JSON object. *)
Record Tenant := {
  tenant_id : string;
  isolation_type : IsolationType;
  db_config : option dict
}.

End Models.

(** ** utils.py *)

Module Utils.
Import Django Models.

(** [get_custom_apps()] *)
Definition get_custom_apps (p : Project) : list string :=
  match CUSTOM_APPS p with
  | Some configured => configured
  | None =>
      map name
        (List.filter (fun ac => String.prefix (BASE_DIR p) (path ac)) (app_configs p))
  end.

(** A character outside the class [[^a-zA-Z0-9_]] *)
Definition is_valid_char (c : ascii) : bool :=
  let n := N_of_ascii c in
  (((97 <=? n) && (n <=? 122)) || ((65 <=? n) && (n <=? 90))
   || ((48 <=? n) && (n <=? 57)) || (n =? 95))%N.

(** [re.sub(r"[^a-zA-Z0-9_]", "_", s)] *)
Fixpoint replace_invalid (s : string) : string :=
  match s with
  | EmptyString => EmptyString
  | String c rest =>
      String (if is_valid_char c then c else "_"%char) (replace_invalid rest)
  end.

Definition convert_to_valid_pgsql_schema_name (name : string) : string :=
  let name := replace_invalid (lower name) in
  let name := take_str 63 name in
  let name :=
    if String.prefix "pg_" name then
      let renamed := "x_" +:+ drop_str 3 name in
      if String.eqb renamed "" then "x" else renamed
    else name in
  let name := if String.eqb name "" then "default_schema" else name in
  name.

Inductive Backend :=
| SchemaTenantBackend (tenant : Tenant)
| DatabaseTenantBackend (tenant : Tenant).

Definition get_tenant_backend (tenant : Tenant) : Backend :=
  if IsolationType_eqb (isolation_type tenant) SCHEMA
  then SchemaTenantBackend tenant
  else DatabaseTenantBackend tenant.

End Utils.

(** ** tenant_context.py (not part of the sources at hand) *)

Module TenantContext.
Import Models.

(** Modelled from the spec: the scoped context stack of sections 3 and 4.1,
    an ordered stack of (tenant, database alias, prior schema) entries whose
    top is the active binding. The head of the list is the top. *)
Record entry := {
  entry_tenant : Tenant;
  entry_alias : pyval;
  entry_prior_schema : string
}.

Definition stack := list entry.

(** Modelled from the spec: [push] appends the binding. *)
Definition push (e : entry) (ctx : stack) : stack := e :: ctx.

(** Modelled from the spec: [pop] removes the top entry. *)
Definition pop (ctx : stack) : stack := tl ctx.

(** Modelled from the spec: [current_tenant] reads the top of the stack and
    is the no-tenant sentinel [None] when the stack is empty. *)
Definition get_tenant (ctx : stack) : option Tenant :=
  entry_tenant <$> head ctx.

(** Modelled from the spec: [current_alias], likewise; the sentinel is
    Python's [None]. *)
Definition get_db_alias (ctx : stack) : pyval :=
  default VNone (entry_alias <$> head ctx).

End TenantContext.

(** ** routers.py *)

Module Routers.
Import Django Models Utils.

(** [TenantRouter._get_scope] *)
Definition _get_scope (p : Project) (model : Model) : attr :=
  if negb (bool_decide (app_label model ∈ get_custom_apps p)) then Scope TENANT
  else
    match model_tenant_scope model with
    | Some (Scope scope) => Scope scope
    | _ =>
        match get_app_config p (app_label model) with
        | Return app_config => default (Scope TENANT) (app_tenant_scope app_config)
        | Raise _ => Scope TENANT
        end
    end.

(** [TenantRouter.db_for_read] *)
Definition db_for_read (p : Project) (ctx : TenantContext.stack) (model : Model) : pyval :=
  let scope := _get_scope p model in
  if attr_is scope MASTER then VStr (MASTER_DB_ALIAS p)
  else if attr_is scope SHARED then
    or_ (TenantContext.get_db_alias ctx) (VStr (MASTER_DB_ALIAS p))
  else TenantContext.get_db_alias ctx.

(** [TenantRouter.db_for_write] *)
Definition db_for_write (p : Project) (ctx : TenantContext.stack) (model : Model) : pyval :=
  db_for_read p ctx model.

(** [connection.settings_dict.get("OPTIONS", {}).get("options", "")] *)
Definition search_path_of (c : Connection) : string :=
  default "" (default ∅ (OPTIONS c) !! "options").

(** [settings.DEFAULT_SCHEMA_NAME in search_path or "search_path" not in search_path] *)
Definition is_public_schema (p : Project) (c : Connection) : bool :=
  let search_path := search_path_of c in
  str_in (DEFAULT_SCHEMA_NAME p) search_path || negb (str_in "search_path" search_path).

(** [tenant and tenant.isolation_type == BaseTenant.IsolationType.SCHEMA],
    as a condition *)
Definition is_schema_iso (tenant : option Tenant) : bool :=
  match tenant with
  | Some t => IsolationType_eqb (isolation_type t) SCHEMA
  | None => false
  end.

(** Step 4 of [allow_migrate], the routing logic matrix. *)
Definition routing_matrix (scope : attr) (tenant : option Tenant)
    (is_master_db is_public_schema : bool) : bool :=
  if attr_is scope MASTER then is_master_db && is_public_schema
  else if attr_is scope TENANT then
    if is_schema_iso tenant then is_master_db && negb is_public_schema
    else negb is_master_db && is_public_schema
  else if attr_is scope SHARED then
    let is_master_loc := is_master_db && is_public_schema in
    let is_tenant_loc :=
      if is_schema_iso tenant then is_master_db && negb is_public_schema
      else negb is_master_db in
    is_master_loc || is_tenant_loc
  else false.

(** Step 2 of [allow_migrate]: the scope of the model, or of the app when no
    model name is given. [Return None] is the early [return None]. *)
Definition migration_scope (p : Project) (app_label : string) (model_name : option string)
  : outcome (option attr) :=
  match model_name with
  | Some (String c rest) =>
      match get_model p app_label (String c rest) with
      | Return model => Return (Some (_get_scope p model))
      | Raise LookupError => Return None
      | Raise e => Raise e
      end
  | _ =>
      match get_app_config p app_label with
      | Return app_config => Return (Some (default (Scope TENANT) (app_tenant_scope app_config)))
      | Raise e => Raise e
      end
  end.

(** [TenantRouter.allow_migrate]; the result is [True], [False] or [None]. *)
Definition allow_migrate (p : Project) (ctx : TenantContext.stack)
    (db app_label : string) (model_name : option string) : outcome (option bool) :=
  if negb (bool_decide (app_label ∈ get_custom_apps p)) then Return (Some true)
  else
    match migration_scope p app_label model_name with
    | Raise e => Raise e
    | Return None => Return None
    | Return (Some scope) =>
        let is_master_db := String.eqb db (MASTER_DB_ALIAS p) in
        match connection p db with
        | Raise e => Raise e
        | Return conn =>
            Return (Some (routing_matrix scope (TenantContext.get_tenant ctx)
                            is_master_db (is_public_schema p conn)))
        end
    end.

End Routers.

(** ** backends/database_backend.py *)

Module DatabaseBackend.
Import Django Models.

(** [requests.structures.CaseInsensitiveDict(data)]: every key is stored
    under its lower-cased form, a later key replacing an earlier one that
    differs in case only. *)
Definition CaseInsensitiveDict (data : dict) : dict :=
  fold_left (fun store kv => dict_set (lower (fst kv)) (snd kv) store) data [].

(** [db_config.get(key)] on a [CaseInsensitiveDict] *)
Definition ci_get (key : string) (store : dict) : pyval := dict_get (lower key) store.

(** [key in db_config] on a [CaseInsensitiveDict] *)
Definition ci_has (key : string) (store : dict) : bool := dict_has (lower key) store.

(** [CaseInsensitiveDict(self.tenant.config.get("db_config", {}))] *)
Definition tenant_db_config (tenant : Tenant) : dict :=
  CaseInsensitiveDict (default [] (db_config tenant)).

(** [db_config.get("ALIAS") or db_config.get("NAME") or settings.MASTER_DB_ALIAS],
    as [activate] and [get_alias_and_config] both compute it *)
Definition db_alias_of (p : Project) (db_config : dict) : pyval :=
  or_ (or_ (ci_get "ALIAS" db_config) (ci_get "NAME" db_config)) (VStr (MASTER_DB_ALIAS p)).

(** [settings.DATABASES.get(settings.MASTER_DB_ALIAS, {}).copy()] *)
Definition master_config (p : Project) : dict :=
  default [] (snd <$> find (fun kv => String.eqb (fst kv) (MASTER_DB_ALIAS p)) (DATABASES p)).

(** [db_config.get(key) or base_config.get(key, default)] *)
Definition tenant_or_master (key : string) (dflt : pyval) (db_config base_config : dict)
  : pyval :=
  or_ (ci_get key db_config) (dict_get_default key dflt base_config).

(** [db_config.get(key) if key in db_config else base_config.get(key, default)] *)
Definition tenant_if_set (key : string) (dflt : pyval) (db_config base_config : dict)
  : pyval :=
  if ci_has key db_config then ci_get key db_config
  else dict_get_default key dflt base_config.

(** The dictionary literal [resolved_config = {...}] *)
Definition merged_config (p : Project) (db_config base_config : dict) : dict :=
  [ ("ENGINE", tenant_or_master "ENGINE" (VStr "django_omnitenant.backends.postgresql")
                 db_config base_config);
    ("NAME", tenant_or_master "NAME" VNone db_config base_config);
    ("USER", tenant_or_master "USER" VNone db_config base_config);
    ("PASSWORD", tenant_or_master "PASSWORD" VNone db_config base_config);
    ("HOST", tenant_or_master "HOST" VNone db_config base_config);
    ("PORT", tenant_or_master "PORT" VNone db_config base_config);
    ("OPTIONS", tenant_or_master "OPTIONS" (VDict []) db_config base_config);
    ("TIME_ZONE", tenant_or_master "TIME_ZONE" (VStr (TIME_ZONE p)) db_config base_config);
    ("ATOMIC_REQUESTS", tenant_if_set "ATOMIC_REQUESTS" (VBool false) db_config base_config);
    ("AUTOCOMMIT", tenant_if_set "AUTOCOMMIT" (VBool true) db_config base_config);
    ("CONN_MAX_AGE", tenant_if_set "CONN_MAX_AGE" (VInt 0) db_config base_config);
    ("CONN_HEALTH_CHECKS", tenant_if_set "CONN_HEALTH_CHECKS" (VBool false)
                             db_config base_config);
    ("TEST", tenant_if_set "TEST" (VDict []) db_config base_config) ].

(** [DatabaseTenantBackend.get_alias_and_config]. The result is what the
    call returns; that the TEST dictionary it writes to may be the one of
    the master configuration is not followed here. *)
Definition get_alias_and_config (p : Project) (tenant : Tenant) : outcome (pyval * dict) :=
  let db_config := tenant_db_config tenant in
  let db_alias := db_alias_of p db_config in
  let base_config := master_config p in
  let resolved_config := merged_config p db_config base_config in
  match dict_get "TEST" resolved_config with
  | VDict test =>
      if negb (truthy (dict_get "NAME" test)) then
        let test := dict_set "NAME" (dict_get "NAME" resolved_config) test in
        Return (db_alias, dict_set "TEST" (VDict test) resolved_config)
      else Return (db_alias, resolved_config)
  | _ => Raise AttributeError   (* resolved_config["TEST"] has no [get] *)
  end.

(** What a tenant gives for a field: the value of the last entry of its
    [db_config] whose key is the name of the field, whatever the case. *)
Definition tenant_value (field : string) (data : dict) : option pyval :=
  snd <$> find (fun kv => String.eqb (lower (fst kv)) (lower field)) (rev data).

(** The fields merged with [or], each with its hard default *)
Definition fields_merged_with_or (p : Project) : list (string * pyval) :=
  [ ("ENGINE", VStr "django_omnitenant.backends.postgresql");
    ("NAME", VNone); ("USER", VNone); ("PASSWORD", VNone); ("HOST", VNone);
    ("PORT", VNone); ("OPTIONS", VDict []); ("TIME_ZONE", VStr (TIME_ZONE p)) ].

(** The fields merged with a test of presence, each with its hard default *)
Definition fields_merged_if_present : list (string * pyval) :=
  [ ("ATOMIC_REQUESTS", VBool false); ("AUTOCOMMIT", VBool true);
    ("CONN_MAX_AGE", VInt 0); ("CONN_HEALTH_CHECKS", VBool false) ].

(** [DatabaseTenantBackend.activate], as far as the context stack goes: the
    alias is pushed for the tenant, together with the schema that was active.
    An alias that cannot be hashed fails the test [db_alias not in
    settings.DATABASES]. *)
Definition activate (p : Project) (tenant : Tenant) (active_schema : string)
    (ctx : TenantContext.stack) : outcome TenantContext.stack :=
  match db_alias_of p (tenant_db_config tenant) with
  | VList _ | VDict _ => Raise TypeError
  | db_alias =>
      Return (TenantContext.push
                {| TenantContext.entry_tenant := tenant;
                   TenantContext.entry_alias := db_alias;
                   TenantContext.entry_prior_schema := active_schema |} ctx)
  end.

(** [DatabaseTenantBackend.deactivate] *)
Definition deactivate (ctx : TenantContext.stack) : TenantContext.stack :=
  TenantContext.pop ctx.

(** An alias is usable when [alias or settings.MASTER_DB_ALIAS] is the alias
    itself. *)
Definition usable_alias (p : Project) (alias : pyval) : Prop :=
  or_ alias (VStr (MASTER_DB_ALIAS p)) = alias.

(** The context stacks a unit of work can be in: it starts with no tenant,
    and every step activates a tenant or deactivates the active one. The
    schema backend is not part of the sources at hand; by section 4.1 of the
    spec its alias is found the same way (explicit alias, else a derived
    name, else the master alias). *)
Inductive reachable (p : Project) : TenantContext.stack -> Prop :=
| reach_start : reachable p []
| reach_activate tenant active_schema ctx ctx' :
    reachable p ctx ->
    activate p tenant active_schema ctx = Return ctx' ->
    reachable p ctx'
| reach_deactivate ctx :
    reachable p ctx ->
    reachable p (deactivate ctx).

(** The double quote character *)
Definition dquote : ascii := "034"%char.

(** psycopg's [sql.Identifier], a library call: the name is wrapped in
    double quotes and every double quote inside it is doubled. *)
Fixpoint double_quotes (s : string) : string :=
  match s with
  | EmptyString => EmptyString
  | String c rest =>
      if Ascii.eqb c dquote then String dquote (String dquote (double_quotes rest))
      else String c (double_quotes rest)
  end.

Definition Identifier (s : string) : string :=
  String dquote (double_quotes s +:+ String dquote EmptyString).

(** [sql.SQL("CREATE DATABASE {}").format(sql.Identifier(db_name))] *)
Definition create_database_sql (db_name : string) : string :=
  "CREATE DATABASE " +:+ Identifier db_name.

(** The f-string of [_drop_database]: the name between two double quotes *)
Definition drop_database_sql (db_name : string) : string :=
  "DROP DATABASE IF EXISTS " +:+ String dquote (db_name +:+ String dquote EmptyString).

(** What the driver is asked to do, and what is printed, in the order of
    the calls. *)
Inductive driver_call :=
| Connect (dbname : string) (user password host port : pyval)
| SetAutocommit
| Cursor
| Execute (statement : string)
| Print (text : string)
| CloseCursor
| CloseConnection.

(** What a call logs and how it ends *)
Definition logged (A : Type) : Type := list driver_call * outcome A.

(** One call of the driver. [driver] is the answer of the driver, and of
    the server behind it, to a call. *)
Definition call (driver : driver_call -> outcome unit) (c : driver_call) : logged unit :=
  ([c], driver c).

(** [print(text)] *)
Definition print (text : string) : logged unit := ([Print text], Return tt).

(** [first; next] *)
Definition then_ {A B} (first : logged A) (next : logged B) : logged B :=
  match first with
  | (log, Return _) => ((log ++ fst next)%list, snd next)
  | (log, Raise e) => (log, Raise e)
  end.

(** [try: body except Exception as e: handler(e); raise] *)
Definition except_Exception_reraise {A} (body : logged A) (handler : exn -> logged unit)
  : logged A :=
  match body with
  | (log, Raise e) =>
      if is_Exception e then
        match handler e with
        | (log', Return _) => ((log ++ log')%list, Raise e)
        | (log', Raise e') => ((log ++ log')%list, Raise e')
        end
      else (log, Raise e)
  | done => done
  end.

(** [try: body finally: final]: [final] runs however [body] ends, and its
    own error, if it has one, is the one that goes on. *)
Definition finally {A} (body : logged A) (final : logged unit) : logged A :=
  match final with
  | (log', Return _) => ((fst body ++ log')%list, snd body)
  | (log', Raise e') => ((fst body ++ log')%list, Raise e')
  end.

(** The three lines before the [try] of both functions: connect to the
    [postgres] database, turn autocommit on, get a cursor. *)
Definition open_cursor (driver : driver_call -> outcome unit)
    (user password host port : pyval) : logged unit :=
  then_ (call driver (Connect "postgres" user password host port))
    (then_ (call driver SetAutocommit) (call driver Cursor)).

(** [cur.close(); conn.close()] *)
Definition close_all (driver : driver_call -> outcome unit) : logged unit :=
  then_ (call driver CloseCursor) (call driver CloseConnection).

(** [DatabaseTenantBackend._create_database]. The import of the driver's
    [sql] module inside the [try] is not followed: the module of the
    backend has loaded the driver already. *)
Definition _create_database (driver : driver_call -> outcome unit)
    (db_name : string) (user password host port : pyval) : logged unit :=
  then_ (open_cursor driver user password host port)
    (finally
       (except_Exception_reraise
          (then_ (call driver (Execute (create_database_sql db_name)))
             (print ("[DB BACKEND] Database '" +:+ db_name +:+ "' created.")))
          (fun e => print ("[DB BACKEND] Skipped DB create: " +:+ exn_str e)))
       (close_all driver)).

(** [DatabaseTenantBackend._drop_database] *)
Definition _drop_database (driver : driver_call -> outcome unit)
    (db_name : string) (user password host port : pyval) : logged unit :=
  then_ (open_cursor driver user password host port)
    (finally
       (then_ (call driver (Execute (drop_database_sql db_name)))
          (print ("[DB BACKEND] Database '" +:+ db_name +:+ "' dropped.")))
       (close_all driver)).

(** The driver lets the connection and the cursor open. *)
Definition opens (driver : driver_call -> outcome unit) (user password host port : pyval)
  : Prop :=
  driver (Connect "postgres" user password host port) = Return tt
  /\ driver SetAutocommit = Return tt
  /\ driver Cursor = Return tt.

(** The driver lets the cursor and the connection close. *)
Definition closes (driver : driver_call -> outcome unit) : Prop :=
  driver CloseCursor = Return tt /\ driver CloseConnection = Return tt.

(** The statement a driver call sends, if it sends one *)
Definition statement_of (c : driver_call) : option string :=
  match c with
  | Execute statement => Some statement
  | _ => None
  end.

(** How the server reads a quoted identifier, the other side of that
    escaping. [read_quoted s] expects [s] just after an opening double quote
    and returns the name up to the closing quote and the text that follows
    it; two double quotes in a row stand for one inside the name. *)
Fixpoint read_quoted (s : string) : option (string * string) :=
  match s with
  | EmptyString => None   (* the identifier is not closed *)
  | String c rest =>
      if Ascii.eqb c dquote then
        match rest with
        | String c' rest' =>
            if Ascii.eqb c' dquote then
              match read_quoted rest' with
              | Some (name, after) => Some (String dquote name, after)
              | None => None
              end
            else Some (EmptyString, rest)
        | EmptyString => Some (EmptyString, EmptyString)
        end
      else
        match read_quoted rest with
        | Some (name, after) => Some (String c name, after)
        | None => None
        end
  end.

(** The identifier a piece of SQL starts with, and what follows it. *)
Definition read_identifier (s : string) : option (string * string) :=
  match s with
  | String c rest => if Ascii.eqb c dquote then read_quoted rest else None
  | EmptyString => None
  end.

(** [s] without the prefix [pre], when it starts with it *)
Fixpoint strip_prefix (pre s : string) : option string :=
  match pre, s with
  | EmptyString, _ => Some s
  | String a pre', String b s' => if Ascii.eqb a b then strip_prefix pre' s' else None
  | String _ _, EmptyString => None
  end.

(** A statement names exactly the database [name]: after the keywords comes
    one quoted identifier that reads as [name], and nothing else. *)
Definition names_only (keywords statement name : string) : bool :=
  match strip_prefix keywords statement with
  | Some rest =>
      match read_identifier rest with
      | Some (name', after) => String.eqb name' name && String.eqb after ""
      | None => false
      end
  | None => false
  end.

End DatabaseBackend.

(** ** management/commands/migratetenants.py *)

Module MigrateTenants.
Import Django Models Utils.

Inductive style := MIGRATE_HEADING | SUCCESS | ERROR.

(** One call of [backend.migrate], with its positional arguments. *)
Record migrate_call := {
  call_backend : Backend;
  call_args : list string
}.

Section Command.

(** The databases behind the backends, whatever they are, and what a
    [migrate] call does to them: it returns or raises. *)
Context {World : Type}.
Variable backend_migrate : Backend -> list string -> World -> outcome unit * World.

(** What a run of the command leaves behind: the databases, the lines
    written to [self.stdout] and the [migrate] calls made, oldest first. *)
Record run_state := {
  world : World;
  stdout : list (style * string);
  calls : list migrate_call
}.

(** [self.stdout.write(self.style.X(text))] *)
Definition write (line : style * string) (st : run_state) : run_state :=
  {| world := world st; stdout := (stdout st ++ [line])%list; calls := calls st |}.

(** A call of [backend.migrate] with the positional arguments [args] *)
Definition migrate (backend : Backend) (args : list string) (st : run_state)
  : outcome unit * run_state :=
  let (r, w) := backend_migrate backend args (world st) in
  (r, {| world := w; stdout := stdout st;
         calls := (calls st ++ [{| call_backend := backend; call_args := args |}])%list |}).

(** A string or [None], as a condition *)
Definition given (s : option string) : bool :=
  match s with
  | Some s => negb (String.eqb s "")
  | None => false
  end.

(** [reset_all = app_label == "zero" and migration_name is None] *)
Definition is_reset_all (app_label migration_name : option string) : bool :=
  match app_label, migration_name with
  | Some l, None => String.eqb l "zero"
  | _, _ => false
  end.

(** The text after the tenant's name in the heading *)
Definition migration_target (reset_all : bool) (app_label migration_name : option string)
  : string :=
  if given app_label then
    " (app: " +:+ default "" app_label
    +:+ (if given migration_name then ", migration: " +:+ default "" migration_name else "")
    +:+ ")"
  else if reset_all then " (all apps: zero)"
  else "".

(** The three messages of the command *)
Definition heading (tenant : Tenant) (target : string) : style * string :=
  (MIGRATE_HEADING, "Migrating tenant: " +:+ tenant_id tenant +:+ target).

Definition migrated_message (tenant : Tenant) : style * string :=
  (SUCCESS, "Tenant '" +:+ tenant_id tenant +:+ "' migrated successfully.").

Definition failed_message (tenant : Tenant) (e : exn) : style * string :=
  (ERROR, "Migrations failed for tenant '" +:+ tenant_id tenant +:+ "': " +:+ exn_str e).

(** The errors the reset-all mode passes over:
    [except Exception as app_error] with
    ["does not have migrations" in str(app_error)] *)
Definition passed_over (app_error : exn) : bool :=
  is_Exception app_error && str_in "does not have migrations" (exn_str app_error).

(** The loop over the installed apps of the reset-all mode *)
Fixpoint migrate_apps_to_zero (backend : Backend) (labels : list string) (st : run_state)
  : outcome unit * run_state :=
  match labels with
  | [] => (Return tt, st)
  | l :: rest =>
      match migrate backend [l; "zero"] st with
      | (Return _, st') => migrate_apps_to_zero backend rest st'
      | (Raise app_error, st') =>
          if passed_over app_error then migrate_apps_to_zero backend rest st'
          else (Raise app_error, st')
      end
  end.

(** The body of the [try] statement, up to the success message *)
Definition migrate_one (p : Project) (reset_all : bool)
    (app_label migration_name : option string) (tenant : Tenant) (st : run_state)
  : outcome unit * run_state :=
  let backend := get_tenant_backend tenant in
  let (r, st') :=
    if reset_all then migrate_apps_to_zero backend (map label (app_configs p)) st
    else if given app_label then
      if given migration_name
      then migrate backend [default "" app_label; default "" migration_name] st
      else migrate backend [default "" app_label] st
    else migrate backend [] st in
  match r with
  | Return _ => (Return tt, write (migrated_message tenant) st')
  | Raise e => (Raise e, st')
  end.

(** The body of the loop over the tenants *)
Definition handle_tenant (p : Project) (reset_all : bool)
    (app_label migration_name : option string) (tenant : Tenant) (st : run_state)
  : outcome unit * run_state :=
  let st :=
    write (heading tenant (migration_target reset_all app_label migration_name)) st in
  match migrate_one p reset_all app_label migration_name tenant st with
  | (Return _, st') => (Return tt, st')
  | (Raise e, st') =>
      if is_Exception e then (Return tt, write (failed_message tenant e) st')
      else (Raise e, st')
  end.

(** The loop [for tenant in Tenant.objects.all()] *)
Fixpoint for_tenants (p : Project) (reset_all : bool)
    (app_label migration_name : option string) (tenants : list Tenant) (st : run_state)
  : outcome unit * run_state :=
  match tenants with
  | [] => (Return tt, st)
  | tenant :: rest =>
      match handle_tenant p reset_all app_label migration_name tenant st with
      | (Return _, st') => for_tenants p reset_all app_label migration_name rest st'
      | (Raise e, st') => (Raise e, st')
      end
  end.

(** [Command.handle]; [tenants] is [Tenant.objects.all()]. *)
Definition handle (p : Project) (tenants : list Tenant)
    (app_label migration_name : option string) (st : run_state)
  : outcome unit * run_state :=
  let reset_all := is_reset_all app_label migration_name in
  let app_label := if reset_all then None else app_label in
  for_tenants p reset_all app_label migration_name tenants st.

(** The heading of a tenant in a run of the command *)
Definition heading_of (app_label migration_name : option string) (tenant : Tenant)
  : style * string :=
  let reset_all := is_reset_all app_label migration_name in
  heading tenant
    (migration_target reset_all (if reset_all then None else app_label) migration_name).




End Command.

Arguments run_state World : clear implicits.

End MigrateTenants.

(** ** What the properties of the schema names are stated with *)

Module SchemaName.

(** A lower-case letter, a digit or an underscore *)
Definition is_schema_char (c : ascii) : bool :=
  let n := N_of_ascii c in
  (((97 <=? n) && (n <=? 122)) || ((48 <=? n) && (n <=? 57)) || (n =? 95))%N.

(** Every character of the string passes the test. *)
Fixpoint all_chars (test : ascii -> bool) (s : string) : bool :=
  match s with
  | EmptyString => true
  | String c rest => test c && all_chars test rest
  end.

(** A name PostgreSQL takes as a schema name without quoting, in the sense
    of the docstring of [convert_to_valid_pgsql_schema_name]: not empty, at
    most 63 characters, lower-case letters, digits and underscores only, and
    not starting with the reserved prefix. *)
Definition valid_schema_name (s : string) : Prop :=
  s <> ""
  /\ (String.length s <= 63)%nat
  /\ all_chars is_schema_char s = true
  /\ String.prefix "pg_" s = false.

End SchemaName.

(** ** routers.py, continued *)

Module RouterRelations.
Import Django Models Routers.

(** [a == b] on Python values. [True] and [False] are the integers 1 and 0;
    lists are compared item by item; two dictionaries are equal when they
    have as many keys and each key of the first has an equal value in the
    second. *)
Fixpoint py_eq (a b : pyval) : bool :=
  match a, b with
  | VNone, VNone => true
  | VBool x, VBool y => Bool.eqb x y
  | VBool x, VInt n => (if x then 1 else 0) =? n
  | VInt n, VBool x => n =? (if x then 1 else 0)
  | VInt m, VInt n => m =? n
  | VStr s, VStr t => String.eqb s t
  | VList l, VList l' =>
      (fix items (l l' : list pyval) : bool :=
         match l, l' with
         | [], [] => true
         | x :: l, y :: l' => py_eq x y && items l l'
         | _, _ => false
         end) l l'
  | VDict d, VDict d' =>
      Nat.eqb (length d) (length d')
      && (fix entries (d : list (string * pyval)) : bool :=
            match d with
            | [] => true
            | (k, v) :: d => dict_has k d' && py_eq v (dict_get k d') && entries d
            end) d
  | _, _ => false
  end.

(** [TenantRouter.allow_relation] *)
Definition allow_relation (p : Project) (ctx : TenantContext.stack) (obj1 obj2 : Model)
  : bool :=
  py_eq (db_for_read p ctx obj1) (db_for_read p ctx obj2).

(** A value that is neither a list nor a dictionary *)
Definition is_scalar (v : pyval) : bool :=
  match v with
  | VList _ | VDict _ => false
  | _ => true
  end.

End RouterRelations.

(** ** What the properties of [allow_migrate] are stated with *)

Module MigrationPlaces.
Import Django Models.

(** A connection that was opened on the schema [schema]: the option it
    gives PostgreSQL is [-c search_path=schema]. *)
Definition connection_on_schema (schema : string) : Connection :=
  {| OPTIONS := Some {[ "options" := "-c search_path=" +:+ schema ]} |}.

(** A connection that gives no options, and so is on the schema the server
    starts with, the default one *)
Definition connection_on_default : Connection := {| OPTIONS := None |}.

(** A tenant is active, and it is schema-isolated. *)
Definition schema_tenant_active (ctx : TenantContext.stack) : Prop :=
  exists tenant, TenantContext.get_tenant ctx = Some tenant
                 /\ isolation_type tenant = SCHEMA.

End MigrationPlaces.

(** ** patches/settings.py *)

Module SettingsPatch.

Definition TenantRouter : string := "django_omnitenant.routers.TenantRouter".

(** [list(v)]: the items of a list, the characters of a string, the keys of
    a dictionary; no other value of the model can be iterated. *)
Definition py_list (v : pyval) : outcome (list pyval) :=
  match v with
  | VList l => Return l
  | VStr s => Return (map (fun c => VStr (String c EmptyString)) (list_ascii_of_string s))
  | VDict d => Return (map (fun kv => VStr (fst kv)) d)
  | _ => Raise TypeError
  end.

(** [router in routers], for a string [router]: only a string equals it *)
Definition listed (router : string) (routers : list pyval) : bool :=
  existsb (fun v => match v with VStr s => String.eqb s router | _ => false end) routers.

(** [patch_django_settings], on the attributes of Django's settings once
    they are loaded. Deleting the attribute and setting it on the wrapped
    object leaves it set to the new list. *)
Definition patch_django_settings (settings : gmap string pyval)
  : outcome (gmap string pyval) :=
  match py_list (default (VList []) (settings !! "DATABASE_ROUTERS")) with
  | Raise e => Raise e
  | Return current_routers =>
      if negb (listed TenantRouter current_routers) then
        Return (<["DATABASE_ROUTERS" := VList (current_routers ++ [VStr TenantRouter])]>
                  settings)
      else Return settings
  end.

End SettingsPatch.

(** ** management/commands/createtenantsuperuser.py *)

Module CreateTenantSuperuser.
Import Models.

(** [CommandError(msg)], an instance of [Exception] *)
Definition CommandError (msg : string) : exn := Exception msg.

(** [Tenant.objects.get(tenant_id=tenant_id)]: the one tenant of that
    identifier; [None] when there is none ([Tenant.DoesNotExist]). The
    identifier is unique among the tenants, so the first match is the
    match. *)
Definition get_tenant (tenants : list Tenant) (id : string) : option Tenant :=
  find (fun t => String.eqb (tenant_id t) id) tenants.

(** [db_config.get("DB_ALIAS", db_config.get("NAME"))] with
    [db_config = tenant.config.get("db_config", {})], a plain dictionary *)
Definition database_option (tenant : Tenant) : pyval :=
  let db_config := default [] (db_config tenant) in
  dict_get_default "DB_ALIAS" (dict_get "NAME" db_config) db_config.

(** What the command hands over to Django's [createsuperuser]: the tenant
    whose context is entered and, when the command sets it, the [database]
    option. *)
Record superuser_call := {
  in_tenant : Tenant;
  database : option pyval
}.

Section Command.

(** [tenant.name], which the tenant record at hand does not carry, and the
    [handle] of Django's command, which returns or raises. *)
Variable tenant_name : Tenant -> string.
Variable createsuperuser : superuser_call -> outcome unit.

(** [Command.handle]: the lines written, the call made if any, and the
    outcome. *)
Definition handle (tenants : list Tenant) (id : string)
  : list string * option superuser_call * outcome unit :=
  match get_tenant tenants id with
  | None =>
      ([], None,
       Raise (CommandError
                ("Tenant with id '" +:+ id +:+ "' does not exist. "
                 +:+ "Create tenant first using: python manage.py createtenant")))
  | Some tenant =>
      let call :=
        {| in_tenant := tenant;
           database :=
             if IsolationType_eqb (isolation_type tenant) DATABASE
             then Some (database_option tenant)
             else None |} in
      (["Using tenant: " +:+ tenant_name tenant], Some call, createsuperuser call)
  end.

End Command.

End CreateTenantSuperuser.

(** ** bootstrap.py *)

Module Bootstrap.
Import Django Conf.

(** [s.split(".")] *)
Fixpoint split_dots (s : string) : list string :=
  match s with
  | EmptyString => [EmptyString]
  | String c rest =>
      if Ascii.eqb c "."%char then EmptyString :: split_dots rest
      else match split_dots rest with
           | part :: parts => String c part :: parts
           | [] => [String c EmptyString]
           end
  end.

(** Django's [apps.get_model(path)] with one argument: the path is split
    into an app label and a model name at its one dot, and both are looked
    up. *)
Definition get_model_by_path (p : Project) (path : option object) : outcome Model :=
  match path with
  | Some (OStr s) =>
      match split_dots s with
      | [app_label; model_name] => get_model p app_label model_name
      | [_] => Raise (ValueError "not enough values to unpack (expected 2, got 1)")
      | _ => Raise (ValueError "too many values to unpack (expected 2)")
      end
  | _ => Raise AttributeError   (* no [split] *)
  end.

Section Bootstrapper.

(** The key [constants.PATCHES] ([constants.py] is not part of the sources
    at hand), Python's [str] on the objects a message is made of, and what
    importing a module does to the process, whatever that is. *)
Variable PATCHES : string.
Variable py_str : list object -> loc -> string.
Context {World : Type}.
Variable import_module : list object -> loc -> World -> outcome unit * World.

(** The settings wrapper with the objects of the process, the list
    [self._patches], the rest of the process, and the modules
    [import_module] was called for, oldest first. *)
Record state := {
  settings : Conf.state;
  _patches : loc;
  world : World;
  imported : list loc
}.

Definition with_settings (st : state) (s : Conf.state) : state :=
  {| settings := s; _patches := _patches st; world := world st; imported := imported st |}.

(** [_BootStrapper.__init__] *)
Definition __init__ (s : Conf.state) (w : World) : state :=
  let (cache_patch, s1) := new (OStr "django_omnitenant.patches.cache") s in
  let (celery_patch, s2) := new (OStr "django_omnitenant.patches.celery") s1 in
  let (settings_patch, s3) := new (OStr "django_omnitenant.patches.settings") s2 in
  let (patches, s4) := new (OList [cache_patch; celery_patch; settings_patch]) s3 in
  {| settings := s4; _patches := patches; world := w; imported := [] |}.

(** [self._patches.extend(patches)] for the items of [patches] *)
Definition extend (st : state) (s : Conf.state) (items : list loc) : outcome unit * state :=
  match heap s !! _patches st with
  | Some (OList own) =>
      (Return tt,
       with_settings st
         {| wrapper_dict := wrapper_dict s;
            django_settings := django_settings s;
            heap := <[_patches st := OList (own ++ items)]> (heap s) |})
  | _ => (Raise AttributeError, with_settings st s)   (* no [extend] *)
  end.

(** [_BootStrapper._parse]. The default of [get] is the list
    [self._patches] itself. *)
Definition _parse (st : state) : outcome unit * state :=
  match getattr "OMNITENANT_CONFIG" (settings st) with
  | (Raise e, s) => (Raise e, with_settings st s)
  | (Return config, s) =>
      match heap s !! config with
      | Some (ODict entries) =>
          let patches := default (_patches st) (entries_get PATCHES entries) in
          match heap s !! patches with
          | Some (OList items) => extend st s items
          | Some (OTuple items) =>
              let (_, s') := new (OList items) s in   (* [patches = list(patches)] *)
              extend st s' items
          | _ =>
              (Raise (ImproperlyConfigured
                        ("OMNITENANT_CONFIG['" +:+ PATCHES
                         +:+ "'] must be a list of patch module paths.")),
               with_settings st s)
          end
      | _ => (Raise AttributeError, with_settings st s)   (* no [get] *)
      end
  end.

(** [get_tenant_model()] of utils.py: [apps.get_model(settings.TENANT_MODEL)] *)
Definition get_tenant_model (p : Project) (s : Conf.state) : outcome Model * Conf.state :=
  match getattr "TENANT_MODEL" s with
  | (Return path, s') => (get_model_by_path p (heap s' !! path), s')
  | (Raise e, s') => (Raise e, s')
  end.

Definition TENANT_MODEL_undefined : string :=
  "OMNITENANT_CONFIG must define 'TENANT_MODEL'. Example:" +:+ String "010"%char
    "OMNITENANT_CONFIG = { 'TENANT_MODEL': 'myapp.Tenant' }".

Definition PUBLIC_HOST_undefined : string :=
  "OMNITENANT_CONFIG must define 'PUBLIC_HOST'. Example:" +:+ String "010"%char
    "OMNITENANT_CONFIG = { 'PUBLIC_HOST': 'localhost' }".

(** [_BootStrapper._run_validation]. [settings.OMNITENANT_CONFIG.get(key,
    default)] is the [config_get] of the wrapper itself. Every model of
    Django's registry is a subclass of [Model], so the third step lets it
    pass. *)
Definition _run_validation (p : Project) (s : Conf.state) : outcome unit * Conf.state :=
  match config_get "TENANT_MODEL" (OStr "") s with
  | (Raise e, s1) => (Raise e, s1)
  | (Return tenant_model_path, s1) =>
      if negb (truthy_at s1 tenant_model_path) then
        (Raise (ImproperlyConfigured TENANT_MODEL_undefined), s1)
      else
        match get_tenant_model p s1 with
        | (Raise LookupError, s2) =>
            (Raise (ImproperlyConfigured
                      ("Could not find tenant model '"
                       +:+ py_str (heap s2) tenant_model_path
                       +:+ "'. Check your OMNITENANT_CONFIG in settings.py.")),
             s2)
        | (Raise e, s2) => (Raise e, s2)
        | (Return model, s2) =>
            match config_get "PUBLIC_HOST" (OStr "") s2 with
            | (Raise e, s3) => (Raise e, s3)
            | (Return public_host, s3) =>
                if negb (truthy_at s3 public_host) then
                  (Raise (ImproperlyConfigured PUBLIC_HOST_undefined), s3)
                else (Return tt, s3)
            end
        end
  end.

(** The loop of [_BootStrapper._run_patches] over the patches left to
    import *)
Fixpoint import_patches (objects : list object) (patches : list loc) (w : World)
    (log : list loc) : outcome unit * World * list loc :=
  match patches with
  | [] => (Return tt, w, log)
  | patch :: rest =>
      match import_module objects patch w with
      | (Return _, w') => import_patches objects rest w' (log ++ [patch])%list
      | (Raise e, w') =>
          if is_Exception e then
            (Raise (Exception ("Unable to import patch module " +:+ py_str objects patch
                               +:+ " due to: " +:+ exn_str e)),
             w', (log ++ [patch])%list)
          else (Raise e, w', (log ++ [patch])%list)
      end
  end.

(** [_BootStrapper._run_patches] *)
Definition _run_patches (st : state) : outcome unit * state :=
  match heap (settings st) !! _patches st with
  | Some (OList patches) =>
      match import_patches (heap (settings st)) patches (world st) (imported st) with
      | (r, w, log) =>
          (r, {| settings := settings st; _patches := _patches st;
                 world := w; imported := log |})
      end
  | _ => (Raise TypeError, st)   (* [self._patches] is a list *)
  end.

(** [_BootStrapper.run] *)
Definition run (p : Project) (st : state) : outcome unit * state :=
  match _parse st with
  | (Raise e, st1) => (Raise e, st1)
  | (Return _, st1) =>
      match _run_validation p (settings st1) with
      | (Raise e, s) => (Raise e, with_settings st1 s)
      | (Return _, s) => _run_patches (with_settings st1 s)
      end
  end.

End Bootstrapper.

Arguments state World : clear implicits.

End Bootstrap.

(** ** What the properties of [migratetenants] are stated with *)

Module BatchReport.
Import Models Utils MigrateTenants.

(** The two lines the command writes for a tenant: its heading, then that
    it was migrated or that it failed with an error. *)
Definition tenant_report (app_label migration_name : option string) (tenant : Tenant)
    (failure : option exn) : list (style * string) :=
  [ heading_of app_label migration_name tenant;
    match failure with
    | None => migrated_message tenant
    | Some e => failed_message tenant e
    end ].

Fixpoint report (app_label migration_name : option string) (tenants : list Tenant)
    (failures : list (option exn)) : list (style * string) :=
  match tenants, failures with
  | tenant :: tenants, failure :: failures =>
      (tenant_report app_label migration_name tenant failure
       ++ report app_label migration_name tenants failures)%list
  | _, _ => []
  end.

(** The positional arguments of [backend.migrate] outside the reset-all
    mode: the app label if there is one, then the migration name if there is
    one. *)
Definition plain_args (app_label migration_name : option string) : list string :=
  if given app_label then
    if given migration_name
    then [default "" app_label; default "" migration_name]
    else [default "" app_label]
  else [].

End BatchReport.

(** ** A small project to run the definitions on *)

Module Examples.
Import Django Models.

Definition hrms_app : AppConfig :=
  {| label := "hrms"; name := "hrms"; path := "/srv/project/hrms";
     app_tenant_scope := None |}.

Definition sessions_app : AppConfig :=
  {| label := "sessions"; name := "django.contrib.sessions";
     path := "/usr/lib/python3/site-packages/django/contrib/sessions";
     app_tenant_scope := None |}.

(** Three models of the custom app, one per scope, and one of Django's. *)
Definition Employee : Model :=
  {| app_label := "hrms"; model_tenant_scope := Some (Scope TENANT) |}.

Definition Plan : Model :=
  {| app_label := "hrms"; model_tenant_scope := Some (Scope MASTER) |}.

Definition Country : Model :=
  {| app_label := "hrms"; model_tenant_scope := Some (Scope SHARED) |}.

Definition Session : Model :=
  {| app_label := "sessions"; model_tenant_scope := None |}.

Definition models_by_name (l model_name : string) : option Model :=
  if String.eqb l "hrms" then
    if String.eqb model_name "Employee" then Some Employee
    else if String.eqb model_name "Plan" then Some Plan
    else if String.eqb model_name "Country" then Some Country
    else None
  else if String.eqb l "sessions" && String.eqb model_name "Session" then Some Session
  else None.

(** The master database on its default schema, and the database of a
    tenant whose connection selects a schema of its own. *)
Definition connections_by_alias (db : string) : option Connection :=
  if String.eqb db "default" then Some {| OPTIONS := None |}
  else if String.eqb db "acme_db" then
    Some {| OPTIONS := Some {[ "options" := "-c search_path=acme" ]} |}
  else None.

Definition project : Project :=
  {| MASTER_DB_ALIAS := "default";
     DEFAULT_SCHEMA_NAME := "public";
     CUSTOM_APPS := Some ["hrms"];
     BASE_DIR := "/srv/project";
     TIME_ZONE := "UTC";
     DATABASES := [("default", [("HOST", VStr "b"); ("PORT", VInt 5432)])];
     app_configs := [hrms_app; sessions_app];
     registered_model := models_by_name;
     connections := connections_by_alias |}.

Definition tenant_A : Tenant :=
  {| tenant_id := "A"; isolation_type := DATABASE;
     db_config := Some [("NAME", VStr "a_db")] |}.

Definition tenant_B : Tenant :=
  {| tenant_id := "B"; isolation_type := DATABASE;
     db_config := Some [("NAME", VStr "b_db")] |}.

Definition tenant_C : Tenant :=
  {| tenant_id := "C"; isolation_type := SCHEMA; db_config := None |}.

(** A tenant that overrides the host only *)
Definition tenant_host_a : Tenant :=
  {| tenant_id := "acme"; isolation_type := DATABASE;
     db_config := Some [("HOST", VStr "a")] |}.

(** A tenant whose host is the empty string, Django's way of asking for a
    local socket *)
Definition tenant_local_socket : Tenant :=
  {| tenant_id := "local"; isolation_type := DATABASE;
     db_config := Some [("NAME", VStr "local_db"); ("HOST", VStr "")] |}.

(** The context of a unit of work that activated tenant A *)
Definition ctx_A : TenantContext.stack :=
  [ {| TenantContext.entry_tenant := tenant_A;
       TenantContext.entry_alias := VStr "a_db";
       TenantContext.entry_prior_schema := "public" |} ].

(** A database name with a double quote in it: [a], a double quote, a
    space and two dashes *)
Definition hostile_name : string :=
  "a" +:+ String DatabaseBackend.dquote " --".

(** Backends over no database at all: the [migrate] of tenant B raises the
    given error, every other one returns. *)
Definition migrate_B_raises (e : exn) (backend : Utils.Backend) (args : list string)
    (w : unit) : outcome unit * unit :=
  let tenant :=
    match backend with
    | Utils.SchemaTenantBackend t | Utils.DatabaseTenantBackend t => t
    end in
  if String.eqb (tenant_id tenant) "B" then (Raise e, w) else (Return tt, w).

Definition nothing_run : MigrateTenants.run_state unit :=
  {| MigrateTenants.world := tt; MigrateTenants.stdout := []; MigrateTenants.calls := [] |}.

Definition duplicate_key : exn := Exception "IntegrityError: duplicate key value".


(** Settings nothing was read from yet: Django's settings have the
    configuration, a dictionary with the public host. Then the same after
    [settings.TIME_ZONE] was read, and what client code goes on to do. *)
Definition settings_fresh : Conf.state :=
  {| Conf.wrapper_dict := ∅;
     Conf.django_settings := {[ "OMNITENANT_CONFIG" := 1%nat ]};
     Conf.heap := [ Conf.OStr "example.com"; Conf.ODict [("PUBLIC_HOST", 0%nat)] ] |}.

Definition settings_read : Conf.state := snd (Conf.getattr "TIME_ZONE" settings_fresh).

Definition later_actions : list Conf.action :=
  [ Conf.New (Conf.OBool true); Conf.Set_ "DEBUG" 3%nat; Conf.Get "PUBLIC_HOST";
    Conf.New (Conf.OStr "Europe/Paris"); Conf.Set_ "TIME_ZONE" 6%nat;
    Conf.DjangoSet "TIME_ZONE" 6%nat; Conf.Get "TIME_ZONE";
    Conf.Change 1%nat (Conf.ODict []) ].

End Examples.

(** ** More of the same, for the further properties *)

Module MoreExamples.
Import Django Models Examples.

(** An app whose configuration gives its scope as a string *)
Definition legacy_app : AppConfig :=
  {| label := "legacy"; name := "legacy"; path := "/srv/project/legacy";
     app_tenant_scope := Some (Other (VStr "master")) |}.

Definition Invoice : Model :=
  {| app_label := "legacy"; model_tenant_scope := None |}.

Definition more_models_by_name (l model_name : string) : option Model :=
  if String.eqb l "legacy" && String.eqb model_name "Invoice" then Some Invoice
  else models_by_name l model_name.

(** The example project with that app, and with a custom app, [billing],
    that is listed but not installed *)
Definition larger_project : Project :=
  {| MASTER_DB_ALIAS := "default";
     DEFAULT_SCHEMA_NAME := "public";
     CUSTOM_APPS := Some ["hrms"; "legacy"; "billing"];
     BASE_DIR := "/srv/project";
     TIME_ZONE := "UTC";
     DATABASES := [("default", [("HOST", VStr "b"); ("PORT", VInt 5432)])];
     app_configs := [hrms_app; legacy_app; sessions_app];
     registered_model := more_models_by_name;
     connections := connections_by_alias |}.

(** A tenant that sets TEST to [None], and one that writes its keys in
    lower case *)
Definition tenant_test_none : Tenant :=
  {| tenant_id := "broken"; isolation_type := DATABASE;
     db_config := Some [("NAME", VStr "t_db"); ("TEST", VNone)] |}.

Definition tenant_host_lower : Tenant :=
  {| tenant_id := "acme"; isolation_type := DATABASE;
     db_config := Some [("host", VStr "a")] |}.

(** The settings of the example after [settings.OMNITENANT_CONFIG] was
    read; what a process may do then: put another configuration in
    Django's settings, and change the one that was read in place, giving
    it another public host; and settings that name a tenant model. *)
Definition settings_config_read : Conf.state :=
  snd (Conf.getattr "OMNITENANT_CONFIG" settings_fresh).

Definition config_changes : list Conf.action :=
  [ Conf.New (Conf.ODict []); Conf.DjangoSet "OMNITENANT_CONFIG" 3%nat;
    Conf.New (Conf.OStr "other.org");
    Conf.Change 1%nat (Conf.ODict [("PUBLIC_HOST", 4%nat)]) ].

Definition settings_with_model : Conf.state :=
  {| Conf.wrapper_dict := ∅;
     Conf.django_settings := {[ "OMNITENANT_CONFIG" := 2%nat ]};
     Conf.heap :=
       [ Conf.OStr "hrms.Employee"; Conf.OStr "example.com";
         Conf.ODict [("TENANT_MODEL", 0%nat); ("PUBLIC_HOST", 1%nat)] ] |}.

(** Django settings with a router of the project, the same after the
    patch, and a tenant that gives an alias *)
Definition django_with_router : gmap string pyval :=
  {[ "DATABASE_ROUTERS" := VList [VStr "myapp.routers.ReplicaRouter"] ]}.

Definition django_patched : gmap string pyval :=
  <[ "DATABASE_ROUTERS" :=
       VList [VStr "myapp.routers.ReplicaRouter"; VStr SettingsPatch.TenantRouter] ]>
    django_with_router.


(** Start-up: the text of a module path, a process that counts what it
    imported and has every module but [myapp.missing], settings that name a
    patch of the project in a tuple, the bootstrapper as [__init__] leaves
    it, and one whose list has a module that is missing. *)
Definition path_text (objects : list Conf.object) (patch : nat) : string :=
  match objects !! patch with
  | Some (Conf.OStr s) => s
  | _ => ""
  end.

Definition import_counted (objects : list Conf.object) (patch : nat) (count : nat)
  : outcome unit * nat :=
  if String.eqb (path_text objects patch) "myapp.missing"
  then (Raise (Exception "No module named 'myapp.missing'"), count)
  else (Return tt, S count).

Definition settings_with_patch : Conf.state :=
  {| Conf.wrapper_dict := ∅;
     Conf.django_settings := {[ "OMNITENANT_CONFIG" := 4%nat ]};
     Conf.heap :=
       [ Conf.OStr "hrms.Employee"; Conf.OStr "example.com";
         Conf.OStr "myapp.patches.custom"; Conf.OTuple [2%nat];
         Conf.ODict [("TENANT_MODEL", 0%nat); ("PUBLIC_HOST", 1%nat);
                     ("PATCHES", 3%nat)] ] |}.

Definition bootstrapper : Bootstrap.state nat := Bootstrap.__init__ settings_with_patch 0%nat.

Definition bootstrapper_missing : Bootstrap.state nat :=
  {| Bootstrap.settings :=
       {| Conf.wrapper_dict := ∅;
          Conf.django_settings := ∅;
          Conf.heap :=
            [ Conf.OStr "django_omnitenant.patches.cache"; Conf.OStr "myapp.missing";
              Conf.OStr "myapp.patches.custom";
              Conf.OList [0%nat; 1%nat; 2%nat] ] |};
     Bootstrap._patches := 3%nat;
     Bootstrap.world := 0%nat;
     Bootstrap.imported := [] |}.

(** A tenant called Republic on a schema of its own, [republic], the
    context of a unit of work that activated it, and the example project
    with its connections on that schema: the one of the master alias, as
    the schema backend leaves it while the tenant is active, and the one of
    a database of that name. *)
Definition tenant_republic : Tenant :=
  {| tenant_id := "Republic"; isolation_type := SCHEMA; db_config := None |}.

Definition ctx_republic : TenantContext.stack :=
  [ {| TenantContext.entry_tenant := tenant_republic;
       TenantContext.entry_alias := VStr "default";
       TenantContext.entry_prior_schema := "public" |} ].

Definition connections_on_republic (db : string) : option Connection :=
  if String.eqb db "default" || String.eqb db "republic_db"
  then Some (MigrationPlaces.connection_on_schema "republic")
  else connections_by_alias db.

Definition project_on_republic : Project :=
  {| MASTER_DB_ALIAS := "default";
     DEFAULT_SCHEMA_NAME := "public";
     CUSTOM_APPS := Some ["hrms"];
     BASE_DIR := "/srv/project";
     TIME_ZONE := "UTC";
     DATABASES := [("default", [("HOST", VStr "b"); ("PORT", VInt 5432)])];
     app_configs := [hrms_app; sessions_app];
     registered_model := models_by_name;
     connections := connections_on_republic |}.

(** The context of a unit of work that activated the schema-isolated
    tenant C *)
Definition ctx_C : TenantContext.stack :=
  [ {| TenantContext.entry_tenant := tenant_C;
       TenantContext.entry_alias := VStr "default";
       TenantContext.entry_prior_schema := "public" |} ].

(** A server on which the database is there already, and a host on which
    no server listens *)
Definition driver_database_exists (c : DatabaseBackend.driver_call) : outcome unit :=
  match c with
  | DatabaseBackend.Execute _ => Raise (Exception "database acme_db already exists")
  | _ => Return tt
  end.

Definition driver_no_server (c : DatabaseBackend.driver_call) : outcome unit :=
  match c with
  | DatabaseBackend.Connect _ _ _ _ _ => Raise (Exception "connection refused")
  | _ => Return tt
  end.

End MoreExamples.

(** * Properties *)

(** ** The context stack and the aliases on it *)

Section ContextFacts.
Import Django Models DatabaseBackend.

Variable p : Project.

Lemma or_usable (a : pyval) : usable_alias p (or_ a (VStr (MASTER_DB_ALIAS p))).
Proof.
  unfold usable_alias, or_.
  destruct (truthy a) eqn:Ha.
  - now rewrite Ha.
  - now destruct (truthy (VStr (MASTER_DB_ALIAS p))).
Qed.

(** The alias [activate] computes is usable: the chain of [or] ends in the
    master alias. *)
Lemma db_alias_of_usable (cfg : dict) : usable_alias p (db_alias_of p cfg).
Proof. apply or_usable. Qed.

Lemma activate_pushes tenant active_schema ctx ctx' :
  activate p tenant active_schema ctx = Return ctx' ->
  exists e, ctx' = e :: ctx
            /\ TenantContext.entry_tenant e = tenant
            /\ TenantContext.entry_alias e = db_alias_of p (tenant_db_config tenant).
Proof.
  unfold activate, TenantContext.push. intros H.
  destruct (db_alias_of p (tenant_db_config tenant)) eqn:E;
    inversion H; subst; eexists; (split; [reflexivity|]); simpl; auto.
Qed.

(** Every alias on a reachable stack is usable. *)
Lemma reachable_usable ctx :
  reachable p ctx -> Forall (fun e => usable_alias p (TenantContext.entry_alias e)) ctx.
Proof.
  induction 1 as [| tenant sch ctx ctx' Hr IH Hact | ctx Hr IH].
  - constructor.
  - destruct (activate_pushes _ _ _ _ Hact) as (e & -> & _ & Ha).
    constructor; [| exact IH].
    rewrite Ha. apply db_alias_of_usable.
  - unfold deactivate, TenantContext.pop.
    destruct ctx as [| e ctx]; simpl; [constructor |].
    now inversion IH.
Qed.

End ContextFacts.

(** ** The router: reads and writes *)

Section RouterReads.
Import Django Models Utils Routers.

Variable p : Project.

Lemma scope_is_refl (s : TenantScope) : attr_is (Scope s) s = true.
Proof. now destruct s. Qed.

Lemma get_db_alias_top (ctx : TenantContext.stack) :
  TenantContext.get_db_alias ctx
  = match ctx with
    | e :: _ => TenantContext.entry_alias e
    | [] => VNone
    end.
Proof. now destruct ctx. Qed.

(** A model of an app that is not a custom app has the default scope. *)
Lemma external_app_scope (model : Model) :
  app_label model ∉ get_custom_apps p -> _get_scope p model = Scope TENANT.
Proof.
  intros Hout. unfold _get_scope.
  now rewrite bool_decide_eq_false_2.
Qed.

(** C1. Reads and writes are routed by the scope of the model: a MASTER
    model goes to the master alias whatever tenant is active; a TENANT model
    goes to the alias of the active tenant, and to [None] when no tenant is
    active; a SHARED model goes to the alias of the active tenant when there
    is one and to the master alias otherwise. [db_for_write] gives what
    [db_for_read] gives. For the SHARED model the context is any stack that
    activations and deactivations lead to: the alias they push is never
    one that [or] would pass over. *)
Theorem db_for_read_by_scope (ctx : TenantContext.stack) (model : Model) :
  db_for_write p ctx model = db_for_read p ctx model
  /\ (_get_scope p model = Scope MASTER ->
      db_for_read p ctx model = VStr (MASTER_DB_ALIAS p))
  /\ (_get_scope p model = Scope TENANT ->
      db_for_read p ctx model
      = match ctx with
        | active :: _ => TenantContext.entry_alias active
        | [] => VNone
        end)
  /\ (_get_scope p model = Scope SHARED ->
      DatabaseBackend.reachable p ctx ->
      db_for_read p ctx model
      = match ctx with
        | active :: _ => TenantContext.entry_alias active
        | [] => VStr (MASTER_DB_ALIAS p)
        end).
Proof.
  split; [reflexivity |].
  unfold db_for_read.
  repeat split; intros ->; simpl.
  - reflexivity.
  - apply get_db_alias_top.
  - intros Hreach. rewrite get_db_alias_top.
    destruct ctx as [| active rest]; [reflexivity |].
    apply reachable_usable in Hreach.
    inversion Hreach as [| ? ? Hactive _]; subst.
    exact Hactive.
Qed.

(** C9. A model whose app is not in the list of custom apps is routed as a
    TENANT model: reads and writes go to the alias of the active tenant, or
    to [None] when none is active, never to the master alias by default;
    yet migrations of that app are allowed on every database, whatever
    schema is active, even for an alias no connection goes by. *)
Theorem external_app_routing (ctx : TenantContext.stack) (model : Model) :
  app_label model ∉ get_custom_apps p ->
  _get_scope p model = Scope TENANT
  /\ db_for_read p ctx model
     = match ctx with
       | active :: _ => TenantContext.entry_alias active
       | [] => VNone
       end
  /\ db_for_write p ctx model = db_for_read p ctx model
  /\ forall db model_name,
       allow_migrate p ctx db (app_label model) model_name = Return (Some true).
Proof.
  intros Hout.
  pose proof (external_app_scope model Hout) as Hscope.
  repeat split.
  - exact Hscope.
  - unfold db_for_read. rewrite Hscope. simpl. apply get_db_alias_top.
  - intros db model_name. unfold allow_migrate.
    now rewrite bool_decide_eq_false_2.
Qed.

End RouterReads.

(** ** The router: the migration matrix *)

Section RouterMigrations.
Import Django Models Utils Routers.

Variable p : Project.
Variable ctx : TenantContext.stack.

(** For an entity of a custom app whose scope and connection resolve,
    [allow_migrate] is the matrix. *)
Lemma allow_migrate_matrix db app_label model_name scope conn :
  app_label ∈ get_custom_apps p ->
  migration_scope p app_label model_name = Return (Some scope) ->
  connections p db = Some conn ->
  allow_migrate p ctx db app_label model_name
  = Return (Some (routing_matrix scope (TenantContext.get_tenant ctx)
                    (String.eqb db (MASTER_DB_ALIAS p)) (is_public_schema p conn))).
Proof.
  intros Hin Hscope Hconn. unfold allow_migrate, connection.
  rewrite bool_decide_eq_true_2 by exact Hin. simpl.
  now rewrite Hscope, Hconn.
Qed.

Lemma prefix_refl (s : string) : String.prefix s s = true.
Proof.
  induction s as [| c s IH]; simpl; [reflexivity |].
  now destruct (ascii_dec c c).
Qed.

Lemma str_in_prefix needle hay : String.prefix needle hay = true -> str_in needle hay = true.
Proof. intros H. destruct hay; simpl in *; now rewrite H. Qed.

(** A string occurs in every string it ends. *)
Lemma str_in_append (pre s : string) : str_in s (pre +:+ s) = true.
Proof.
  induction pre as [| c pre IH]; simpl.
  - apply str_in_prefix, prefix_refl.
  - rewrite IH. apply orb_true_r.
Qed.

(** What the code takes for the default schema being active: on a
    connection without options, always; on a connection opened on a
    schema, that the name of the default schema occurs in the option. *)
Lemma public_schema_on_default :
  is_public_schema p MigrationPlaces.connection_on_default = true.
Proof. unfold is_public_schema. simpl. apply orb_true_r. Qed.

Lemma public_schema_on_schema (schema : string) :
  is_public_schema p (MigrationPlaces.connection_on_schema schema)
  = str_in (DEFAULT_SCHEMA_NAME p) ("-c search_path=" +:+ schema).
Proof.
  unfold is_public_schema, search_path_of, MigrationPlaces.connection_on_schema.
  cbn [OPTIONS from_option id]. rewrite lookup_singleton_eq. cbn [from_option id].
  replace (str_in "search_path" ("-c search_path=" +:+ schema)) with true
    by reflexivity.
  apply orb_false_r.
Qed.

Lemma schema_iso_active :
  is_schema_iso (TenantContext.get_tenant ctx) = true
  <-> MigrationPlaces.schema_tenant_active ctx.
Proof.
  unfold MigrationPlaces.schema_tenant_active, is_schema_iso.
  destruct (TenantContext.get_tenant ctx) as [tenant |]; split.
  - intros H. exists tenant. split; [reflexivity |].
    now destruct (isolation_type tenant).
  - intros (t & [= <-] & ->). reflexivity.
  - discriminate.
  - now intros (t & H & _).
Qed.

Lemma schema_iso_not_active :
  is_schema_iso (TenantContext.get_tenant ctx) = false
  <-> ~ MigrationPlaces.schema_tenant_active ctx.
Proof. rewrite <- schema_iso_active. now destruct (is_schema_iso _). Qed.

End RouterMigrations.

Section RouterShared.
Import Django Models Utils Routers Examples.

(** For a SHARED entity the matrix allows what the MASTER rule allows, what
    the TENANT rule allows, and one more place: any alias other than the
    master one while another schema than the default one is active, when
    the active tenant is not schema-isolated. *)
Lemma routing_matrix_shared tenant is_master_db is_public_schema :
  routing_matrix (Scope SHARED) tenant is_master_db is_public_schema
  = routing_matrix (Scope MASTER) tenant is_master_db is_public_schema
    || routing_matrix (Scope TENANT) tenant is_master_db is_public_schema
    || (negb (is_schema_iso tenant) && negb is_master_db && negb is_public_schema).
Proof.
  unfold routing_matrix. cbn [attr_is TenantScope_eqb].
  now destruct (is_schema_iso tenant), is_master_db, is_public_schema.
Qed.

(** C4, on the code. With no tenant active, on the database of a tenant
    whose connection selects the schema [acme], a SHARED entity may be
    migrated although neither the MASTER entity nor the TENANT entity of the
    same app may: the answer for SHARED is not the disjunction of the two
    rules. *)
Theorem allow_migrate_shared_beyond_both_rules :
  allow_migrate project [] "acme_db" "hrms" (Some "Country") = Return (Some true)
  /\ allow_migrate project [] "acme_db" "hrms" (Some "Plan") = Return (Some false)
  /\ allow_migrate project [] "acme_db" "hrms" (Some "Employee") = Return (Some false).
Proof. repeat split; vm_compute; reflexivity. Qed.

End RouterShared.

Section RouterOnASchemaNamedRepublic.
Import Django Models Utils Routers MigrationPlaces Examples MoreExamples.

(** C2, on the code. The connection of the master alias is on the schema
    [republic], which is not the default schema [public], and a MASTER
    entity may be migrated there: the code takes the default schema for
    active as soon as its name occurs somewhere in the options of the
    connection, and [public] occurs in [republic]. On the schema [acme]
    the answer is no. *)
Theorem allow_migrate_master_on_other_schema :
  MASTER_DB_ALIAS project_on_republic = "default"
  /\ DEFAULT_SCHEMA_NAME project_on_republic = "public"
  /\ connections project_on_republic "default" = Some (connection_on_schema "republic")
  /\ "republic" <> DEFAULT_SCHEMA_NAME project_on_republic
  /\ allow_migrate project_on_republic ctx_republic "default" "hrms" (Some "Plan")
     = Return (Some true)
  /\ allow_migrate project_on_republic [] "default" "hrms" (Some "Plan")
     = Return (Some true)
  /\ connections project "acme_db" = Some (connection_on_schema "acme")
  /\ allow_migrate project [] "acme_db" "hrms" (Some "Plan") = Return (Some false).
Proof. repeat split; discriminate. Qed.

(** C3, on the code. The schema-isolated tenant Republic is active and the
    connection of the master alias is on its schema, [republic], not the
    default one: a TENANT entity may not be migrated there, for the same
    reason. And with no tenant active, it may be migrated on the alias
    [republic_db], which is not the master alias, although the connection
    is on the schema [republic]. *)
Theorem allow_migrate_tenant_on_other_schema :
  TenantContext.get_tenant ctx_republic = Some tenant_republic
  /\ isolation_type tenant_republic = SCHEMA
  /\ connections project_on_republic "default" = Some (connection_on_schema "republic")
  /\ "republic" <> DEFAULT_SCHEMA_NAME project_on_republic
  /\ allow_migrate project_on_republic ctx_republic "default" "hrms" (Some "Employee")
     = Return (Some false)
  /\ "republic_db" <> MASTER_DB_ALIAS project_on_republic
  /\ connections project_on_republic "republic_db"
     = Some (connection_on_schema "republic")
  /\ allow_migrate project_on_republic [] "republic_db" "hrms" (Some "Employee")
     = Return (Some true).
Proof. repeat split; discriminate. Qed.

End RouterOnASchemaNamedRepublic.

(** *** The router on the example project *)

Section RouterExamples.
Import Django Models Utils Routers Examples.

Lemma ctx_A_reachable : DatabaseBackend.reachable project ctx_A.
Proof.
  apply (DatabaseBackend.reach_activate project tenant_A "public" [] ctx_A).
  - apply DatabaseBackend.reach_start.
  - reflexivity.
Qed.

Lemma hrms_is_custom : "hrms" ∈ get_custom_apps project.
Proof. apply list_elem_of_here. Qed.

Lemma sessions_is_external : "sessions" ∉ get_custom_apps project.
Proof.
  change (get_custom_apps project) with ["hrms"].
  rewrite list_elem_of_singleton. discriminate.
Qed.

(** With tenant A active, the SHARED model [Country] is read from A's
    database, the MASTER model [Plan] from the master database. *)
Lemma db_for_read_by_scope_witness :
  db_for_read project ctx_A Country = VStr "a_db"
  /\ db_for_read project ctx_A Plan = VStr "default"
  /\ db_for_read project ctx_A Employee = VStr "a_db".
Proof.
  destruct (db_for_read_by_scope project ctx_A Country) as (_ & _ & _ & Hshared).
  destruct (db_for_read_by_scope project ctx_A Plan) as (_ & Hmaster & _ & _).
  destruct (db_for_read_by_scope project ctx_A Employee) as (_ & _ & Htenant & _).
  split; [exact (Hshared eq_refl ctx_A_reachable) |].
  split; [exact (Hmaster eq_refl) | exact (Htenant eq_refl)].
Defined.

Lemma external_app_routing_witness :
  db_for_read project [] Session = VNone
  /\ allow_migrate project [] "no_such_alias" "sessions" (Some "Session")
     = Return (Some true).
Proof.
  destruct (external_app_routing project [] Session sessions_is_external)
    as (_ & Hread & _ & Hmigrate).
  split; [exact Hread | exact (Hmigrate "no_such_alias" (Some "Session"))].
Defined.

End RouterExamples.

(** ** Schema names *)

Section SchemaNames.
Import Utils.

Lemma length_take_str n s : (String.length (take_str n s) <= n)%nat.
Proof.
  revert s. induction n as [| n IH]; intros [| c s]; simpl; try lia.
  specialize (IH s). lia.
Qed.

Lemma length_drop_str n s : String.length (drop_str n s) = (String.length s - n)%nat.
Proof.
  revert s. induction n as [| n IH]; intros [| c s]; simpl; try lia.
  apply IH.
Qed.

Lemma length_append (s t : string) :
  String.length (s +:+ t) = (String.length s + String.length t)%nat.
Proof. induction s as [| c s IH]; simpl; [reflexivity | now rewrite IH]. Qed.

(** The examples of the docstring that the code follows. *)
Lemma schema_name_examples :
  convert_to_valid_pgsql_schema_name "My Tenant Inc." = "my_tenant_inc_"
  /\ convert_to_valid_pgsql_schema_name "pg_custom" = "x_custom"
  /\ convert_to_valid_pgsql_schema_name "tenant1" = "tenant1"
  /\ convert_to_valid_pgsql_schema_name "my-tenant@2024" = "my_tenant_2024"
  /\ convert_to_valid_pgsql_schema_name "" = "default_schema".
Proof. repeat split; reflexivity. Qed.

(** No schema name is longer than 63 characters. *)
Lemma schema_name_length (name : string) :
  (String.length (convert_to_valid_pgsql_schema_name name) <= 63)%nat.
Proof.
  unfold convert_to_valid_pgsql_schema_name.
  pose proof (length_take_str 63 (replace_invalid (lower name))) as Hlen.
  set (cut := take_str 63 (replace_invalid (lower name))) in *.
  destruct (String.prefix "pg_" cut).
  - change ("x_" +:+ drop_str 3 cut)
      with (String "x"%char (String "_"%char (drop_str 3 cut))).
    cbn [String.eqb String.length]. rewrite length_drop_str. lia.
  - destruct (String.eqb cut "") eqn:E; [simpl; lia | exact Hlen].
Qed.

(** No schema name starts with the reserved prefix. *)
Lemma schema_name_not_reserved (name : string) :
  String.prefix "pg_" (convert_to_valid_pgsql_schema_name name) = false.
Proof.
  unfold convert_to_valid_pgsql_schema_name.
  set (cut := take_str 63 (replace_invalid (lower name))).
  destruct (String.prefix "pg_" cut) eqn:Hpre.
  - reflexivity.
  - destruct (String.eqb cut ""); [reflexivity | exact Hpre].
Qed.

Lemma replace_invalid_length (s : string) :
  String.length (replace_invalid s) = String.length s.
Proof. induction s as [| c s IH]; simpl; [reflexivity | now rewrite IH]. Qed.

Lemma lower_length (s : string) : String.length (lower s) = String.length s.
Proof. induction s as [| c s IH]; simpl; [reflexivity | now rewrite IH]. Qed.

(** Characters are replaced, never removed: only the empty name is empty
    after the first two steps, so only the empty name gets the fallback
    name by the last step. *)
Lemma schema_name_empty_only_if_empty (name : string) :
  take_str 63 (replace_invalid (lower name)) = "" <-> name = "".
Proof.
  destruct name as [| c name]; simpl; [tauto |].
  split; intros H; discriminate H.
Qed.

(** C5, on the code. A name made of punctuation only becomes a run of
    underscores, not the fallback name: the three exclamation marks are
    replaced one by one and the result is not empty. *)
Theorem schema_name_of_punctuation :
  convert_to_valid_pgsql_schema_name "!!!" = "___"
  /\ convert_to_valid_pgsql_schema_name "!!!" <> "default_schema"
  /\ convert_to_valid_pgsql_schema_name "!!!@@##" = "_______".
Proof. repeat split; [discriminate]. Qed.

End SchemaNames.

(** ** The statements that create and drop a database *)

(** Every answer the driver can give to the calls of a function, by cases *)
Ltac driver_cases driver :=
  unfold DatabaseBackend._create_database, DatabaseBackend._drop_database,
    DatabaseBackend.open_cursor, DatabaseBackend.close_all, DatabaseBackend.finally,
    DatabaseBackend.except_Exception_reraise, DatabaseBackend.then_,
    DatabaseBackend.call, DatabaseBackend.print;
  repeat match goal with
         | |- context [driver ?c] =>
             let e := fresh "e" in
             let E := fresh "E" in
             destruct (driver c) as [[] | e] eqn:E; cbn [fst snd app]
         | |- context [is_Exception ?e] => destruct (is_Exception e); cbn [fst snd app]
         end.

Section DatabaseStatements.
Import DatabaseBackend Examples.

(** An escaped identifier reads back as the name, with nothing after it. *)
Lemma read_quoted_double_quotes (name : string) :
  read_quoted (double_quotes name +:+ String dquote EmptyString)
  = Some (name, EmptyString).
Proof.
  induction name as [| c name IH]; [reflexivity |].
  simpl. destruct (Ascii.eqb c dquote) eqn:Hc.
  - apply Ascii.eqb_eq in Hc. subst c.
    simpl. now rewrite IH.
  - simpl. now rewrite Hc, IH.
Qed.

Lemma read_identifier_Identifier (name : string) :
  read_identifier (Identifier name) = Some (name, EmptyString).
Proof.
  unfold read_identifier, Identifier.
  rewrite Ascii.eqb_refl. apply read_quoted_double_quotes.
Qed.

Lemma strip_prefix_append (pre s : string) : strip_prefix pre (pre +:+ s) = Some s.
Proof.
  induction pre as [| c pre IH]; simpl; [now destruct s |].
  now rewrite Ascii.eqb_refl.
Qed.

(** Whatever the name, the statement of [_create_database] names that one
    database and nothing else. *)
Lemma create_database_names_only (db_name : string) :
  names_only "CREATE DATABASE " (create_database_sql db_name) db_name = true.
Proof.
  unfold names_only, create_database_sql.
  rewrite strip_prefix_append, read_identifier_Identifier.
  now rewrite String.eqb_refl.
Qed.

(** Once the connection and the cursor are open, the one statement
    [_create_database] sends is that statement; and it sends no other
    statement in any case. *)
Lemma create_database_sends driver db_name user password host port :
  opens driver user password host port ->
  omap statement_of (fst (_create_database driver db_name user password host port))
  = [create_database_sql db_name].
Proof.
  intros (Hconnect & Hauto & Hcursor).
  driver_cases driver; try discriminate; reflexivity.
Qed.

Lemma create_database_sends_no_other driver db_name user password host port sent :
  In sent (omap statement_of
             (fst (_create_database driver db_name user password host port))) ->
  sent = create_database_sql db_name.
Proof. driver_cases driver; simpl; intuition. Qed.

Lemma drop_database_sends driver db_name user password host port :
  opens driver user password host port ->
  omap statement_of (fst (_drop_database driver db_name user password host port))
  = [drop_database_sql db_name].
Proof.
  intros (Hconnect & Hauto & Hcursor).
  driver_cases driver; try discriminate; reflexivity.
Qed.

Lemma drop_database_sends_no_other driver db_name user password host port sent :
  In sent (omap statement_of
             (fst (_drop_database driver db_name user password host port))) ->
  sent = drop_database_sql db_name.
Proof. driver_cases driver; simpl; intuition. Qed.

(** A name without a double quote is safe in the statement of
    [_drop_database] too. *)
Lemma double_quotes_id (name : string) :
  (forall c, In c (list_ascii_of_string name) -> c <> dquote) ->
  double_quotes name = name.
Proof.
  induction name as [| c name IH]; [reflexivity |].
  simpl. intros Hno.
  destruct (Ascii.eqb c dquote) eqn:Hc.
  - apply Ascii.eqb_eq in Hc. now destruct (Hno c (or_introl eq_refl)).
  - f_equal. apply IH. intros c' Hin. apply Hno. now right.
Qed.

Lemma drop_database_names_only_unquoted (db_name : string) :
  (forall c, In c (list_ascii_of_string db_name) -> c <> dquote) ->
  names_only "DROP DATABASE IF EXISTS " (drop_database_sql db_name) db_name = true.
Proof.
  intros Hno.
  unfold names_only, drop_database_sql.
  rewrite strip_prefix_append.
  replace (String dquote (db_name +:+ String dquote "")) with (Identifier db_name)
    by (unfold Identifier; now rewrite (double_quotes_id db_name Hno)).
  rewrite read_identifier_Identifier.
  now rewrite String.eqb_refl.
Qed.

(** C7, on the code. [_drop_database] puts the name between two double
    quotes as it is. For a name with a double quote in it, the statement
    sent to the server is not the escaped one: the identifier ends at that
    quote and what is left of the name is read as SQL, here as a comment.
    The database the statement drops is [a], another one than the database
    of that name; [_create_database] names the database of that name. *)
Theorem drop_database_not_escaped :
  (forall driver user password host port,
     opens driver user password host port ->
     omap statement_of (fst (_drop_database driver hostile_name user password host port))
     = [ "DROP DATABASE IF EXISTS " +:+ String dquote "a"
         +:+ String dquote " --" +:+ String dquote "" ])
  /\ (forall driver user password host port sent,
        In sent (omap statement_of
                   (fst (_drop_database driver hostile_name user password host port))) ->
        sent = "DROP DATABASE IF EXISTS " +:+ String dquote "a"
               +:+ String dquote " --" +:+ String dquote "")
  /\ drop_database_sql hostile_name
     <> "DROP DATABASE IF EXISTS " +:+ Identifier hostile_name
  /\ (strip_prefix "DROP DATABASE IF EXISTS " (drop_database_sql hostile_name)
      ≫= read_identifier)
     = Some ("a", " --" +:+ String dquote "")
  /\ "a" <> hostile_name
  /\ names_only "DROP DATABASE IF EXISTS " (drop_database_sql hostile_name) hostile_name
     = false
  /\ names_only "CREATE DATABASE " (create_database_sql hostile_name) hostile_name
     = true.
Proof.
  split; [| split; [| split; [| split; [| split; [| split]]]]].
  - intros driver user password host port Hopens.
    now apply drop_database_sends.
  - intros driver user password host port sent Hsent.
    now apply drop_database_sends_no_other in Hsent.
  - discriminate.
  - reflexivity.
  - discriminate.
  - reflexivity.
  - reflexivity.
Qed.

End DatabaseStatements.

(** ** The resolved database configuration *)

Section ResolvedConfig.
Import Django Models DatabaseBackend Examples.

Lemma dict_get_default_set k k' v dflt (d : dict) :
  dict_get_default k dflt (dict_set k' v d)
  = if String.eqb k' k then v else dict_get_default k dflt d.
Proof.
  induction d as [| [k0 v0] d IH]; simpl.
  - reflexivity.
  - destruct (String.eqb k0 k') eqn:E0; simpl.
    + apply String.eqb_eq in E0. subst k0.
      now destruct (String.eqb k' k).
    + destruct (String.eqb k0 k) eqn:E1.
      * apply String.eqb_eq in E1. subst k0. now rewrite String.eqb_sym, E0.
      * exact IH.
Qed.

Lemma dict_has_set k k' v (d : dict) :
  dict_has k (dict_set k' v d) = String.eqb k' k || dict_has k d.
Proof.
  unfold dict_has.
  induction d as [| [k0 v0] d IH]; simpl.
  - now rewrite orb_false_r.
  - destruct (String.eqb k0 k') eqn:E0; simpl.
    + apply String.eqb_eq in E0. subst k0.
      now destruct (String.eqb k' k).
    + rewrite IH. now destruct (String.eqb k0 k), (String.eqb k' k).
Qed.

(** Reading a field of a [CaseInsensitiveDict] gives what the tenant gives
    for it, or [None]. *)
Lemma ci_get_tenant_value (field : string) (data : dict) :
  ci_get field (CaseInsensitiveDict data) = default VNone (tenant_value field data).
Proof.
  unfold ci_get, CaseInsensitiveDict, tenant_value, dict_get.
  induction data as [| kv data IH] using rev_ind; [reflexivity |].
  rewrite fold_left_app, rev_app_distr. simpl.
  rewrite dict_get_default_set.
  destruct (String.eqb (lower (fst kv)) (lower field)); [reflexivity | exact IH].
Qed.

Lemma ci_has_tenant_value (field : string) (data : dict) :
  ci_has field (CaseInsensitiveDict data)
  = match tenant_value field data with Some _ => true | None => false end.
Proof.
  unfold ci_has, CaseInsensitiveDict, tenant_value.
  induction data as [| kv data IH] using rev_ind; [reflexivity |].
  rewrite fold_left_app, rev_app_distr. simpl.
  rewrite dict_has_set.
  destruct (String.eqb (lower (fst kv)) (lower field)); [reflexivity | exact IH].
Qed.

(** The two ways of merging, in terms of what the tenant gives. *)
Lemma tenant_or_master_spec field dflt (data base_config : dict) :
  tenant_or_master field dflt (CaseInsensitiveDict data) base_config
  = match tenant_value field data with
    | Some v => if truthy v then v else dict_get_default field dflt base_config
    | None => dict_get_default field dflt base_config
    end.
Proof.
  unfold tenant_or_master, or_. rewrite ci_get_tenant_value.
  now destruct (tenant_value field data).
Qed.

Lemma tenant_if_set_spec field dflt (data base_config : dict) :
  tenant_if_set field dflt (CaseInsensitiveDict data) base_config
  = match tenant_value field data with
    | Some v => v
    | None => dict_get_default field dflt base_config
    end.
Proof.
  unfold tenant_if_set. rewrite ci_has_tenant_value, ci_get_tenant_value.
  now destruct (tenant_value field data).
Qed.

(** Writing the TEST entry leaves the other fields as they are. *)
Lemma dict_get_set_other k k' v (d : dict) :
  k' <> k -> dict_get k (dict_set k' v d) = dict_get k d.
Proof.
  intros Hne. unfold dict_get. rewrite dict_get_default_set.
  now rewrite (proj2 (String.eqb_neq k' k) Hne).
Qed.

(** X27. The resolved configuration is merged field by field. For ENGINE,
    NAME, USER, PASSWORD, HOST, PORT, OPTIONS and TIME_ZONE the value the
    tenant gives is kept when it is true for Python (not [None], not empty,
    not zero); otherwise the value of the master configuration is taken,
    and the hard default when the master has none. For ATOMIC_REQUESTS,
    AUTOCOMMIT, CONN_MAX_AGE and CONN_HEALTH_CHECKS the value the tenant
    gives is kept whatever it is, and the master value or the hard default
    is taken when the tenant gives none. This is so whenever the TEST entry
    the merge arrives at is a dictionary; the keys of the tenant are read
    whatever their case. *)
Theorem resolved_config_field_by_field (p : Project) (tenant : Tenant) (test : dict) :
  let data := default [] (db_config tenant) in
  let master := master_config p in
  match tenant_value "TEST" data with
  | Some v => v
  | None => dict_get_default "TEST" (VDict []) master
  end = VDict test ->
  exists alias cfg,
    get_alias_and_config p tenant = Return (alias, cfg)
    /\ (forall field dflt,
          In (field, dflt) (fields_merged_with_or p) ->
          dict_get field cfg
          = match tenant_value field data with
            | Some v => if truthy v then v else dict_get_default field dflt master
            | None => dict_get_default field dflt master
            end)
    /\ (forall field dflt,
          In (field, dflt) fields_merged_if_present ->
          dict_get field cfg
          = match tenant_value field data with
            | Some v => v
            | None => dict_get_default field dflt master
            end).
Proof.
  intros data master Htest.
  unfold get_alias_and_config.
  set (cfg := merged_config p (tenant_db_config tenant) (master_config p)).
  assert (Hor : forall field dflt,
             In (field, dflt) (fields_merged_with_or p) ->
             field <> "TEST"
             /\ dict_get field cfg
                = tenant_or_master field dflt (tenant_db_config tenant) master).
  { intros field dflt Hin. simpl in Hin.
    repeat (destruct Hin as [Hin | Hin];
            [injection Hin as <- <-; split; [discriminate | reflexivity] |]).
    destruct Hin. }
  assert (Hset : forall field dflt,
             In (field, dflt) fields_merged_if_present ->
             field <> "TEST"
             /\ dict_get field cfg
                = tenant_if_set field dflt (tenant_db_config tenant) master).
  { intros field dflt Hin. simpl in Hin.
    repeat (destruct Hin as [Hin | Hin];
            [injection Hin as <- <-; split; [discriminate | reflexivity] |]).
    destruct Hin. }
  assert (Hcfg_test : dict_get "TEST" cfg = VDict test).
  { change (dict_get "TEST" cfg)
      with (tenant_if_set "TEST" (VDict []) (tenant_db_config tenant) master).
    unfold tenant_db_config. rewrite tenant_if_set_spec. exact Htest. }
  rewrite Hcfg_test.
  destruct (negb (truthy (dict_get "NAME" test))).
  - eexists _, _. split; [reflexivity |]. split.
    + intros field dflt Hin. destruct (Hor field dflt Hin) as [Hne Hget].
      rewrite dict_get_set_other by congruence.
      rewrite Hget. apply tenant_or_master_spec.
    + intros field dflt Hin. destruct (Hset field dflt Hin) as [Hne Hget].
      rewrite dict_get_set_other by congruence.
      rewrite Hget. apply tenant_if_set_spec.
  - eexists _, _. split; [reflexivity |]. split.
    + intros field dflt Hin. destruct (Hor field dflt Hin) as [_ Hget].
      rewrite Hget. apply tenant_or_master_spec.
    + intros field dflt Hin. destruct (Hset field dflt Hin) as [_ Hget].
      rewrite Hget. apply tenant_if_set_spec.
Qed.

(** The example of the spec: the host of the tenant, the port of the
    master. *)
Lemma resolved_config_field_by_field_witness :
  exists alias cfg,
    get_alias_and_config project tenant_host_a = Return (alias, cfg)
    /\ dict_get "HOST" cfg = VStr "a"
    /\ dict_get "PORT" cfg = VInt 5432.
Proof.
  destruct (resolved_config_field_by_field project tenant_host_a [] eq_refl)
    as (alias & cfg & Hrun & Hor & _).
  exists alias, cfg.
  split; [exact Hrun |].
  split.
  - rewrite (Hor "HOST" VNone); [reflexivity | simpl; tauto].
  - rewrite (Hor "PORT" VNone); [reflexivity | simpl; tauto].
Defined.

(** C6, on the code. A tenant that gives a value for HOST, the empty
    string (Django's way of asking for a local socket), does not get it:
    the value is there in its [db_config], and the resolved configuration
    has the host of the master configuration instead. The field is merged
    with [or], which passes over every value that is false for Python. *)
Theorem tenant_host_given_but_not_kept :
  tenant_value "HOST" (default [] (db_config tenant_local_socket)) = Some (VStr "")
  /\ dict_get "HOST" (master_config project) = VStr "b"
  /\ exists alias cfg,
       get_alias_and_config project tenant_local_socket = Return (alias, cfg)
       /\ dict_get "HOST" cfg = VStr "b"
       /\ dict_get "HOST" cfg <> VStr "".
Proof.
  split; [reflexivity |]. split; [reflexivity |].
  eexists _, _. split; [reflexivity |]. split; [reflexivity | discriminate].
Qed.

End ResolvedConfig.

(** ** The settings wrapper *)

Section SettingsWrapper.
Import Conf.

Lemma kept_refl st : kept st st.
Proof. repeat split; auto. Qed.

Lemma kept_trans st1 st2 st3 : kept st1 st2 -> kept st2 st3 -> kept st1 st3.
Proof.
  intros (Hc1 & Hh1 & Hd1) (Hc2 & Hh2 & Hd2).
  repeat split; [auto | auto | congruence].
Qed.

Lemma kept_new o st : kept st (snd (new o st)).
Proof.
  repeat split; simpl; auto.
  intros l o' H. now apply lookup_app_l_Some.
Qed.

Lemma kept_cache name l st : wrapper_dict st !! name = None -> kept st (cache name l st).
Proof.
  intros Hfresh. repeat split; simpl; auto.
  intros name' l' H. rewrite lookup_insert_ne; [exact H | congruence].
Qed.

Lemma keeps_getattr_default item dflt : keeps (getattr_default item dflt).
Proof. intros st. apply kept_refl. Qed.

Lemma keeps___getattr__ item : keeps (__getattr__ item).
Proof.
  intros st. unfold __getattr__.
  destruct (django_settings st !! item); apply kept_refl.
Qed.

Lemma keeps_read_property name func : keeps func -> keeps (read_property name func).
Proof.
  intros Hfunc st. unfold read_property.
  destruct (wrapper_dict st !! name) as [cached |] eqn:Hname; [apply kept_refl |].
  unfold cached_property. specialize (Hfunc st).
  destruct (func st) as [[computed | e] st']; simpl in Hfunc.
  - simpl. destruct Hfunc as (Hc & Hh & Hd).
    repeat split; simpl; auto.
    intros name' l' H. rewrite lookup_insert_ne; [auto | congruence].
  - assert (Hfall : kept st (snd (__getattr__ name st'))).
    { eapply kept_trans; [exact Hfunc | apply keeps___getattr__]. }
    destruct e; try exact Hfunc. exact Hfall.
Qed.

Lemma keeps_OMNITENANT_CONFIG : keeps OMNITENANT_CONFIG.
Proof. intros st. apply (kept_new (ODict []) st). Qed.

Lemma keeps_TIME_ZONE : keeps TIME_ZONE.
Proof. intros st. apply (kept_new (OStr "UTC") st). Qed.

Lemma keeps_DATABASE_ROUTERS : keeps DATABASE_ROUTERS.
Proof.
  intros st. unfold DATABASE_ROUTERS.
  eapply kept_trans; [apply (kept_new (OStr "django_omnitenant.routers.TenantRouter")) |].
  apply kept_new.
Qed.

Lemma keeps_config_get key dflt : keeps (config_get key dflt).
Proof.
  intros st. unfold config_get.
  pose proof (keeps_read_property "OMNITENANT_CONFIG" _ keeps_OMNITENANT_CONFIG st)
    as Hcfg.
  destruct (read_property "OMNITENANT_CONFIG" OMNITENANT_CONFIG st)
    as [[config | e] st1]; simpl in Hcfg; [| exact Hcfg].
  destruct (heap st1 !! config) as [[] |]; try exact Hcfg.
  eapply kept_trans; [exact Hcfg | apply kept_new].
Qed.

Lemma keeps_required key msg : keeps (required key msg).
Proof.
  intros st. unfold required.
  pose proof (keeps_config_get key (OStr "") st) as Hcfg.
  destruct (config_get key (OStr "") st) as [[value | e] st']; simpl in *;
    [destruct (negb (truthy_at st' value)) |]; exact Hcfg.
Qed.

(** Every cached property of the class keeps the cache and the objects. *)
Lemma class_property_keeps item func : class_property item = Some func -> keeps func.
Proof.
  unfold class_property.
  assert (Hall : Forall (fun entry => keeps (snd entry)) class_properties).
  { repeat constructor; simpl;
      first [ apply keeps_OMNITENANT_CONFIG | apply keeps_TIME_ZONE
            | apply keeps_DATABASE_ROUTERS | apply keeps_config_get
            | apply keeps_required ]. }
  intros H.
  destruct (find _ class_properties) as [entry |] eqn:Hfind; [| discriminate H].
  injection H as <-.
  apply find_some in Hfind. destruct Hfind as [Hin _].
  exact (proj1 (List.Forall_forall _ _) Hall entry Hin).
Qed.

Lemma keeps_getattr item : keeps (getattr item).
Proof.
  intros st. unfold getattr.
  destruct (class_property item) as [func |] eqn:Hprop.
  - apply keeps_read_property. eapply class_property_keeps. exact Hprop.
  - destruct (wrapper_dict st !! item); [apply kept_refl | apply keeps___getattr__].
Qed.

(** [__setattr__] never writes to the instance, nor to an object. *)
Lemma setattr_wrapper_dict key value st :
  wrapper_dict (snd (__setattr__ key value st)) = wrapper_dict st
  /\ heap (snd (__setattr__ key value st)) = heap st.
Proof. unfold __setattr__. now destruct (bool_decide _). Qed.

Lemma change_wrapper_dict l o st : wrapper_dict (change l o st) = wrapper_dict st.
Proof. unfold change. now destruct (heap st !! l) as [[] |], o. Qed.

Lemma step_keeps_cached a st name l :
  wrapper_dict st !! name = Some l -> wrapper_dict (step a st) !! name = Some l.
Proof.
  intros H. destruct a; simpl; try exact H.
  - now apply keeps_getattr.
  - now rewrite (proj1 (setattr_wrapper_dict _ _ _)).
  - now rewrite change_wrapper_dict.
Qed.

Lemma step_keeps_object a st l o :
  in_place a = false -> heap st !! l = Some o -> heap (step a st) !! l = Some o.
Proof.
  intros Ha H. destruct a; simpl; try exact H; try discriminate Ha.
  - now apply keeps_getattr.
  - now rewrite (proj2 (setattr_wrapper_dict _ _ _)).
  - now apply lookup_app_l_Some.
Qed.

Lemma run_keeps_cached acts st name l :
  wrapper_dict st !! name = Some l -> wrapper_dict (run acts st) !! name = Some l.
Proof.
  unfold run. revert st.
  induction acts as [| a acts IH]; intros st H; simpl; [exact H |].
  apply IH. now apply step_keeps_cached.
Qed.

Lemma run_keeps_object acts st l o :
  forallb (fun a => negb (in_place a)) acts = true ->
  heap st !! l = Some o -> heap (run acts st) !! l = Some o.
Proof.
  unfold run. revert st.
  induction acts as [| a acts IH]; intros st Hacts H; simpl; [exact H |].
  simpl in Hacts. apply andb_true_iff in Hacts. destruct Hacts as [Ha Hacts].
  apply IH; [exact Hacts |]. apply step_keeps_object; [| exact H].
  now apply negb_true_iff.
Qed.

Lemma setattr_cached key value st l :
  wrapper_dict st !! key = Some l ->
  __setattr__ key value st = (Raise (ValueError "Item assignment is not supported"), st).
Proof.
  intros H. unfold __setattr__.
  rewrite bool_decide_eq_true_2; [reflexivity |].
  rewrite H. now eexists.
Qed.

Lemma getattr_cached key st l :
  wrapper_dict st !! key = Some l -> getattr key st = (Return l, st).
Proof.
  intros H. unfold getattr, read_property. rewrite H.
  now destruct (class_property key).
Qed.

(** C10. Reading a cached property of the settings wrapper computes it and
    caches the object on the instance. From then on, whatever is read from
    or assigned to the wrapper, whatever objects are made or changed in
    place and whatever is done to Django's settings, an assignment to that
    name raises [ValueError] and changes nothing, and the name still reads
    as the cached object, which is what it was as long as nothing was
    changed in place. An assignment to a name that is not cached does not
    raise: it sets the attribute of Django's settings object and leaves the
    wrapper and the objects as they are. *)
Theorem setattr_guards_cached (st : state) (key : string) (value : loc) :
  (forall func l st1,
     class_property key = Some func ->
     wrapper_dict st !! key = None ->
     func st = (Return l, st1) ->
     getattr key st = (Return l, cache key l st1)
     /\ wrapper_dict (cache key l st1) !! key = Some l)
  /\ (forall l acts,
        wrapper_dict st !! key = Some l ->
        let st' := run acts st in
        __setattr__ key value st'
        = (Raise (ValueError "Item assignment is not supported"), st')
        /\ wrapper_dict st' !! key = Some l
        /\ getattr key st' = (Return l, st')
        /\ (forallb (fun a => negb (in_place a)) acts = true ->
            forall o, heap st !! l = Some o -> heap st' !! l = Some o))
  /\ (wrapper_dict st !! key = None ->
      __setattr__ key value st
      = (Return tt, {| wrapper_dict := wrapper_dict st;
                       django_settings := <[key := value]> (django_settings st);
                       heap := heap st |})).
Proof.
  split; [| split].
  - intros func l st1 Hprop Hfresh Hfunc.
    split; [| apply lookup_insert_eq].
    unfold getattr, read_property, cached_property.
    now rewrite Hprop, Hfresh, Hfunc.
  - intros l acts Hcached st'.
    pose proof (run_keeps_cached acts st key l Hcached) as Hstill.
    fold st' in Hstill.
    split; [now apply setattr_cached with (l := l) |].
    split; [exact Hstill |].
    split; [now apply getattr_cached |].
    intros Hacts o Ho. now apply run_keeps_object.
  - intros Hfresh. unfold __setattr__.
    rewrite bool_decide_eq_false_2; [reflexivity |].
    rewrite Hfresh. now intros [? ?].
Qed.

End SettingsWrapper.

Section SettingsWrapperExamples.
Import Conf Examples MoreExamples.

Lemma setattr_guards_cached_witness :
  wrapper_dict settings_read !! "TIME_ZONE" = Some 2%nat
  /\ heap settings_read !! 2%nat = Some (OStr "UTC")
  /\ (let st' := run later_actions settings_read in
      __setattr__ "TIME_ZONE" 6%nat st'
      = (Raise (ValueError "Item assignment is not supported"), st')
      /\ getattr "TIME_ZONE" st' = (Return 2%nat, st'))
  /\ heap (run (firstn 7 later_actions) settings_read) !! 2%nat = Some (OStr "UTC")
  /\ fst (__setattr__ "DEBUG" 0%nat settings_fresh) = Return tt
  /\ fst (getattr "TENANT_MODEL" settings_with_model) = Return 0%nat
  /\ fst (__setattr__ "TENANT_MODEL" 1%nat
            (snd (getattr "TENANT_MODEL" settings_with_model)))
     = Raise (ValueError "Item assignment is not supported").
Proof.
  destruct (setattr_guards_cached settings_with_model "TENANT_MODEL" 1%nat)
    as (Hcache_model & _ & _).
  destruct (Hcache_model TENANT_MODEL 0%nat (snd (TENANT_MODEL settings_with_model))
              eq_refl eq_refl eq_refl) as (Hget_model & Hcached_model).
  destruct (setattr_guards_cached
              (cache "TENANT_MODEL" 0%nat (snd (TENANT_MODEL settings_with_model)))
              "TENANT_MODEL" 1%nat) as (_ & Hguard_model & _).
  destruct (Hguard_model 0%nat [] Hcached_model) as (Hraise_model & _).
  destruct (setattr_guards_cached settings_fresh "TIME_ZONE" 6%nat) as (Hcache & _ & _).
  destruct (setattr_guards_cached settings_read "TIME_ZONE" 6%nat) as (_ & Hguard & _).
  destruct (setattr_guards_cached settings_fresh "DEBUG" 0%nat) as (_ & _ & Hforward).
  destruct (Hcache TIME_ZONE 2%nat (snd (TIME_ZONE settings_fresh)) eq_refl eq_refl eq_refl)
    as (_ & Hcached).
  split; [exact Hcached |]. split; [reflexivity |].
  split.
  - destruct (Hguard 2%nat later_actions Hcached) as (Hraise & _ & Hread & _).
    split; [exact Hraise | exact Hread].
  - split.
    + destruct (Hguard 2%nat (firstn 7 later_actions) Hcached) as (_ & _ & _ & Hobject).
      apply Hobject; reflexivity.
    + split; [now rewrite Hforward |].
      split; [now rewrite Hget_model |].
      rewrite Hget_model. cbn [snd]. cbn [run fold_left] in Hraise_model.
      now rewrite Hraise_model.
Defined.

End SettingsWrapperExamples.

(** ** Migrating all tenants *)

Section BatchMigration.
Import Django Models Utils MigrateTenants.

Context {World : Type}.
Variable backend_migrate : Backend -> list string -> World -> outcome unit * World.
Variable p : Project.









(** Whatever the tenants and the mode, the command returns when the
    errors of the backends are instances of [Exception]. *)
Section NeverRaises.

Hypothesis errors_are_exceptions :
  forall backend args w e w',
    backend_migrate backend args w = (Raise e, w') -> is_Exception e = true.

Lemma migrate_error backend args st e st' :
  MigrateTenants.migrate backend_migrate backend args st = (Raise e, st') ->
  is_Exception e = true.
Proof.
  unfold MigrateTenants.migrate.
  destruct (backend_migrate backend args (world st)) as [r w] eqn:Hcall.
  intros H. injection H as -> _.
  exact (errors_are_exceptions _ _ _ _ _ Hcall).
Qed.

Lemma apps_to_zero_error backend labels st e st' :
  migrate_apps_to_zero backend_migrate backend labels st = (Raise e, st') ->
  is_Exception e = true.
Proof.
  revert st. induction labels as [| l labels IH]; intros st; simpl.
  - discriminate.
  - destruct (MigrateTenants.migrate backend_migrate backend [l; "zero"] st)
      as [[[] | app_error] st1] eqn:Hcall.
    + apply IH.
    + destruct (passed_over app_error); [apply IH |].
      intros H. injection H as <- _.
      exact (migrate_error _ _ _ _ _ Hcall).
Qed.

Lemma migrate_one_error reset_all app_label migration_name tenant st e st' :
  migrate_one backend_migrate p reset_all app_label migration_name tenant st
  = (Raise e, st') ->
  is_Exception e = true.
Proof.
  unfold migrate_one.
  destruct reset_all.
  - destruct (migrate_apps_to_zero _ _ _ _) as [[[] | e0] st1] eqn:Hloop;
      [discriminate |].
    intros H. injection H as <- _. exact (apps_to_zero_error _ _ _ _ _ Hloop).
  - destruct (given app_label); [destruct (given migration_name) |];
      match goal with
      | |- context [MigrateTenants.migrate backend_migrate ?b ?a ?s] =>
          destruct (MigrateTenants.migrate backend_migrate b a s)
            as [[[] | e0] st1] eqn:Hcall
      end;
      try discriminate;
      intros H; injection H as <- _; exact (migrate_error _ _ _ _ _ Hcall).
Qed.

Lemma handle_tenant_returns reset_all app_label migration_name tenant st :
  fst (handle_tenant backend_migrate p reset_all app_label migration_name tenant st)
  = Return tt.
Proof.
  unfold handle_tenant.
  destruct (migrate_one _ _ _ _ _ _ _) as [[[] | e] st1] eqn:Hone; [reflexivity |].
  now rewrite (migrate_one_error _ _ _ _ _ _ _ Hone).
Qed.

Lemma handle_returns tenants app_label migration_name st :
  fst (handle backend_migrate p tenants app_label migration_name st) = Return tt.
Proof.
  unfold handle.
  generalize (is_reset_all app_label migration_name) as reset_all.
  intros reset_all.
  generalize (if reset_all then None else app_label) as label'.
  intros label'. revert st.
  induction tenants as [| tenant tenants IH]; intros st; simpl; [reflexivity |].
  pose proof (handle_tenant_returns reset_all label' migration_name tenant st) as Hone.
  destruct (handle_tenant _ _ _ _ _ _ _) as [[[] | e] st1]; [apply IH | discriminate Hone].
Qed.

End NeverRaises.


End BatchMigration.

(** *** The command on the example project *)

Section BatchMigrationExamples.
Import Django Models Utils MigrateTenants Examples.





End BatchMigrationExamples.

(** * Further properties *)

(** ** Schema names, continued *)

Section SchemaNamesMore.
Import Utils SchemaName.

Lemma normalized_char_is_schema_char (c : ascii) :
  is_schema_char (if is_valid_char (lower_char c) then lower_char c else "_"%char) = true.
Proof. destruct c as [[] [] [] [] [] [] [] []]; reflexivity. Qed.

Lemma schema_char_unchanged (c : ascii) :
  is_schema_char c = true -> lower_char c = c /\ is_valid_char c = true.
Proof. destruct c as [[] [] [] [] [] [] [] []]; simpl; intros H; try discriminate H; split; reflexivity. Qed.

Lemma all_chars_normalized (s : string) :
  all_chars is_schema_char (replace_invalid (lower s)) = true.
Proof.
  induction s as [| c s IH]; [reflexivity |].
  simpl. now rewrite normalized_char_is_schema_char, IH.
Qed.

Lemma all_chars_take test n s :
  all_chars test s = true -> all_chars test (take_str n s) = true.
Proof.
  revert s. induction n as [| n IH]; intros [| c s]; simpl; try reflexivity.
  rewrite !andb_true_iff. intros [Hc Hs]. auto.
Qed.

Lemma all_chars_drop test n s :
  all_chars test s = true -> all_chars test (drop_str n s) = true.
Proof.
  revert s. induction n as [| n IH]; intros [| c s]; simpl; try reflexivity; try easy.
  rewrite andb_true_iff. intros [_ Hs]. auto.
Qed.

Lemma take_str_all n s : (String.length s <= n)%nat -> take_str n s = s.
Proof.
  revert s. induction n as [| n IH]; intros [| c s]; simpl; try reflexivity; try lia.
  intros H. f_equal. apply IH. lia.
Qed.

Lemma normalized_unchanged (s : string) :
  all_chars is_schema_char s = true -> replace_invalid (lower s) = s.
Proof.
  induction s as [| c s IH]; [reflexivity |].
  simpl. rewrite andb_true_iff. intros [Hc Hs].
  destruct (schema_char_unchanged c Hc) as [-> ->].
  now rewrite IH.
Qed.

Lemma schema_name_valid_aux (name : string) :
  valid_schema_name (convert_to_valid_pgsql_schema_name name).
Proof.
  split; [| split; [apply schema_name_length | split; [| apply schema_name_not_reserved]]].
  - unfold convert_to_valid_pgsql_schema_name.
    set (cut := take_str 63 (replace_invalid (lower name))).
    destruct (String.prefix "pg_" cut).
    + discriminate.
    + destruct (String.eqb cut "") eqn:E; [discriminate |].
      now apply String.eqb_neq in E.
  - unfold convert_to_valid_pgsql_schema_name.
    pose proof (all_chars_take is_schema_char 63 _ (all_chars_normalized name)) as Hcut.
    set (cut := take_str 63 (replace_invalid (lower name))) in *.
    destruct (String.prefix "pg_" cut).
    + change ("x_" +:+ drop_str 3 cut)
        with (String "x"%char (String "_"%char (drop_str 3 cut))).
      cbn [String.eqb all_chars].
      now rewrite (all_chars_drop is_schema_char 3 cut Hcut).
    + destruct (String.eqb cut ""); [reflexivity | exact Hcut].
Qed.

Lemma schema_name_fixed_aux (name : string) :
  valid_schema_name name -> convert_to_valid_pgsql_schema_name name = name.
Proof.
  intros (Hne & Hlen & Hchars & Hpre).
  unfold convert_to_valid_pgsql_schema_name.
  rewrite (normalized_unchanged name Hchars), (take_str_all 63 name Hlen), Hpre.
  apply String.eqb_neq in Hne. now rewrite Hne.
Qed.

(** X1. Whatever the input, the schema name that comes out is one
    PostgreSQL takes: it is not empty, has at most 63 characters, is made of
    lower-case letters, digits and underscores, and does not start with the
    reserved prefix. *)
Theorem schema_name_is_valid (name : string) :
  convert_to_valid_pgsql_schema_name name <> ""
  /\ (String.length (convert_to_valid_pgsql_schema_name name) <= 63)%nat
  /\ all_chars is_schema_char (convert_to_valid_pgsql_schema_name name) = true
  /\ String.prefix "pg_" (convert_to_valid_pgsql_schema_name name) = false.
Proof. apply schema_name_valid_aux. Qed.

(** X2. A name that is valid already is left as it is; so converting twice
    is converting once. *)
Theorem schema_name_fixed_and_idempotent (name : string) :
  (valid_schema_name name -> convert_to_valid_pgsql_schema_name name = name)
  /\ convert_to_valid_pgsql_schema_name (convert_to_valid_pgsql_schema_name name)
     = convert_to_valid_pgsql_schema_name name.
Proof.
  split; [apply schema_name_fixed_aux |].
  apply schema_name_fixed_aux, schema_name_valid_aux.
Qed.

Lemma schema_name_fixed_and_idempotent_witness :
  convert_to_valid_pgsql_schema_name "tenant_42" = "tenant_42".
Proof.
  apply (proj1 (schema_name_fixed_and_idempotent "tenant_42")).
  repeat split; [discriminate | simpl; lia].
Defined.

End SchemaNamesMore.

(** ** The router, continued *)

Section RouterEdges.
Import Django Models Utils Routers.

Variable p : Project.
Variable ctx : TenantContext.stack.

(** X3. What [allow_migrate] does for a custom app when it cannot decide:
    a model name that the registry does not know gives [None], neither a
    yes nor a no; without a model name an app that is not installed raises
    [LookupError]; and an alias without a connection raises, once the scope
    is known. *)
Theorem allow_migrate_undecided db app_label :
  app_label ∈ get_custom_apps p ->
  (forall c rest,
     registered_model p app_label (String c rest) = None ->
     allow_migrate p ctx db app_label (Some (String c rest)) = Return None)
  /\ (forall model_name,
        model_name = None \/ model_name = Some "" ->
        get_app_config p app_label = Raise LookupError ->
        allow_migrate p ctx db app_label model_name = Raise LookupError)
  /\ (forall model_name scope,
        migration_scope p app_label model_name = Return (Some scope) ->
        connections p db = None ->
        allow_migrate p ctx db app_label model_name = Raise ConnectionDoesNotExist).
Proof.
  intros Hin. unfold allow_migrate.
  rewrite bool_decide_eq_true_2 by exact Hin. simpl.
  split; [| split].
  - intros c rest Hnone. unfold migration_scope, get_model. now rewrite Hnone.
  - intros model_name [-> | ->] Hcfg; unfold migration_scope; now rewrite Hcfg.
  - intros model_name scope Hscope Hconn. rewrite Hscope.
    unfold connection. now rewrite Hconn.
Qed.

(** X4. A [tenant_scope] that is not a member of [TenantScope], such as the
    string ["master"] on an app configuration, is not a scope for the
    router: the models of that app that carry no scope of their own are
    read and written like TENANT models, and none of them may be migrated
    anywhere. *)
Theorem scope_of_another_type model app_config v :
  app_label model ∈ get_custom_apps p ->
  (forall s, model_tenant_scope model <> Some (Scope s)) ->
  get_app_config p (app_label model) = Return app_config ->
  app_tenant_scope app_config = Some (Other v) ->
  db_for_read p ctx model = TenantContext.get_db_alias ctx
  /\ forall db conn c rest,
       registered_model p (app_label model) (String c rest) = Some model ->
       connections p db = Some conn ->
       allow_migrate p ctx db (app_label model) (Some (String c rest))
       = Return (Some false).
Proof.
  intros Hin Hmodel Hcfg Hattr.
  assert (Hscope : _get_scope p model = Other v).
  { unfold _get_scope. rewrite bool_decide_eq_true_2 by exact Hin. simpl.
    rewrite Hcfg, Hattr. simpl.
    destruct (model_tenant_scope model) as [[s | w] |]; try reflexivity.
    now destruct (Hmodel s). }
  split.
  - unfold db_for_read. now rewrite Hscope.
  - intros db conn c rest Hreg Hconn.
    unfold allow_migrate, migration_scope, get_model, connection.
    rewrite bool_decide_eq_true_2 by exact Hin. simpl.
    now rewrite Hreg, Hconn, Hscope.
Qed.

(** X5. Where a SHARED entity of a custom app may be migrated. With a
    schema-isolated tenant active: exactly on the master alias, whatever
    the connection. Otherwise: on every connection that gives no options;
    and on a connection opened on a schema, on every alias but the master
    one, and on the master alias exactly when the name of the default
    schema occurs in the option that selects the schema. *)
Theorem allow_migrate_shared_places db app_label model_name :
  app_label ∈ get_custom_apps p ->
  migration_scope p app_label model_name = Return (Some (Scope SHARED)) ->
  (MigrationPlaces.schema_tenant_active ctx ->
   forall conn,
     connections p db = Some conn ->
     allow_migrate p ctx db app_label model_name
     = Return (Some (String.eqb db (MASTER_DB_ALIAS p))))
  /\ (~ MigrationPlaces.schema_tenant_active ctx ->
      (connections p db = Some MigrationPlaces.connection_on_default ->
       allow_migrate p ctx db app_label model_name = Return (Some true))
      /\ (forall schema,
            connections p db = Some (MigrationPlaces.connection_on_schema schema) ->
            allow_migrate p ctx db app_label model_name
            = Return (Some (negb (String.eqb db (MASTER_DB_ALIAS p))
                            || str_in (DEFAULT_SCHEMA_NAME p)
                                 ("-c search_path=" +:+ schema))))).
Proof.
  intros Hin Hscope. split.
  - intros Hactive conn Hconn. apply schema_iso_active in Hactive.
    rewrite (allow_migrate_matrix p ctx _ _ _ _ _ Hin Hscope Hconn).
    unfold routing_matrix. cbn [attr_is TenantScope_eqb]. rewrite Hactive.
    now destruct (String.eqb db (MASTER_DB_ALIAS p)), (is_public_schema p conn).
  - intros Hnone. apply schema_iso_not_active in Hnone. split.
    + intros Hconn. rewrite (allow_migrate_matrix p ctx _ _ _ _ _ Hin Hscope Hconn).
      unfold routing_matrix. cbn [attr_is TenantScope_eqb].
      rewrite Hnone, public_schema_on_default.
      now destruct (String.eqb db (MASTER_DB_ALIAS p)).
    + intros schema Hconn. rewrite (allow_migrate_matrix p ctx _ _ _ _ _ Hin Hscope Hconn).
      unfold routing_matrix. cbn [attr_is TenantScope_eqb].
      rewrite Hnone, public_schema_on_schema.
      now destruct (String.eqb db (MASTER_DB_ALIAS p)), (str_in _ _).
Qed.

(** X25. Where a MASTER entity of a custom app may be migrated: on a
    connection that gives no options, exactly on the master alias; on a
    connection opened on a schema, exactly on the master alias when the
    name of the default schema occurs in the option that selects the
    schema. So it may be on the default schema itself, and may not be on a
    schema in whose option that name does not occur. *)
Theorem allow_migrate_master_places db app_label model_name :
  app_label ∈ get_custom_apps p ->
  migration_scope p app_label model_name = Return (Some (Scope MASTER)) ->
  (connections p db = Some MigrationPlaces.connection_on_default ->
   allow_migrate p ctx db app_label model_name
   = Return (Some (String.eqb db (MASTER_DB_ALIAS p))))
  /\ (forall schema,
        connections p db = Some (MigrationPlaces.connection_on_schema schema) ->
        allow_migrate p ctx db app_label model_name
        = Return (Some (String.eqb db (MASTER_DB_ALIAS p)
                        && str_in (DEFAULT_SCHEMA_NAME p)
                             ("-c search_path=" +:+ schema))))
  /\ (connections p db
      = Some (MigrationPlaces.connection_on_schema (DEFAULT_SCHEMA_NAME p)) ->
      allow_migrate p ctx db app_label model_name
      = Return (Some (String.eqb db (MASTER_DB_ALIAS p)))).
Proof.
  intros Hin Hscope.
  assert (Hon : forall schema,
             connections p db = Some (MigrationPlaces.connection_on_schema schema) ->
             allow_migrate p ctx db app_label model_name
             = Return (Some (String.eqb db (MASTER_DB_ALIAS p)
                             && str_in (DEFAULT_SCHEMA_NAME p)
                                  ("-c search_path=" +:+ schema)))).
  { intros schema Hconn. rewrite (allow_migrate_matrix p ctx _ _ _ _ _ Hin Hscope Hconn).
    unfold routing_matrix. cbn [attr_is TenantScope_eqb].
    now rewrite public_schema_on_schema. }
  split; [| split; [exact Hon |]].
  - intros Hconn. rewrite (allow_migrate_matrix p ctx _ _ _ _ _ Hin Hscope Hconn).
    unfold routing_matrix. cbn [attr_is TenantScope_eqb].
    now rewrite public_schema_on_default, andb_true_r.
  - intros Hconn. rewrite (Hon _ Hconn).
    now rewrite str_in_append, andb_true_r.
Qed.

(** X26. Where a TENANT entity of a custom app may be migrated. With a
    schema-isolated tenant active: nowhere on a connection that gives no
    options, and on a connection opened on a schema exactly on the master
    alias when the name of the default schema does not occur in the option
    that selects the schema. Otherwise: on a connection that gives no
    options exactly off the master alias, and on a connection opened on a
    schema exactly off the master alias when that name occurs in the
    option. *)
Theorem allow_migrate_tenant_places db app_label model_name :
  app_label ∈ get_custom_apps p ->
  migration_scope p app_label model_name = Return (Some (Scope TENANT)) ->
  (MigrationPlaces.schema_tenant_active ctx ->
   (connections p db = Some MigrationPlaces.connection_on_default ->
    allow_migrate p ctx db app_label model_name = Return (Some false))
   /\ (forall schema,
         connections p db = Some (MigrationPlaces.connection_on_schema schema) ->
         allow_migrate p ctx db app_label model_name
         = Return (Some (String.eqb db (MASTER_DB_ALIAS p)
                         && negb (str_in (DEFAULT_SCHEMA_NAME p)
                                    ("-c search_path=" +:+ schema))))))
  /\ (~ MigrationPlaces.schema_tenant_active ctx ->
      (connections p db = Some MigrationPlaces.connection_on_default ->
       allow_migrate p ctx db app_label model_name
       = Return (Some (negb (String.eqb db (MASTER_DB_ALIAS p)))))
      /\ (forall schema,
            connections p db = Some (MigrationPlaces.connection_on_schema schema) ->
            allow_migrate p ctx db app_label model_name
            = Return (Some (negb (String.eqb db (MASTER_DB_ALIAS p))
                            && str_in (DEFAULT_SCHEMA_NAME p)
                                 ("-c search_path=" +:+ schema))))).
Proof.
  intros Hin Hscope. split.
  - intros Hactive. apply schema_iso_active in Hactive. split.
    + intros Hconn. rewrite (allow_migrate_matrix p ctx _ _ _ _ _ Hin Hscope Hconn).
      unfold routing_matrix. cbn [attr_is TenantScope_eqb].
      rewrite Hactive, public_schema_on_default. now rewrite andb_false_r.
    + intros schema Hconn. rewrite (allow_migrate_matrix p ctx _ _ _ _ _ Hin Hscope Hconn).
      unfold routing_matrix. cbn [attr_is TenantScope_eqb].
      now rewrite Hactive, public_schema_on_schema.
  - intros Hnone. apply schema_iso_not_active in Hnone. split.
    + intros Hconn. rewrite (allow_migrate_matrix p ctx _ _ _ _ _ Hin Hscope Hconn).
      unfold routing_matrix. cbn [attr_is TenantScope_eqb].
      rewrite Hnone, public_schema_on_default. now rewrite andb_true_r.
    + intros schema Hconn. rewrite (allow_migrate_matrix p ctx _ _ _ _ _ Hin Hscope Hconn).
      unfold routing_matrix. cbn [attr_is TenantScope_eqb].
      now rewrite Hnone, public_schema_on_schema.
Qed.

End RouterEdges.

Section RouterEdgesExamples.
Import Django Models Utils Routers Examples MoreExamples.

Lemma allow_migrate_undecided_witness :
  allow_migrate project [] "default" "hrms" (Some "Ghost") = Return None
  /\ allow_migrate larger_project [] "default" "billing" None = Raise LookupError
  /\ allow_migrate project [] "nowhere" "hrms" (Some "Plan") = Raise ConnectionDoesNotExist.
Proof.
  destruct (allow_migrate_undecided project [] "default" "hrms") as (Hnone & _ & _);
    [apply list_elem_of_here |].
  destruct (allow_migrate_undecided larger_project [] "default" "billing")
    as (_ & Hlookup & _);
    [apply list_elem_of_further, list_elem_of_further, list_elem_of_here |].
  destruct (allow_migrate_undecided project [] "nowhere" "hrms") as (_ & _ & Hconn);
    [apply list_elem_of_here |].
  split; [apply Hnone; reflexivity |].
  split; [apply Hlookup; [now left | reflexivity] |].
  apply (Hconn (Some "Plan") (Scope MASTER)); reflexivity.
Defined.

Lemma scope_of_another_type_witness :
  db_for_read larger_project ctx_A Invoice = VStr "a_db"
  /\ allow_migrate larger_project ctx_A "default" "legacy" (Some "Invoice")
     = Return (Some false)
  /\ allow_migrate larger_project ctx_A "acme_db" "legacy" (Some "Invoice")
     = Return (Some false).
Proof.
  destruct (scope_of_another_type larger_project ctx_A Invoice legacy_app (VStr "master"))
    as (Hread & Hmigrate).
  - apply list_elem_of_further, list_elem_of_here.
  - intros s H. discriminate H.
  - reflexivity.
  - reflexivity.
  - split; [exact Hread |].
    split.
    + apply (Hmigrate "default" {| OPTIONS := None |}); reflexivity.
    + apply (Hmigrate "acme_db"
               {| OPTIONS := Some {[ "options" := "-c search_path=acme" ]} |});
        reflexivity.
Defined.

Lemma ctx_C_schema_tenant : MigrationPlaces.schema_tenant_active ctx_C.
Proof. exists tenant_C. split; reflexivity. Qed.

Lemma ctx_A_no_schema_tenant : ~ MigrationPlaces.schema_tenant_active ctx_A.
Proof. intros (tenant & [= <-] & H). discriminate H. Qed.

Lemma no_schema_tenant : ~ MigrationPlaces.schema_tenant_active [].
Proof. intros (tenant & H & _). discriminate H. Qed.

Lemma allow_migrate_shared_places_witness :
  allow_migrate project ctx_C "default" "hrms" (Some "Country") = Return (Some true)
  /\ allow_migrate project ctx_C "acme_db" "hrms" (Some "Country") = Return (Some false)
  /\ allow_migrate project ctx_A "default" "hrms" (Some "Country") = Return (Some true)
  /\ allow_migrate project ctx_A "acme_db" "hrms" (Some "Country") = Return (Some true).
Proof.
  destruct (allow_migrate_shared_places project ctx_C "default" "hrms" (Some "Country")
              hrms_is_custom eq_refl) as (Hmaster & _).
  destruct (allow_migrate_shared_places project ctx_C "acme_db" "hrms" (Some "Country")
              hrms_is_custom eq_refl) as (Hacme & _).
  destruct (allow_migrate_shared_places project ctx_A "default" "hrms" (Some "Country")
              hrms_is_custom eq_refl) as (_ & Hplain).
  destruct (allow_migrate_shared_places project ctx_A "acme_db" "hrms" (Some "Country")
              hrms_is_custom eq_refl) as (_ & Hschema).
  split; [exact (Hmaster ctx_C_schema_tenant _ eq_refl) |].
  split; [exact (Hacme ctx_C_schema_tenant _ eq_refl) |].
  split; [exact (proj1 (Hplain ctx_A_no_schema_tenant) eq_refl) |].
  exact (proj2 (Hschema ctx_A_no_schema_tenant) "acme" eq_refl).
Defined.

Lemma allow_migrate_master_places_witness :
  allow_migrate project [] "default" "hrms" (Some "Plan") = Return (Some true)
  /\ allow_migrate project [] "acme_db" "hrms" (Some "Plan") = Return (Some false)
  /\ allow_migrate project_on_republic [] "default" "hrms" (Some "Plan")
     = Return (Some true).
Proof.
  destruct (allow_migrate_master_places project [] "default" "hrms" (Some "Plan")
              hrms_is_custom eq_refl) as (Hplain & _ & _).
  destruct (allow_migrate_master_places project [] "acme_db" "hrms" (Some "Plan")
              hrms_is_custom eq_refl) as (_ & Hacme & _).
  destruct (allow_migrate_master_places project_on_republic [] "default" "hrms"
              (Some "Plan") hrms_is_custom eq_refl) as (_ & Hrepublic & _).
  split; [exact (Hplain eq_refl) |].
  split; [exact (Hacme "acme" eq_refl) | exact (Hrepublic "republic" eq_refl)].
Defined.

Lemma allow_migrate_tenant_places_witness :
  allow_migrate project ctx_C "default" "hrms" (Some "Employee") = Return (Some false)
  /\ allow_migrate project_on_republic ctx_republic "default" "hrms" (Some "Employee")
     = Return (Some false)
  /\ allow_migrate project ctx_A "default" "hrms" (Some "Employee") = Return (Some false)
  /\ allow_migrate project ctx_A "acme_db" "hrms" (Some "Employee")
     = Return (Some false)
  /\ allow_migrate project_on_republic ctx_A "republic_db" "hrms" (Some "Employee")
     = Return (Some true).
Proof.
  destruct (allow_migrate_tenant_places project_on_republic ctx_A "republic_db" "hrms"
              (Some "Employee") hrms_is_custom eq_refl) as (_ & Hother).
  destruct (allow_migrate_tenant_places project ctx_C "default" "hrms" (Some "Employee")
              hrms_is_custom eq_refl) as (Hplain & _).
  destruct (allow_migrate_tenant_places project_on_republic ctx_republic "default" "hrms"
              (Some "Employee") hrms_is_custom eq_refl) as (Hrepublic & _).
  destruct (allow_migrate_tenant_places project ctx_A "default" "hrms" (Some "Employee")
              hrms_is_custom eq_refl) as (_ & Hmaster).
  destruct (allow_migrate_tenant_places project ctx_A "acme_db" "hrms" (Some "Employee")
              hrms_is_custom eq_refl) as (_ & Hacme).
  split; [exact (proj1 (Hplain ctx_C_schema_tenant) eq_refl) |].
  split.
  - apply (proj2 (Hrepublic (ex_intro _ tenant_republic (conj eq_refl eq_refl)))
             "republic" eq_refl).
  - split; [exact (proj1 (Hmaster ctx_A_no_schema_tenant) eq_refl) |].
    split; [exact (proj2 (Hacme ctx_A_no_schema_tenant) "acme" eq_refl) |].
    exact (proj2 (Hother ctx_A_no_schema_tenant) "republic" eq_refl).
Defined.

End RouterEdgesExamples.

(** ** Relations between models *)

Section Relations.
Import Django Models Utils Routers RouterRelations.

Variable p : Project.

Lemma py_eq_refl_scalar (v : pyval) : is_scalar v = true -> py_eq v v = true.
Proof.
  destruct v as [| b | n | s | l | d]; simpl; intros H; try discriminate H.
  - reflexivity.
  - now destruct b.
  - apply Z.eqb_refl.
  - apply String.eqb_refl.
Qed.

Lemma py_eq_sym_scalar (a b : pyval) :
  is_scalar a = true -> is_scalar b = true -> py_eq a b = py_eq b a.
Proof.
  destruct a as [| x | m | s | l | d], b as [| y | n | t | l' | d'];
    simpl; intros Ha Hb; try discriminate; try reflexivity.
  - now destruct x, y.
  - apply Z.eqb_sym.
  - apply Z.eqb_sym.
  - apply Z.eqb_sym.
  - apply String.eqb_sym.
Qed.

(** Only the same string equals a string. *)
Lemma py_eq_str (s : string) (v : pyval) : py_eq (VStr s) v = true <-> v = VStr s.
Proof.
  destruct v as [| y | n | t | l' | d']; simpl; try (split; intros H; discriminate H).
  rewrite String.eqb_eq. split; [intros -> | intros [= ->]]; reflexivity.
Qed.

(** [activate] pushes no list and no dictionary. *)
Lemma reachable_scalar ctx :
  DatabaseBackend.reachable p ctx ->
  Forall (fun e => is_scalar (TenantContext.entry_alias e) = true) ctx.
Proof.
  induction 1 as [| tenant sch ctx ctx' Hr IH Hact | ctx Hr IH].
  - constructor.
  - unfold DatabaseBackend.activate, TenantContext.push in Hact.
    destruct (DatabaseBackend.db_alias_of p (DatabaseBackend.tenant_db_config tenant))
      eqn:E; inversion Hact; subst; constructor; auto.
  - unfold DatabaseBackend.deactivate, TenantContext.pop.
    destruct ctx as [| e ctx]; simpl; [constructor |].
    now inversion IH.
Qed.

(** On a reachable stack, where a model is read from: by its scope, the
    master alias, the active alias or [None]; a scalar in each case. *)
Lemma db_for_read_reachable ctx model :
  DatabaseBackend.reachable p ctx ->
  db_for_read p ctx model
  = (if attr_is (_get_scope p model) MASTER then VStr (MASTER_DB_ALIAS p)
     else match ctx with
          | active :: _ => TenantContext.entry_alias active
          | [] => if attr_is (_get_scope p model) SHARED
                  then VStr (MASTER_DB_ALIAS p) else VNone
          end)
  /\ is_scalar (db_for_read p ctx model) = true.
Proof.
  intros Hreach.
  pose proof (reachable_usable p ctx Hreach) as Husable.
  pose proof (reachable_scalar ctx Hreach) as Hscalar.
  unfold db_for_read.
  destruct (attr_is (_get_scope p model) MASTER); [now split |].
  rewrite get_db_alias_top.
  destruct ctx as [| active rest].
  - destruct (attr_is (_get_scope p model) SHARED); now split.
  - inversion Husable as [| ? ? Hu _]; inversion Hscalar as [| ? ? Hs _]; subst.
    unfold DatabaseBackend.usable_alias in Hu.
    destruct (attr_is (_get_scope p model) SHARED); [rewrite Hu |]; now split.
Qed.

(** X6. In every context that activations lead to, two objects of the same
    scope may be related, and [allow_relation] does not depend on the order
    of its two objects. *)
Theorem allow_relation_same_scope ctx obj1 obj2 :
  DatabaseBackend.reachable p ctx ->
  (_get_scope p obj1 = _get_scope p obj2 -> allow_relation p ctx obj1 obj2 = true)
  /\ allow_relation p ctx obj1 obj2 = allow_relation p ctx obj2 obj1.
Proof.
  intros Hreach.
  destruct (db_for_read_reachable ctx obj1 Hreach) as [H1 S1].
  destruct (db_for_read_reachable ctx obj2 Hreach) as [H2 S2].
  unfold allow_relation. split.
  - intros Hsame.
    replace (db_for_read p ctx obj2) with (db_for_read p ctx obj1)
      by (rewrite H1, H2, Hsame; reflexivity).
    now apply py_eq_refl_scalar.
  - now apply py_eq_sym_scalar.
Qed.

(** X7. Relations across scopes, in every context that activations lead to.
    A TENANT object and a SHARED object may be related exactly while a
    tenant is active. A MASTER object and a TENANT object may be related
    exactly while the active alias is the master alias, and never when no
    tenant is active. A MASTER object and a SHARED object may be related
    when no tenant is active or the active alias is the master alias, and
    not otherwise. *)
Theorem allow_relation_across_scopes ctx master_obj tenant_obj shared_obj :
  DatabaseBackend.reachable p ctx ->
  _get_scope p master_obj = Scope MASTER ->
  _get_scope p tenant_obj = Scope TENANT ->
  _get_scope p shared_obj = Scope SHARED ->
  (allow_relation p ctx tenant_obj shared_obj = true <-> ctx <> [])
  /\ (allow_relation p ctx master_obj tenant_obj = true <->
      exists active rest,
        ctx = active :: rest
        /\ TenantContext.entry_alias active = VStr (MASTER_DB_ALIAS p))
  /\ (allow_relation p ctx master_obj shared_obj = true <->
      ctx = []
      \/ exists active rest,
           ctx = active :: rest
           /\ TenantContext.entry_alias active = VStr (MASTER_DB_ALIAS p)).
Proof.
  intros Hreach Hm Ht Hs.
  destruct (db_for_read_reachable ctx master_obj Hreach) as [Rm _].
  destruct (db_for_read_reachable ctx tenant_obj Hreach) as [Rt St].
  destruct (db_for_read_reachable ctx shared_obj Hreach) as [Rs _].
  rewrite Hm in Rm. rewrite Ht in Rt. rewrite Hs in Rs. simpl in Rm, Rt, Rs.
  unfold allow_relation. rewrite Rm, Rs. rewrite Rt in *.
  destruct ctx as [| active rest].
  - split; [| split].
    + simpl. split; [discriminate | intros H; now destruct H].
    + simpl. split; [discriminate | intros (a & r & H & _); discriminate H].
    + rewrite py_eq_str. split; [intros _; now left | reflexivity].
  - split; [| split].
    + rewrite (py_eq_refl_scalar _ St). split; [discriminate | reflexivity].
    + rewrite py_eq_str. split.
      * intros H. now exists active, rest.
      * intros (a & r & [= <- <-] & H). exact H.
    + rewrite py_eq_str. split.
      * intros H. right. now exists active, rest.
      * intros [H | (a & r & [= <- <-] & H)]; [discriminate H | exact H].
Qed.

End Relations.

Section RelationsExamples.
Import Django Models Utils Routers RouterRelations Examples.

Lemma allow_relation_same_scope_witness :
  allow_relation project ctx_A Employee Employee = true
  /\ allow_relation project ctx_A Plan Country = allow_relation project ctx_A Country Plan.
Proof.
  destruct (allow_relation_same_scope project ctx_A Employee Employee ctx_A_reachable)
    as [Hsame _].
  destruct (allow_relation_same_scope project ctx_A Plan Country ctx_A_reachable)
    as [_ Hsym].
  split; [apply Hsame; reflexivity | exact Hsym].
Defined.

Lemma allow_relation_across_scopes_witness :
  (allow_relation project ctx_A Employee Country = true <-> ctx_A <> [])
  /\ (allow_relation project [] Employee Country = true <-> @nil TenantContext.entry <> []).
Proof.
  destruct (allow_relation_across_scopes project ctx_A Plan Employee Country
              ctx_A_reachable eq_refl eq_refl eq_refl) as (H & _ & _).
  destruct (allow_relation_across_scopes project [] Plan Employee Country
              (DatabaseBackend.reach_start project) eq_refl eq_refl eq_refl)
    as (H0 & _ & _).
  split; [exact H | exact H0].
Defined.

End RelationsExamples.

(** ** The resolved configuration, continued *)

Section ResolvedConfigMore.
Import Django Models DatabaseBackend.

Variable p : Project.

(** X8. A resolved configuration has the thirteen keys of Django's database
    settings, in the order of the source, and no other: a key of the tenant
    or of the master configuration that is not one of them does not pass
    through. *)
Theorem resolved_config_keys (tenant : Tenant) alias cfg :
  get_alias_and_config p tenant = Return (alias, cfg) ->
  map fst cfg
  = [ "ENGINE"; "NAME"; "USER"; "PASSWORD"; "HOST"; "PORT"; "OPTIONS"; "TIME_ZONE";
      "ATOMIC_REQUESTS"; "AUTOCOMMIT"; "CONN_MAX_AGE"; "CONN_HEALTH_CHECKS"; "TEST" ]
  /\ forall key,
       dict_has key cfg = true ->
       In key [ "ENGINE"; "NAME"; "USER"; "PASSWORD"; "HOST"; "PORT"; "OPTIONS";
                "TIME_ZONE"; "ATOMIC_REQUESTS"; "AUTOCOMMIT"; "CONN_MAX_AGE";
                "CONN_HEALTH_CHECKS"; "TEST" ].
Proof.
  unfold get_alias_and_config. intros H.
  assert (Hkeys : map fst cfg
                  = [ "ENGINE"; "NAME"; "USER"; "PASSWORD"; "HOST"; "PORT"; "OPTIONS";
                      "TIME_ZONE"; "ATOMIC_REQUESTS"; "AUTOCOMMIT"; "CONN_MAX_AGE";
                      "CONN_HEALTH_CHECKS"; "TEST" ]).
  { destruct (dict_get "TEST" _) as [| | | | | test]; try discriminate H.
    destruct (negb (truthy (dict_get "NAME" test))); injection H as <- <-; reflexivity. }
  split; [exact Hkeys |].
  intros key Hhas. rewrite <- Hkeys.
  unfold dict_has in Hhas. apply existsb_exists in Hhas.
  destruct Hhas as ([k v] & Hin & Heq). simpl in Heq.
  apply String.eqb_eq in Heq. subst k.
  apply (in_map fst) in Hin. exact Hin.
Qed.

(** X9. The TEST entry. When the TEST entry the merge arrives at (the one of
    the tenant if it gives one, else the one of the master, else an empty
    dictionary) is a dictionary, the call returns, and the TEST entry of the
    result is that dictionary if its NAME is true for Python, and else that
    dictionary with NAME set to the resolved database name. When it is
    anything else, [None] for one, the call raises [AttributeError]. *)
Theorem resolved_config_test_entry (tenant : Tenant) :
  let merged_test :=
    match tenant_value "TEST" (default [] (db_config tenant)) with
    | Some v => v
    | None => dict_get_default "TEST" (VDict []) (master_config p)
    end in
  (forall test,
     merged_test = VDict test ->
     exists alias cfg,
       get_alias_and_config p tenant = Return (alias, cfg)
       /\ dict_get "TEST" cfg
          = VDict (if truthy (dict_get "NAME" test) then test
                   else dict_set "NAME" (dict_get "NAME" cfg) test))
  /\ ((forall test, merged_test <> VDict test) ->
      get_alias_and_config p tenant = Raise AttributeError).
Proof.
  intros merged_test.
  assert (Hmerged :
            dict_get "TEST" (merged_config p (tenant_db_config tenant) (master_config p))
            = merged_test).
  { change (dict_get "TEST" (merged_config p (tenant_db_config tenant) (master_config p)))
      with (tenant_if_set "TEST" (VDict []) (tenant_db_config tenant) (master_config p)).
    unfold tenant_db_config. apply tenant_if_set_spec. }
  unfold get_alias_and_config. rewrite Hmerged.
  split.
  - intros test ->.
    destruct (truthy (dict_get "NAME" test)); cbn [negb].
    + eexists _, _. split; [reflexivity |].
      rewrite Hmerged. reflexivity.
    + eexists _, _. split; [reflexivity |].
      unfold dict_get at 1. rewrite dict_get_default_set, String.eqb_refl.
      rewrite (dict_get_set_other "NAME" "TEST") by discriminate.
      reflexivity.
  - intros Hnot.
    destruct merged_test as [| | | | | test]; try reflexivity.
    now destruct (Hnot test).
Qed.

Lemma CaseInsensitiveDict_any_case (data data' : dict) :
  Forall2 (fun kv kv' => lower (fst kv) = lower (fst kv') /\ snd kv = snd kv') data data' ->
  CaseInsensitiveDict data = CaseInsensitiveDict data'.
Proof.
  unfold CaseInsensitiveDict. generalize (@nil (string * pyval)) as store.
  intros store H. revert store.
  induction H as [| kv kv' data data' [Hk Hv] _ IH]; intros store; simpl.
  - reflexivity.
  - rewrite Hk, Hv. apply IH.
Qed.

(** X10. The keys of a tenant's [db_config] are read whatever their case:
    two tenants whose configurations differ in the case of their keys only
    resolve to the same alias and the same configuration. *)
Theorem resolved_config_any_case (tenant tenant' : Tenant) (data data' : dict) :
  db_config tenant = Some data ->
  db_config tenant' = Some data' ->
  Forall2 (fun kv kv' => lower (fst kv) = lower (fst kv') /\ snd kv = snd kv') data data' ->
  get_alias_and_config p tenant = get_alias_and_config p tenant'.
Proof.
  intros Hd Hd' Hsame.
  unfold get_alias_and_config, tenant_db_config.
  rewrite Hd, Hd'. simpl.
  now rewrite (CaseInsensitiveDict_any_case data data' Hsame).
Qed.

End ResolvedConfigMore.

Section ResolvedConfigMoreExamples.
Import Django Models DatabaseBackend Examples MoreExamples.

Lemma resolved_config_keys_witness :
  exists alias cfg,
    get_alias_and_config project tenant_local_socket = Return (alias, cfg)
    /\ map fst cfg
       = [ "ENGINE"; "NAME"; "USER"; "PASSWORD"; "HOST"; "PORT"; "OPTIONS"; "TIME_ZONE";
           "ATOMIC_REQUESTS"; "AUTOCOMMIT"; "CONN_MAX_AGE"; "CONN_HEALTH_CHECKS"; "TEST" ].
Proof.
  eexists _, _. split; [reflexivity |].
  apply (resolved_config_keys project tenant_local_socket _ _ eq_refl).
Defined.

Lemma resolved_config_test_entry_witness :
  (exists alias cfg,
     get_alias_and_config project tenant_local_socket = Return (alias, cfg)
     /\ dict_get "TEST" cfg = VDict [("NAME", VStr "local_db")])
  /\ get_alias_and_config project tenant_test_none = Raise AttributeError.
Proof.
  destruct (resolved_config_test_entry project tenant_local_socket) as [Hdict _].
  destruct (resolved_config_test_entry project tenant_test_none) as [_ Hnone].
  split.
  - destruct (Hdict [] eq_refl) as (alias & cfg & Hrun & Htest).
    exists alias, cfg. split; [exact Hrun |].
    rewrite Htest. injection Hrun as _ <-. reflexivity.
  - apply Hnone. intros test H. discriminate H.
Defined.

Lemma resolved_config_any_case_witness :
  get_alias_and_config project tenant_host_a
  = get_alias_and_config project tenant_host_lower.
Proof.
  apply (resolved_config_any_case project tenant_host_a tenant_host_lower
           [("HOST", VStr "a")] [("host", VStr "a")]).
  - reflexivity.
  - reflexivity.
  - constructor; [split; reflexivity | constructor].
Defined.

End ResolvedConfigMoreExamples.

(** ** The statements that create and drop a database, continued *)

Section DatabaseStatementsMore.
Import DatabaseBackend.

(** Reading a quoted identifier undoes the escaping: the text read is the
    escaped name, the closing quote and what follows. *)
Lemma read_quoted_escaped (k : nat) :
  forall t name after,
    (String.length t <= k)%nat ->
    read_quoted t = Some (name, after) ->
    t = double_quotes name +:+ String dquote after.
Proof.
  induction k as [| k IH]; intros t name after Hlen Hread.
  - destruct t; [discriminate Hread | simpl in Hlen; lia].
  - destruct t as [| c rest]; [discriminate Hread |].
    simpl in Hread, Hlen.
    destruct (Ascii.eqb c dquote) eqn:Hc.
    + apply Ascii.eqb_eq in Hc. subst c.
      destruct rest as [| c' rest'].
      * injection Hread as <- <-. reflexivity.
      * destruct (Ascii.eqb c' dquote) eqn:Hc'.
        -- apply Ascii.eqb_eq in Hc'. subst c'.
           destruct (read_quoted rest') as [[name' after'] |] eqn:Hrest;
             [| discriminate Hread].
           injection Hread as <- <-.
           simpl in Hlen.
           rewrite (IH rest' name' after') at 1 by (lia || assumption).
           reflexivity.
        -- injection Hread as <- <-. reflexivity.
    + destruct (read_quoted rest) as [[name' after'] |] eqn:Hrest;
        [| discriminate Hread].
      injection Hread as <- <-.
      rewrite (IH rest name' after') at 1 by (lia || assumption).
      simpl. now rewrite Hc.
Qed.

Lemma length_double_quotes (s : string) :
  (String.length s <= String.length (double_quotes s))%nat.
Proof.
  induction s as [| c s IH]; simpl; [lia |].
  destruct (Ascii.eqb c dquote); simpl; lia.
Qed.

Lemma double_quotes_same_length (s : string) :
  String.length (double_quotes s) = String.length s ->
  forall c, In c (list_ascii_of_string s) -> c <> dquote.
Proof.
  induction s as [| c s IH]; simpl; [intros _ c [] |].
  pose proof (length_double_quotes s) as Hle.
  destruct (Ascii.eqb c dquote) eqn:Hc; simpl; intros Hlen; [lia |].
  intros c' [<- | Hin].
  - now apply Ascii.eqb_neq.
  - apply IH; [lia | exact Hin].
Qed.

(** X11. Whatever the name, and whatever the driver and the server answer,
    the one statement [_create_database] sends, once the connection and
    the cursor are open, names the database of that name and nothing else:
    the name comes back from the statement as it went in. No other
    statement is sent in any case. *)
Theorem create_database_statement_safe driver db_name user password host port :
  exists statement,
    (opens driver user password host port ->
     omap statement_of (fst (_create_database driver db_name user password host port))
     = [statement])
    /\ (forall sent,
          In sent (omap statement_of
                     (fst (_create_database driver db_name user password host port))) ->
          sent = statement)
    /\ strip_prefix "CREATE DATABASE " statement ≫= read_identifier
       = Some (db_name, "")
    /\ names_only "CREATE DATABASE " statement db_name = true.
Proof.
  exists (create_database_sql db_name).
  split; [apply create_database_sends |].
  split; [intros sent; apply create_database_sends_no_other |].
  split; [| apply create_database_names_only].
  unfold create_database_sql.
  rewrite strip_prefix_append. simpl. apply read_identifier_Identifier.
Qed.

(** X12. The statement [_drop_database] sends names the database of the
    given name and nothing else exactly when the name has no double quote
    in it. *)
Theorem drop_database_safe_iff (db_name : string) :
  names_only "DROP DATABASE IF EXISTS " (drop_database_sql db_name) db_name = true
  <-> forall c, In c (list_ascii_of_string db_name) -> c <> dquote.
Proof.
  split; [| apply drop_database_names_only_unquoted].
  unfold names_only, drop_database_sql.
  rewrite strip_prefix_append.
  unfold read_identifier. rewrite Ascii.eqb_refl.
  destruct (read_quoted (db_name +:+ String dquote "")) as [[name after] |] eqn:Hread;
    [| discriminate].
  rewrite andb_true_iff, !String.eqb_eq. intros [-> ->].
  apply read_quoted_escaped with (k := String.length (db_name +:+ String dquote ""))
    in Hread; [| lia].
  apply double_quotes_same_length.
  apply (f_equal String.length) in Hread.
  rewrite !length_append in Hread. lia.
Qed.

Lemma drop_database_safe_iff_witness :
  names_only "DROP DATABASE IF EXISTS " (drop_database_sql "acme_db") "acme_db" = true.
Proof.
  apply (proj2 (drop_database_safe_iff "acme_db")).
  simpl. intros c H.
  repeat (destruct H as [<- | H]; [discriminate |]).
  destruct H.
Defined.

(** X13. The calls of [_create_database] and [_drop_database], whatever the
    driver answers. Both connect to the [postgres] database, turn
    autocommit on and get a cursor; if one of the three fails, nothing is
    sent and nothing is closed, not even a connection that was opened.
    Otherwise the statement is sent, once; [_create_database] then prints
    that the database was created, or that the creation was skipped when
    the error is an [Exception], and nothing for another error;
    [_drop_database] prints only when the statement went through. Closing
    the cursor comes next however the statement ended, and closing the
    connection after it if the cursor closed. When both close, the call
    ends as the statement ended. *)
Theorem database_calls_always_close driver db_name user password host port :
  let opening := [Connect "postgres" user password host port; SetAutocommit; Cursor] in
  let closing :=
    match driver CloseCursor with
    | Return _ => [CloseCursor; CloseConnection]
    | Raise _ => [CloseCursor]
    end in
  let create := _create_database driver db_name user password host port in
  let drop := _drop_database driver db_name user password host port in
  (opens driver user password host port ->
   fst create
   = (opening
      ++ Execute (create_database_sql db_name)
         :: match driver (Execute (create_database_sql db_name)) with
            | Return _ => [Print ("[DB BACKEND] Database '" +:+ db_name +:+ "' created.")]
            | Raise e =>
                if is_Exception e
                then [Print ("[DB BACKEND] Skipped DB create: " +:+ exn_str e)]
                else []
            end
      ++ closing)%list
   /\ fst drop
      = (opening
         ++ Execute (drop_database_sql db_name)
            :: match driver (Execute (drop_database_sql db_name)) with
               | Return _ =>
                   [Print ("[DB BACKEND] Database '" +:+ db_name +:+ "' dropped.")]
               | Raise _ => []
               end
         ++ closing)%list
   /\ (closes driver ->
       snd create = driver (Execute (create_database_sql db_name))
       /\ snd drop = driver (Execute (drop_database_sql db_name))))
  /\ (~ opens driver user password host port ->
      create = drop
      /\ (exists n e, fst create = firstn (S n) opening /\ snd create = Raise e)).
Proof.
  intros opening closing create drop. subst opening closing create drop.
  unfold opens, closes. split.
  - intros (Hconnect & Hauto & Hcursor).
    split; [| split].
    + driver_cases driver; try discriminate; reflexivity.
    + driver_cases driver; try discriminate; reflexivity.
    + intros (Hcur & Hconn).
      split; driver_cases driver; try discriminate; reflexivity.
  - intros Hnot.
    destruct (driver (Connect "postgres" user password host port)) as [[] | e1] eqn:E1.
    + destruct (driver SetAutocommit) as [[] | e2] eqn:E2.
      * destruct (driver Cursor) as [[] | e3] eqn:E3; [now destruct Hnot |].
        unfold _create_database, _drop_database, open_cursor, then_, call.
        rewrite E1, E2, E3. cbn [fst snd app].
        split; [reflexivity |]. now exists 2%nat, e3.
      * unfold _create_database, _drop_database, open_cursor, then_, call.
        rewrite E1, E2. cbn [fst snd app].
        split; [reflexivity |]. now exists 1%nat, e2.
    + unfold _create_database, _drop_database, open_cursor, then_, call.
      rewrite E1. cbn [fst snd app].
      split; [reflexivity |]. now exists 0%nat, e1.
Qed.

End DatabaseStatementsMore.

Section DatabaseStatementsMoreExamples.
Import DatabaseBackend MoreExamples.

Lemma database_calls_always_close_witness :
  fst (_create_database driver_database_exists "acme_db"
         (VStr "admin") (VStr "secret") (VStr "db") (VInt 5432))
  = [ Connect "postgres" (VStr "admin") (VStr "secret") (VStr "db") (VInt 5432);
      SetAutocommit; Cursor;
      Execute (create_database_sql "acme_db");
      Print "[DB BACKEND] Skipped DB create: database acme_db already exists";
      CloseCursor; CloseConnection ]
  /\ snd (_create_database driver_database_exists "acme_db"
            (VStr "admin") (VStr "secret") (VStr "db") (VInt 5432))
     = Raise (Exception "database acme_db already exists")
  /\ _create_database driver_no_server "acme_db"
       (VStr "admin") (VStr "secret") (VStr "db") (VInt 5432)
     = _drop_database driver_no_server "acme_db"
         (VStr "admin") (VStr "secret") (VStr "db") (VInt 5432).
Proof.
  destruct (database_calls_always_close driver_database_exists "acme_db"
              (VStr "admin") (VStr "secret") (VStr "db") (VInt 5432)) as (Hopen & _).
  destruct (Hopen (conj eq_refl (conj eq_refl eq_refl))) as (Hlog & _ & Hend).
  destruct (Hend (conj eq_refl eq_refl)) as (Hcreate & _).
  destruct (database_calls_always_close driver_no_server "acme_db"
              (VStr "admin") (VStr "secret") (VStr "db") (VInt 5432)) as (_ & Hshut).
  split; [exact Hlog |]. split; [exact Hcreate |].
  apply Hshut. intros (Hconnect & _). discriminate Hconnect.
Defined.

End DatabaseStatementsMoreExamples.

(** ** Migrating all tenants, continued *)

Section BatchReports.
Import Django Models Utils MigrateTenants BatchReport.

Context {World : Type}.
Variable backend_migrate : Backend -> list string -> World -> outcome unit * World.
Variable p : Project.

Hypothesis errors_are_exceptions :
  forall backend args w e w',
    backend_migrate backend args w = (Raise e, w') -> is_Exception e = true.

Lemma migrate_keeps_stdout backend args st :
  stdout (snd (MigrateTenants.migrate backend_migrate backend args st)) = stdout st.
Proof.
  unfold MigrateTenants.migrate.
  now destruct (backend_migrate backend args (world st)).
Qed.

Lemma migrate_logs_call backend args st :
  calls (snd (MigrateTenants.migrate backend_migrate backend args st))
  = (calls st ++ [{| call_backend := backend; call_args := args |}])%list.
Proof.
  unfold MigrateTenants.migrate.
  now destruct (backend_migrate backend args (world st)).
Qed.

Lemma apps_to_zero_keeps_stdout backend labels st :
  stdout (snd (migrate_apps_to_zero backend_migrate backend labels st)) = stdout st.
Proof.
  revert st. induction labels as [| l labels IH]; intros st; simpl; [reflexivity |].
  pose proof (migrate_keeps_stdout backend [l; "zero"] st) as Hone.
  destruct (MigrateTenants.migrate backend_migrate backend [l; "zero"] st)
    as [[[] | app_error] st1]; simpl in Hone.
  - now rewrite IH.
  - destruct (passed_over app_error); [now rewrite IH | exact Hone].
Qed.

(** What the body of the [try] statement writes: the success message when
    it returns, nothing when it raises. *)
Lemma migrate_one_stdout reset_all app_label migration_name tenant st :
  let r := migrate_one backend_migrate p reset_all app_label migration_name tenant st in
  stdout (snd r)
  = match fst r with
    | Return _ => (stdout st ++ [migrated_message tenant])%list
    | Raise _ => stdout st
    end.
Proof.
  unfold migrate_one.
  destruct reset_all.
  - pose proof (apps_to_zero_keeps_stdout (get_tenant_backend tenant)
                  (map label (app_configs p)) st) as Hloop.
    destruct (migrate_apps_to_zero _ _ _ _) as [[[] | e] st1]; simpl in *;
      now rewrite Hloop.
  - destruct (given app_label); [destruct (given migration_name) |];
      match goal with
      | |- context [MigrateTenants.migrate backend_migrate ?b ?a ?s] =>
          pose proof (migrate_keeps_stdout b a s) as Hone;
          destruct (MigrateTenants.migrate backend_migrate b a s) as [[[] | e] st1]
      end; simpl in *; now rewrite Hone.
Qed.

Lemma handle_tenant_report reset_all app_label migration_name tenant st :
  exists st' failure,
    handle_tenant backend_migrate p reset_all app_label migration_name tenant st
    = (Return tt, st')
    /\ stdout st'
       = (stdout st
          ++ [heading tenant (migration_target reset_all app_label migration_name);
              match failure with
              | None => migrated_message tenant
              | Some e => failed_message tenant e
              end])%list.
Proof.
  unfold handle_tenant.
  set (st0 := write (heading tenant (migration_target reset_all app_label migration_name)) st).
  pose proof (migrate_one_stdout reset_all app_label migration_name tenant st0) as Hout.
  destruct (migrate_one backend_migrate p reset_all app_label migration_name tenant st0)
    as [[[] | e] st1] eqn:Hone; simpl in Hout.
  - exists st1, None. split; [reflexivity |].
    rewrite Hout. subst st0. simpl. now rewrite <- app_assoc.
  - rewrite (migrate_one_error backend_migrate p errors_are_exceptions _ _ _ _ _ _ _ Hone).
    exists (write (failed_message tenant e) st1), (Some e).
    split; [reflexivity |].
    simpl. rewrite Hout. subst st0. simpl. now rewrite <- app_assoc.
Qed.

(** X14. When the errors of the backends are instances of [Exception], the
    command returns whatever the tenants and the arguments, and what it
    writes is, tenant by tenant in the order of the query, a heading
    followed by one line that says the tenant was migrated or that it
    failed: two lines for each tenant, and nothing else. *)
Theorem batch_reports_every_tenant tenants app_label migration_name st :
  exists st' failures,
    handle backend_migrate p tenants app_label migration_name st = (Return tt, st')
    /\ length failures = length tenants
    /\ stdout st' = (stdout st ++ report app_label migration_name tenants failures)%list.
Proof.
  unfold handle.
  assert (Hgen : forall reset_all label',
             (forall t, heading t (migration_target reset_all label' migration_name)
                        = heading_of app_label migration_name t) ->
             forall st, exists st' failures,
               for_tenants backend_migrate p reset_all label' migration_name tenants st
               = (Return tt, st')
               /\ length failures = length tenants
               /\ stdout st'
                  = (stdout st ++ report app_label migration_name tenants failures)%list).
  { intros reset_all label' Hhead.
    induction tenants as [| tenant rest IH]; intros st0; simpl.
    - exists st0, []. rewrite app_nil_r. auto.
    - destruct (handle_tenant_report reset_all label' migration_name tenant st0)
        as (st1 & failure & -> & Hout1).
      destruct (IH st1) as (st' & failures & -> & Hlen & Hout).
      exists st', (failure :: failures).
      split; [reflexivity |]. split; [simpl; congruence |].
      rewrite Hout, Hout1. simpl. unfold tenant_report.
      rewrite Hhead, <- app_assoc. reflexivity. }
  apply Hgen. reflexivity.
Qed.

(** Outside the reset-all mode the body of the [try] statement makes one
    call. *)
Lemma migrate_one_plain_call app_label migration_name tenant st :
  calls (snd (migrate_one backend_migrate p false app_label migration_name tenant st))
  = (calls st ++ [{| call_backend := get_tenant_backend tenant;
                     call_args := plain_args app_label migration_name |}])%list.
Proof.
  unfold migrate_one, plain_args.
  destruct (given app_label); [destruct (given migration_name) |];
    match goal with
    | |- context [MigrateTenants.migrate backend_migrate ?b ?a ?s] =>
        pose proof (migrate_logs_call b a s) as Hone;
        destruct (MigrateTenants.migrate backend_migrate b a s) as [[[] | e] st1]
    end; simpl in *; exact Hone.
Qed.

(** X15. Outside the reset-all mode, and when the errors of the backends are
    instances of [Exception], the command calls [migrate] once for each
    tenant, in the order of the query, on the backend of the tenant's
    isolation type and with the same arguments for all, whether earlier
    tenants failed or not. *)
Theorem batch_migrates_each_tenant_once tenants app_label migration_name st :
  is_reset_all app_label migration_name = false ->
  exists st',
    handle backend_migrate p tenants app_label migration_name st = (Return tt, st')
    /\ calls st'
       = (calls st
          ++ map (fun tenant =>
                    {| call_backend := get_tenant_backend tenant;
                       call_args := plain_args app_label migration_name |})
               tenants)%list.
Proof.
  intros Hplain. unfold handle. rewrite Hplain.
  revert st. induction tenants as [| tenant rest IH]; intros st; simpl.
  - exists st. now rewrite app_nil_r.
  - unfold handle_tenant.
    set (st0 := write (heading tenant (migration_target false app_label migration_name)) st).
    pose proof (migrate_one_plain_call app_label migration_name tenant st0) as Hcall.
    destruct (migrate_one backend_migrate p false app_label migration_name tenant st0)
      as [[[] | e] st1] eqn:Hone; simpl in Hcall.
    + destruct (IH st1) as (st' & -> & Hcalls).
      exists st'. split; [reflexivity |].
      rewrite Hcalls, Hcall. subst st0. simpl. now rewrite <- app_assoc.
    + rewrite (migrate_one_error backend_migrate p errors_are_exceptions _ _ _ _ _ _ _ Hone).
      destruct (IH (write (failed_message tenant e) st1)) as (st' & -> & Hcalls).
      exists st'. split; [reflexivity |].
      rewrite Hcalls. simpl. rewrite Hcall. subst st0. simpl. now rewrite <- app_assoc.
Qed.

End BatchReports.

Section BatchReportsExamples.
Import Django Models Utils MigrateTenants BatchReport Examples.

Lemma example_errors_are_exceptions :
  forall backend args w e w',
    migrate_B_raises duplicate_key backend args w = (Raise e, w') ->
    is_Exception e = true.
Proof.
  intros backend args w e w'. unfold migrate_B_raises.
  destruct (String.eqb _ "B"); intros H; [| discriminate H].
  now injection H as <- _.
Qed.

Lemma batch_reports_every_tenant_witness :
  exists st' failures,
    handle (migrate_B_raises duplicate_key) project [tenant_A; tenant_B; tenant_C]
      (Some "hrms") (Some "0002") nothing_run
    = (Return tt, st')
    /\ length failures = 3%nat
    /\ stdout st'
       = ([] ++ report (Some "hrms") (Some "0002") [tenant_A; tenant_B; tenant_C]
                  failures)%list.
Proof.
  apply (batch_reports_every_tenant (migrate_B_raises duplicate_key) project
           example_errors_are_exceptions [tenant_A; tenant_B; tenant_C]
           (Some "hrms") (Some "0002") nothing_run).
Defined.

Lemma batch_migrates_each_tenant_once_witness :
  exists st',
    handle (migrate_B_raises duplicate_key) project [tenant_A; tenant_B; tenant_C]
      (Some "hrms") (Some "0002") nothing_run
    = (Return tt, st')
    /\ calls st'
       = [ {| call_backend := DatabaseTenantBackend tenant_A;
              call_args := ["hrms"; "0002"] |};
           {| call_backend := DatabaseTenantBackend tenant_B;
              call_args := ["hrms"; "0002"] |};
           {| call_backend := SchemaTenantBackend tenant_C;
              call_args := ["hrms"; "0002"] |} ].
Proof.
  apply (batch_migrates_each_tenant_once (migrate_B_raises duplicate_key) project
           example_errors_are_exceptions [tenant_A; tenant_B; tenant_C]
           (Some "hrms") (Some "0002") nothing_run).
  reflexivity.
Defined.

End BatchReportsExamples.

(** ** The settings wrapper, continued *)

Section SettingsWrapperMore.
Import Conf.

(** With the configuration cached, [self.OMNITENANT_CONFIG] is the cached
    object and changes nothing. *)
Lemma read_config_cached st config :
  wrapper_dict st !! "OMNITENANT_CONFIG" = Some config ->
  read_property "OMNITENANT_CONFIG" OMNITENANT_CONFIG st = (Return config, st).
Proof. intros H. unfold read_property. now rewrite H. Qed.

Lemma config_get_cached st config key dflt :
  wrapper_dict st !! "OMNITENANT_CONFIG" = Some config ->
  config_get key dflt st
  = match heap st !! config with
    | Some (ODict entries) =>
        (Return (default (length (heap st)) (entries_get key entries)), snd (new dflt st))
    | _ => (Raise AttributeError, st)
    end.
Proof.
  intros H. unfold config_get. rewrite (read_config_cached st config H).
  now destruct (heap st !! config) as [[] |].
Qed.

(** Reading [settings.OMNITENANT_CONFIG] caches the object it returns. *)
Lemma read_config_caches st config st1 :
  getattr "OMNITENANT_CONFIG" st = (Return config, st1) ->
  wrapper_dict st1 !! "OMNITENANT_CONFIG" = Some config.
Proof.
  change (getattr "OMNITENANT_CONFIG" st)
    with (read_property "OMNITENANT_CONFIG" OMNITENANT_CONFIG st).
  unfold read_property, cached_property, OMNITENANT_CONFIG, getattr_default.
  destruct (wrapper_dict st !! "OMNITENANT_CONFIG") as [cached |] eqn:Hc.
  - intros [= <- <-]. exact Hc.
  - simpl. intros [= <- <-]. simpl. apply lookup_insert_eq.
Qed.

(** X16. The configuration object is taken once. After a first read of
    [settings.OMNITENANT_CONFIG], whatever is read from or assigned to the
    wrapper, whatever objects are made or changed in place and whatever
    is done to Django's own settings, the configuration the wrapper goes by
    is the object of that first read. A setting that is derived from it and
    read for the first time takes the item of that object as the object is
    at the time of this read, so that a change made to it in place shows,
    or its default, a new object, and is cached. If the object is not a
    dictionary, the read turns to the attribute of Django's settings of the
    name of the setting, and raises [AttributeError] if there is none. *)
Theorem derived_settings_follow_first_config st config st1 acts name key dflt :
  getattr "OMNITENANT_CONFIG" st = (Return config, st1) ->
  let st2 := run acts st1 in
  wrapper_dict st2 !! name = None ->
  wrapper_dict st2 !! "OMNITENANT_CONFIG" = Some config
  /\ match heap st2 !! config with
     | Some (ODict entries) =>
         let value := default (length (heap st2)) (entries_get key entries) in
         read_property name (config_get key dflt) st2
         = (Return value, cache name value (snd (new dflt st2)))
     | _ =>
         read_property name (config_get key dflt) st2
         = match django_settings st2 !! name with
           | Some l => (Return l, st2)
           | None => (Raise AttributeError, st2)
           end
     end.
Proof.
  intros Hfirst st2 Hfresh.
  apply read_config_caches in Hfirst.
  pose proof (run_keeps_cached acts st1 _ _ Hfirst) as Hkept.
  fold st2 in Hkept. split; [exact Hkept |].
  unfold read_property. rewrite Hfresh. unfold cached_property.
  rewrite (config_get_cached st2 config key dflt Hkept).
  destruct (heap st2 !! config) as [[] |]; reflexivity.
Qed.

(** A computation that only makes objects that are false for Python
    leaves every reference as true or false as it was. *)
Lemma truthy_at_app st st' extra l :
  heap st' = (heap st ++ extra)%list ->
  Forall (fun o => truthy_object o = false) extra ->
  truthy_at st' l = truthy_at st l.
Proof.
  intros Hheap Hfalse. unfold truthy_at. rewrite Hheap.
  destruct (heap st !! l) as [o |] eqn:Hl.
  - now rewrite (lookup_app_l_Some _ _ _ _ Hl).
  - destruct ((heap st ++ extra)%list !! l) as [o |] eqn:Hl'; [| reflexivity].
    apply lookup_app_Some in Hl'. destruct Hl' as [Hl' | [_ Hl']]; [congruence |].
    apply list_elem_of_lookup_2 in Hl'.
    rewrite list.Forall_forall in Hfalse. now apply Hfalse.
Qed.

(** The first read of an item of the configuration, while the
    configuration in force is a dictionary: the item, or the default, a new
    object; the configuration is cached and nothing else is; and the
    objects made are an empty dictionary at most, and the default. *)
Lemma config_get_entries st entries key dflt :
  config_entries st = Some entries ->
  exists config extra,
    (extra = [] \/ extra = [ODict []])
    /\ config_get key dflt st
       = (Return (default (length (heap st ++ extra)) (entries_get key entries)),
          {| wrapper_dict := <["OMNITENANT_CONFIG" := config]> (wrapper_dict st);
             django_settings := django_settings st;
             heap := (heap st ++ extra ++ [dflt])%list |})
    /\ (heap st ++ extra)%list !! config = Some (ODict entries).
Proof.
  unfold config_entries, config_get, read_property, cached_property,
    OMNITENANT_CONFIG, getattr_default.
  destruct (wrapper_dict st !! "OMNITENANT_CONFIG") as [cached |] eqn:Hc.
  - destruct (heap st !! cached) as [[| | | | | | entries'] |] eqn:Hobj;
      try discriminate.
    intros [= ->]. exists cached, []. split; [now left |].
    rewrite app_nil_r. simpl. split; [| exact Hobj].
    unfold new. simpl. rewrite insert_id by exact Hc. now destruct st.
  - simpl.
    destruct (django_settings st !! "OMNITENANT_CONFIG") as [config |] eqn:Hd; simpl.
    + destruct (heap st !! config) as [[| | | | | | entries'] |] eqn:Hobj;
        try discriminate.
      intros [= ->]. exists config, [ODict []]. split; [now right |].
      rewrite (lookup_app_l_Some _ _ _ _ Hobj). simpl.
      split; [| reflexivity].
      unfold new. simpl. now rewrite <- app_assoc.
    + intros [= <-]. exists (length (heap st)), [ODict []]. split; [now right |].
      rewrite list_lookup_middle by reflexivity. simpl.
      split; [| reflexivity].
      unfold new. simpl. now rewrite <- app_assoc.
Qed.

(** After that read the configuration in force is the same dictionary. *)
Lemma config_entries_cached st config entries :
  wrapper_dict st !! "OMNITENANT_CONFIG" = Some config ->
  heap st !! config = Some (ODict entries) ->
  config_entries st = Some entries.
Proof. intros Hc Hobj. unfold config_entries. now rewrite Hc, Hobj. Qed.

(** Reading [settings.OMNITENANT_CONFIG] while the configuration in force
    is a dictionary: that dictionary is what is returned and cached, and
    an empty dictionary at most is made on the way. *)
Lemma read_config_entries st entries :
  config_entries st = Some entries ->
  exists config extra,
    (extra = [] \/ extra = [ODict []])
    /\ getattr "OMNITENANT_CONFIG" st
       = (Return config,
          {| wrapper_dict := <["OMNITENANT_CONFIG" := config]> (wrapper_dict st);
             django_settings := django_settings st;
             heap := (heap st ++ extra)%list |})
    /\ (heap st ++ extra)%list !! config = Some (ODict entries).
Proof.
  change (getattr "OMNITENANT_CONFIG" st)
    with (read_property "OMNITENANT_CONFIG" OMNITENANT_CONFIG st).
  unfold config_entries, read_property, cached_property,
    OMNITENANT_CONFIG, getattr_default.
  destruct (wrapper_dict st !! "OMNITENANT_CONFIG") as [cached |] eqn:Hc.
  - destruct (heap st !! cached) as [[| | | | | | entries'] |] eqn:Hobj;
      try discriminate.
    intros [= ->]. exists cached, []. split; [now left |].
    rewrite app_nil_r. split; [| exact Hobj].
    rewrite insert_id by exact Hc. now destruct st.
  - simpl.
    destruct (django_settings st !! "OMNITENANT_CONFIG") as [config |] eqn:Hd; simpl.
    + destruct (heap st !! config) as [[| | | | | | entries'] |] eqn:Hobj;
        try discriminate.
      intros [= ->]. exists config, [ODict []]. split; [now right |].
      split; [reflexivity |]. now apply lookup_app_l_Some.
    + intros [= <-]. exists (length (heap st)), [ODict []]. split; [now right |].
      split; [reflexivity |]. now apply list_lookup_middle.
Qed.

(** An item of the configuration read with the empty string for default:
    what comes back is true for Python exactly when the configuration
    gives a true value; the configuration in force stays, and every
    reference is as true or false as it was. *)
Lemma config_get_truthy st entries key :
  config_entries st = Some entries ->
  exists value st1,
    config_get key (OStr "") st = (Return value, st1)
    /\ truthy_at st1 value = truthy_entry st entries key
    /\ (truthy_entry st entries key = true -> entries_get key entries = Some value)
    /\ config_entries st1 = Some entries
    /\ (forall l, truthy_at st1 l = truthy_at st l)
    /\ (forall name, name <> "OMNITENANT_CONFIG" ->
                     wrapper_dict st1 !! name = wrapper_dict st !! name).
Proof.
  intros Hforce.
  destruct (config_get_entries st entries key (OStr "") Hforce)
    as (config & extra & Hextra & Hget & Hobj).
  set (st1 := {| wrapper_dict := <["OMNITENANT_CONFIG" := config]> (wrapper_dict st);
                 django_settings := django_settings st;
                 heap := (heap st ++ extra ++ [OStr ""])%list |}) in *.
  assert (Hfalse : Forall (fun o => truthy_object o = false) (extra ++ [OStr ""])%list).
  { destruct Hextra as [-> | ->]; repeat constructor. }
  assert (Hsame : forall l, truthy_at st1 l = truthy_at st l).
  { intros l. now apply (truthy_at_app st st1 (extra ++ [OStr ""])%list). }
  assert (Hdefault : truthy_at st1 (length (heap st ++ extra)) = false).
  { unfold truthy_at. simpl. rewrite app_assoc.
    now rewrite list_lookup_middle by reflexivity. }
  eexists _, st1. split; [exact Hget |].
  unfold truthy_entry.
  destruct (entries_get key entries) as [value |]; simpl.
  - split; [apply Hsame |]. split; [reflexivity |].
    split; [| split; [exact Hsame |]].
    + apply (config_entries_cached st1 config); simpl.
      * apply lookup_insert_eq.
      * rewrite app_assoc. now apply lookup_app_l_Some.
    + intros name Hname. simpl. now rewrite lookup_insert_ne by congruence.
  - split; [exact Hdefault |]. split; [discriminate |].
    split; [| split; [exact Hsame |]].
    + apply (config_entries_cached st1 config); simpl.
      * apply lookup_insert_eq.
      * rewrite app_assoc. now apply lookup_app_l_Some.
    + intros name Hname. simpl. now rewrite lookup_insert_ne by congruence.
Qed.

(** A read of a required setting leaves the configuration in force and
    every reference as true or false as it was. *)
Lemma after_required name key msg st entries :
  name <> "OMNITENANT_CONFIG" ->
  config_entries st = Some entries ->
  let st' := snd (read_property name (required key msg) st) in
  config_entries st' = Some entries /\ forall l, truthy_at st' l = truthy_at st l.
Proof.
  intros Hname Hforce. unfold read_property.
  destruct (wrapper_dict st !! name) as [cached |] eqn:Hcached; [now split |].
  unfold cached_property, required.
  destruct (config_get_truthy st entries key Hforce)
    as (value & st1 & -> & _ & _ & Hforce1 & Hsame & _).
  destruct (negb (truthy_at st1 value)); simpl; [now split |].
  split; [| exact Hsame].
  unfold config_entries in *. simpl.
  now rewrite lookup_insert_ne by congruence.
Qed.

(** What a read of a required setting does, by the value the configuration
    gives: the next state has the configuration cached, the same entries
    in force, and every reference as true or false as it was. *)
Lemma required_read name key msg st entries :
  name <> "OMNITENANT_CONFIG" ->
  wrapper_dict st !! name = None ->
  config_entries st = Some entries ->
  let read := read_property name (required key msg) in
  if truthy_entry st entries key then
    exists value,
      entries_get key entries = Some value
      /\ fst (read st) = Return value
      /\ wrapper_dict (snd (read st)) !! name = Some value
  else
    fst (read st) = Raise (ImproperlyConfigured msg)
    /\ wrapper_dict (snd (read st)) !! name = None
    /\ config_entries (snd (read st)) = Some entries
    /\ truthy_entry (snd (read st)) entries key = false.
Proof.
  intros Hname Hfresh Hforce read.
  destruct (config_get_entries st entries key (OStr "") Hforce)
    as (config & extra & Hextra & Hget & Hobj).
  set (st1 := {| wrapper_dict := <["OMNITENANT_CONFIG" := config]> (wrapper_dict st);
                 django_settings := django_settings st;
                 heap := (heap st ++ extra ++ [OStr ""])%list |}) in *.
  assert (Hfalse : Forall (fun o => truthy_object o = false) (extra ++ [OStr ""])%list).
  { destruct Hextra as [-> | ->]; repeat constructor. }
  assert (Hsame : forall l, truthy_at st1 l = truthy_at st l).
  { intros l. now apply (truthy_at_app st st1 (extra ++ [OStr ""])%list). }
  assert (Hdefault : truthy_at st1 (length (heap st ++ extra)) = false).
  { unfold truthy_at. simpl. rewrite app_assoc.
    now rewrite list_lookup_middle by reflexivity. }
  unfold read, read_property, cached_property, required.
  rewrite Hfresh, Hget. unfold truthy_entry.
  destruct (entries_get key entries) as [value |] eqn:Hvalue; simpl.
  - rewrite Hsame. destruct (truthy_at st value) eqn:Htruthy; simpl.
    + exists value. split; [reflexivity |]. split; [reflexivity |].
      apply lookup_insert_eq.
    + split; [reflexivity |]. split; [| split].
      * rewrite lookup_insert_ne by congruence. exact Hfresh.
      * apply (config_entries_cached st1 config); simpl.
        -- apply lookup_insert_eq.
        -- rewrite app_assoc. now apply lookup_app_l_Some.
      * rewrite Hsame. exact Htruthy.
  - rewrite Hdefault. simpl.
    split; [reflexivity |]. split; [| split].
    + rewrite lookup_insert_ne by congruence. exact Hfresh.
    + apply (config_entries_cached st1 config); simpl.
      * apply lookup_insert_eq.
      * rewrite app_assoc. now apply lookup_app_l_Some.
    + reflexivity.
Qed.

(** X17. A required setting, [TENANT_MODEL] or [DOMAIN_MODEL], read while
    the configuration in force is a dictionary. If the configuration gives
    no value for it, or one that is false for Python, the read raises
    [ImproperlyConfigured], caches no value for the setting, and the next
    read raises again. If it gives a true value, the read returns it and so
    does the next one, which changes nothing. *)
Theorem required_setting_read name key msg st entries :
  name <> "OMNITENANT_CONFIG" ->
  wrapper_dict st !! name = None ->
  config_entries st = Some entries ->
  let read := read_property name (required key msg) in
  (truthy_entry st entries key = false ->
   fst (read st) = Raise (ImproperlyConfigured msg)
   /\ wrapper_dict (snd (read st)) !! name = None
   /\ fst (read (snd (read st))) = Raise (ImproperlyConfigured msg))
  /\ (truthy_entry st entries key = true ->
      exists value,
        entries_get key entries = Some value
        /\ fst (read st) = Return value
        /\ read (snd (read st)) = (Return value, snd (read st))).
Proof.
  intros Hname Hfresh Hforce read.
  pose proof (required_read name key msg st entries Hname Hfresh Hforce) as Hfirst.
  fold read in Hfirst. cbv zeta in Hfirst.
  split; intros Htruthy; rewrite Htruthy in Hfirst.
  - destruct Hfirst as (Hraise & Hfresh1 & Hforce1 & Htruthy1).
    split; [exact Hraise |]. split; [exact Hfresh1 |].
    pose proof (required_read name key msg (snd (read st)) entries Hname Hfresh1 Hforce1)
      as Hsecond.
    fold read in Hsecond. cbv zeta in Hsecond. rewrite Htruthy1 in Hsecond.
    apply Hsecond.
  - destruct Hfirst as (value & Hvalue & Hread & Hcached).
    exists value. split; [exact Hvalue |]. split; [exact Hread |].
    unfold read at 1. unfold read_property. now rewrite Hcached.
Qed.

End SettingsWrapperMore.

Section SettingsWrapperMoreExamples.
Import Conf Examples MoreExamples.

Lemma derived_settings_follow_first_config_witness :
  django_settings (run config_changes settings_config_read) !! "OMNITENANT_CONFIG"
  = Some 3%nat
  /\ wrapper_dict (run config_changes settings_config_read) !! "OMNITENANT_CONFIG"
     = Some 1%nat
  /\ fst (getattr "PUBLIC_HOST" (run config_changes settings_config_read))
     = Return 4%nat
  /\ heap (run config_changes settings_config_read) !! 4%nat = Some (OStr "other.org").
Proof.
  destruct (derived_settings_follow_first_config settings_fresh 1%nat settings_config_read
              config_changes "PUBLIC_HOST" "PUBLIC_HOST" (OStr "localhost")
              eq_refl eq_refl) as (Hconfig & Hread).
  split; [reflexivity |]. split; [exact Hconfig |].
  split; [| reflexivity].
  exact (f_equal fst Hread).
Defined.

Lemma required_setting_read_witness :
  fst (getattr "TENANT_MODEL" settings_fresh)
  = Raise (ImproperlyConfigured TENANT_MODEL_not_set)
  /\ fst (getattr "TENANT_MODEL" settings_with_model) = Return 0%nat
  /\ heap settings_with_model !! 0%nat = Some (OStr "hrms.Employee").
Proof.
  destruct (required_setting_read "TENANT_MODEL" "TENANT_MODEL" TENANT_MODEL_not_set
              settings_fresh [("PUBLIC_HOST", 0%nat)])
    as (Hmissing & _); [discriminate | reflexivity | reflexivity |].
  destruct (required_setting_read "TENANT_MODEL" "TENANT_MODEL" TENANT_MODEL_not_set
              settings_with_model [("TENANT_MODEL", 0%nat); ("PUBLIC_HOST", 1%nat)])
    as (_ & Hgiven); [discriminate | reflexivity | reflexivity |].
  split; [exact (proj1 (Hmissing eq_refl)) |].
  split; [| reflexivity].
  destruct (Hgiven eq_refl) as (value & [= <-] & Hread & _). exact Hread.
Defined.

End SettingsWrapperMoreExamples.

(** ** The patch of Django's settings *)

Section SettingsPatchFacts.
Import SettingsPatch.

Lemma listed_app router (l l' : list pyval) :
  listed router (l ++ l') = listed router l || listed router l'.
Proof. unfold listed. apply existsb_app. Qed.

(** X18. [patch_django_settings]. When [DATABASE_ROUTERS] can be listed, the
    patch returns settings whose routers include the tenant router: the
    routers there were, in their order, followed by the tenant router if it
    was not among them; settings that list it already are returned as they
    are. No other setting changes, and patching once more changes nothing.
    When [DATABASE_ROUTERS] cannot be listed ([None], a number), the patch
    raises that error. *)
Theorem patch_installs_router (settings : gmap string pyval) :
  (forall settings',
     patch_django_settings settings = Return settings' ->
     exists routers routers',
       py_list (default (VList []) (settings !! "DATABASE_ROUTERS")) = Return routers
       /\ py_list (default (VList []) (settings' !! "DATABASE_ROUTERS")) = Return routers'
       /\ listed TenantRouter routers' = true
       /\ (if listed TenantRouter routers then settings' = settings
           else routers' = (routers ++ [VStr TenantRouter])%list)
       /\ (forall k, k <> "DATABASE_ROUTERS" -> settings' !! k = settings !! k)
       /\ patch_django_settings settings' = Return settings')
  /\ (forall e,
        patch_django_settings settings = Raise e
        <-> py_list (default (VList []) (settings !! "DATABASE_ROUTERS")) = Raise e).
Proof.
  unfold patch_django_settings.
  destruct (py_list (default (VList []) (settings !! "DATABASE_ROUTERS")))
    as [routers | e0] eqn:Hlist.
  - split.
    + intros settings' H.
      destruct (listed TenantRouter routers) eqn:Hin; simpl in H; injection H as <-.
      * exists routers, routers. rewrite Hlist, Hin. simpl. repeat split; auto.
      * exists routers, (routers ++ [VStr TenantRouter])%list.
        rewrite lookup_insert_eq. simpl.
        assert (Hnow : listed TenantRouter (routers ++ [VStr TenantRouter]) = true).
        { rewrite listed_app.
          replace (listed TenantRouter [VStr TenantRouter]) with true by reflexivity.
          apply orb_true_r. }
        rewrite Hnow, Hin. simpl.
        repeat split; auto.
        intros k Hk. now rewrite lookup_insert_ne.
    + intros e. destruct (negb (listed TenantRouter routers));
        split; intros H; discriminate H.
  - split.
    + intros settings' H. discriminate H.
    + intros e. split; intros [= ->]; reflexivity.
Qed.

End SettingsPatchFacts.

(** ** The superuser of a tenant *)

Section SuperuserFacts.
Import Django Models DatabaseBackend CreateTenantSuperuser.

Variable tenant_name : Tenant -> string.
Variable createsuperuser : superuser_call -> outcome unit.




End SuperuserFacts.

Section PatchAndSuperuserExamples.
Import Django Models DatabaseBackend SettingsPatch CreateTenantSuperuser.
Import Examples MoreExamples.

Lemma patch_installs_router_witness :
  exists routers routers',
    py_list (default (VList []) (django_with_router !! "DATABASE_ROUTERS")) = Return routers
    /\ py_list (default (VList []) (django_patched !! "DATABASE_ROUTERS")) = Return routers'
    /\ listed TenantRouter routers' = true
    /\ (if listed TenantRouter routers then django_patched = django_with_router
        else routers' = (routers ++ [VStr TenantRouter])%list)
    /\ (forall k, k <> "DATABASE_ROUTERS" -> django_patched !! k = django_with_router !! k)
    /\ patch_django_settings django_patched = Return django_patched.
Proof.
  apply (proj1 (patch_installs_router django_with_router) django_patched).
  reflexivity.
Defined.



End PatchAndSuperuserExamples.

(** ** Start-up *)

Section BootstrapFacts.
Import Django Conf Bootstrap.

Variable PATCHES : string.
Variable py_str : list object -> loc -> string.
Context {World : Type}.
Variable import_module : list object -> loc -> World -> outcome unit * World.
Variable p : Project.

Lemma extend_spec (st : Bootstrap.state World) s own items :
  heap s !! _patches st = Some (OList own) ->
  fst (extend st s items) = Return tt
  /\ heap (settings (snd (extend st s items))) !! _patches st
     = Some (OList (own ++ items))
  /\ imported (snd (extend st s items)) = imported st
  /\ _patches (snd (extend st s items)) = _patches st
  /\ world (snd (extend st s items)) = world st.
Proof.
  intros Hown. unfold extend. rewrite Hown. simpl.
  repeat split. apply list_lookup_insert_eq.
  now apply lookup_lt_Some in Hown.
Qed.

(** [_parse] imports nothing and leaves [self._patches] the list it is. *)
Lemma parse_frame (st : Bootstrap.state World) :
  imported (snd (_parse PATCHES st)) = imported st
  /\ _patches (snd (_parse PATCHES st)) = _patches st
  /\ world (snd (_parse PATCHES st)) = world st.
Proof.
  unfold _parse, extend.
  destruct (getattr "OMNITENANT_CONFIG" (settings st)) as [[config | e] s];
    [| now repeat split].
  destruct (heap s !! config) as [[| | | | | | entries] |]; try now repeat split.
  destruct (heap s !! default (_patches st) (entries_get PATCHES entries))
    as [[| | | | items | items |] |]; try now repeat split.
  - now destruct (heap s !! _patches st) as [[] |].
  - simpl.
    now destruct ((heap s ++ [OList items])%list !! _patches st) as [[] |].
Qed.

(** X21. [_parse], while the configuration in force is a dictionary. If
    the value under the patches key, or the list [self._patches] itself
    when there is no such key, is a list or a tuple, the call returns and
    [self._patches] is what it was followed by the items of that value:
    the built-in patches are kept, first, and with no patches configured
    the list is doubled. If the value is neither a list nor a tuple, the
    call raises [ImproperlyConfigured] and leaves the list as it was.
    Nothing is imported in either case. *)
Theorem parse_extends_patches (st : Bootstrap.state World) entries own :
  config_entries (settings st) = Some entries ->
  heap (settings st) !! _patches st = Some (OList own) ->
  let configured := default (_patches st) (entries_get PATCHES entries) in
  let st' := snd (_parse PATCHES st) in
  (forall items,
     heap (settings st) !! configured = Some (OList items)
     \/ heap (settings st) !! configured = Some (OTuple items) ->
     fst (_parse PATCHES st) = Return tt
     /\ heap (settings st') !! _patches st = Some (OList (own ++ items)))
  /\ ((forall items,
         heap (settings st) !! configured <> Some (OList items)
         /\ heap (settings st) !! configured <> Some (OTuple items)) ->
      (exists msg, fst (_parse PATCHES st) = Raise (ImproperlyConfigured msg))
      /\ heap (settings st') !! _patches st = Some (OList own))
  /\ (entries_get PATCHES entries = None ->
      fst (_parse PATCHES st) = Return tt
      /\ heap (settings st') !! _patches st = Some (OList (own ++ own)))
  /\ imported st' = imported st
  /\ _patches st' = _patches st.
Proof.
  intros Hforce Hown configured st'.
  destruct (read_config_entries (settings st) entries Hforce)
    as (config & extra & Hextra & Hread & Hobj).
  set (s := {| wrapper_dict :=
                 <["OMNITENANT_CONFIG" := config]> (wrapper_dict (settings st));
               django_settings := django_settings (settings st);
               heap := (heap (settings st) ++ extra)%list |}) in *.
  assert (Hown_s : heap s !! _patches st = Some (OList own)).
  { simpl. now apply lookup_app_l_Some. }
  assert (Hlist : forall items,
             heap (settings st) !! configured = Some (OList items)
             \/ heap (settings st) !! configured = Some (OTuple items) ->
             fst (_parse PATCHES st) = Return tt
             /\ heap (settings st') !! _patches st = Some (OList (own ++ items))).
  { intros items Hitems. subst st'. unfold _parse.
    rewrite Hread. change (heap s !! config) with ((heap (settings st) ++ extra)%list !! config).
    rewrite Hobj. fold configured.
    destruct Hitems as [Hitems | Hitems];
      apply (lookup_app_l_Some _ extra) in Hitems;
      change ((heap (settings st) ++ extra)%list) with (heap s) in Hitems;
      rewrite Hitems.
    - destruct (extend_spec st s own items Hown_s) as (Hret & Hnow & _).
      now split.
    - cbn [new snd].
      set (s' := {| wrapper_dict := wrapper_dict s;
                    django_settings := django_settings s;
                    heap := (heap s ++ [OList items])%list |}).
      assert (Hown_s' : heap s' !! _patches st = Some (OList own)).
      { simpl. now apply lookup_app_l_Some. }
      destruct (extend_spec st s' own items Hown_s') as (Hret & Hnow & _).
      now split. }
  split; [exact Hlist |]. split; [| split].
  - intros Hnot. subst st'. unfold _parse.
    rewrite Hread. change (heap s !! config) with ((heap (settings st) ++ extra)%list !! config).
    rewrite Hobj. fold configured.
    assert (Hother : forall items, heap s !! configured <> Some (OList items)
                                   /\ heap s !! configured <> Some (OTuple items)).
    { intros items. destruct (Hnot items) as [Hl Ht]. simpl.
      split; intros Hhit; apply lookup_app_Some in Hhit;
        (destruct Hhit as [Hhit | [_ Hhit]]; [congruence |]);
        destruct Hextra as [-> | ->];
        destruct (configured - length (heap (settings st)))%nat as [| [| k]];
        discriminate Hhit. }
    destruct (heap s !! configured) as [[| | | | items | items |] |] eqn:Hc;
      try (split; [eexists; reflexivity | exact Hown_s]).
    + now destruct (proj1 (Hother items)).
    + now destruct (proj2 (Hother items)).
  - intros Habsent. apply Hlist. left.
    unfold configured. rewrite Habsent. exact Hown.
  - destruct (parse_frame st) as (Hi & Hp & _). now split.
Qed.

(** X22. What passes [_run_validation], while the configuration in force
    is a dictionary: without a true value under [TENANT_MODEL] the call
    raises [ImproperlyConfigured] at once; and when the call returns, the
    configuration has a true value under [TENANT_MODEL] and one under
    [PUBLIC_HOST], a key that has to be there although
    [settings.PUBLIC_HOST] has a default for it. *)
Theorem validation_requires_model_and_host (s : Conf.state) entries :
  config_entries s = Some entries ->
  (truthy_entry s entries "TENANT_MODEL" = false ->
   fst (_run_validation py_str p s) = Raise (ImproperlyConfigured TENANT_MODEL_undefined))
  /\ (fst (_run_validation py_str p s) = Return tt ->
      truthy_entry s entries "TENANT_MODEL" = true
      /\ truthy_entry s entries "PUBLIC_HOST" = true
      /\ is_Some (entries_get "PUBLIC_HOST" entries)).
Proof.
  intros Hforce. unfold _run_validation.
  destruct (config_get_truthy s entries "TENANT_MODEL" Hforce)
    as (path & s1 & -> & Hpath & _ & Hforce1 & Hsame1 & _).
  rewrite Hpath.
  destruct (truthy_entry s entries "TENANT_MODEL") eqn:Hmodel; simpl.
  - split; [discriminate |]. intros Hok.
    split; [reflexivity |].
    unfold get_tenant_model in Hok.
    change (getattr "TENANT_MODEL" s1)
      with (read_property "TENANT_MODEL" (required "TENANT_MODEL" TENANT_MODEL_not_set) s1)
      in Hok.
    destruct (after_required "TENANT_MODEL" "TENANT_MODEL" TENANT_MODEL_not_set
                s1 entries ltac:(discriminate) Hforce1) as (Hforce2 & Hsame2).
    destruct (read_property "TENANT_MODEL" (required "TENANT_MODEL" TENANT_MODEL_not_set) s1)
      as [[model_path | e] s2]; simpl in Hforce2, Hsame2.
    + destruct (get_model_by_path p (heap s2 !! model_path)) as [model | []];
        try discriminate Hok.
      destruct (config_get_truthy s2 entries "PUBLIC_HOST" Hforce2)
        as (host & s3 & Hget & Hhost & _).
      rewrite Hget, Hhost in Hok.
      assert (Hhost_s : truthy_entry s2 entries "PUBLIC_HOST"
                        = truthy_entry s entries "PUBLIC_HOST").
      { unfold truthy_entry. destruct (entries_get "PUBLIC_HOST" entries); [| reflexivity].
        now rewrite Hsame2, Hsame1. }
      rewrite Hhost_s in Hok.
      destruct (truthy_entry s entries "PUBLIC_HOST") eqn:Hpublic; [| discriminate Hok].
      split; [reflexivity |].
      unfold truthy_entry in Hpublic.
      destruct (entries_get "PUBLIC_HOST" entries); [now eexists | discriminate].
    + destruct e; discriminate Hok.
  - split; [reflexivity | discriminate].
Qed.

Lemma import_patches_returns objects patches w log w' log' :
  import_patches py_str import_module objects patches w log = (Return tt, w', log') ->
  log' = (log ++ patches)%list.
Proof.
  revert w log. induction patches as [| patch rest IH]; intros w log; simpl.
  - intros [= _ <-]. now rewrite app_nil_r.
  - destruct (import_module objects patch w) as [[[] | e] w1].
    + intros H. apply IH in H. now rewrite H, <- app_assoc.
    + destruct (is_Exception e); discriminate.
Qed.

(** When [_parse] returns, [self._patches] is a list. *)
Lemma parse_returns_list (st st1 : Bootstrap.state World) :
  _parse PATCHES st = (Return tt, st1) ->
  exists patches, heap (settings st1) !! _patches st = Some (OList patches).
Proof.
  unfold _parse, extend.
  destruct (getattr "OMNITENANT_CONFIG" (settings st)) as [[config | e] s];
    [| discriminate].
  destruct (heap s !! config) as [[| | | | | | entries] |]; try discriminate.
  destruct (heap s !! default (_patches st) (entries_get PATCHES entries))
    as [[| | | | items | items |] |]; try discriminate.
  - destruct (heap s !! _patches st) as [[| | | | own | |] |] eqn:Hown;
      try discriminate.
    intros [= <-]. eexists. simpl. apply list_lookup_insert_eq.
    now apply lookup_lt_Some in Hown.
  - simpl.
    destruct ((heap s ++ [OList items])%list !! _patches st)
      as [[| | | | own | |] |] eqn:Hown; try discriminate.
    intros [= <-]. eexists. simpl. apply list_lookup_insert_eq.
    now apply lookup_lt_Some in Hown.
Qed.

(** [_run_validation] changes no object. *)
Lemma validation_keeps (s : Conf.state) : kept s (snd (_run_validation py_str p s)).
Proof.
  unfold _run_validation.
  pose proof (keeps_config_get "TENANT_MODEL" (OStr "") s) as H1.
  destruct (config_get "TENANT_MODEL" (OStr "") s) as [[path | e] s1];
    simpl in H1; [| exact H1].
  destruct (negb (truthy_at s1 path)); [exact H1 |].
  unfold get_tenant_model.
  pose proof (keeps_getattr "TENANT_MODEL" s1) as H2.
  assert (H12 : kept s (snd (getattr "TENANT_MODEL" s1)))
    by (eapply kept_trans; eassumption).
  destruct (getattr "TENANT_MODEL" s1) as [[model_path | e] s2]; simpl in H12.
  - destruct (get_model_by_path p (heap s2 !! model_path)) as [model | e].
    + pose proof (keeps_config_get "PUBLIC_HOST" (OStr "") s2) as H3.
      assert (H13 : kept s (snd (config_get "PUBLIC_HOST" (OStr "") s2)))
        by (eapply kept_trans; eassumption).
      destruct (config_get "PUBLIC_HOST" (OStr "") s2) as [[host | e] s3];
        simpl in H13; [| exact H13].
      now destruct (negb (truthy_at s3 host)).
    + now destruct e.
  - now destruct e.
Qed.

(** X23. [run] imports a patch only after the configuration was parsed and
    found valid. If [run] returns, both steps returned and every patch of
    the list [self._patches], as [_parse] left it, was imported, in the
    order of the list. If the validation does not pass, [run] raises and
    no module is imported. *)
Theorem run_imports_after_validation (st : Bootstrap.state World) :
  (forall st',
     run PATCHES py_str import_module p st = (Return tt, st') ->
     exists st1 s patches,
       _parse PATCHES st = (Return tt, st1)
       /\ _run_validation py_str p (settings st1) = (Return tt, s)
       /\ heap (settings st1) !! _patches st1 = Some (OList patches)
       /\ imported st' = (imported st ++ patches)%list)
  /\ ((forall st1,
         _parse PATCHES st = (Return tt, st1) ->
         fst (_run_validation py_str p (settings st1)) <> Return tt) ->
      fst (run PATCHES py_str import_module p st) <> Return tt
      /\ imported (snd (run PATCHES py_str import_module p st)) = imported st
      /\ world (snd (run PATCHES py_str import_module p st)) = world st).
Proof.
  pose proof (parse_frame st) as Hparse.
  unfold run.
  destruct (_parse PATCHES st) as [[[] | e] st1] eqn:Hp; simpl in Hparse.
  - destruct Hparse as (Hi & Hpatches & Hw). split.
    + intros st' Hrun.
      destruct (parse_returns_list st st1 Hp) as (patches & Hlist).
      pose proof (validation_keeps (settings st1)) as (_ & Hobjects & _).
      destruct (_run_validation py_str p (settings st1)) as [[[] | e] s] eqn:Hv;
        [| discriminate Hrun].
      simpl in Hobjects. apply Hobjects in Hlist as Hlist_s.
      unfold _run_patches, with_settings in Hrun. simpl in Hrun.
      rewrite Hpatches, Hlist_s in Hrun.
      exists st1, s, patches.
      split; [reflexivity |]. split; [exact Hv |].
      split; [now rewrite Hpatches |].
      destruct (import_patches py_str import_module (heap s) patches (world st1)
                  (imported st1)) as [[r w] log] eqn:Himp.
      injection Hrun as -> <-. simpl.
      apply import_patches_returns in Himp. now rewrite Himp, Hi.
    + intros Hinvalid. specialize (Hinvalid st1 eq_refl).
      destruct (_run_validation py_str p (settings st1)) as [[[] | e] s];
        [now destruct Hinvalid |].
      simpl. now split.
  - split; [intros st' H; discriminate H |].
    intros _. simpl. destruct Hparse as (Hi & _ & Hw). split; [discriminate | now split].
Qed.

(** X24. [_run_patches] stops at the first module that cannot be imported.
    When the modules before it import and that one raises an exception, the
    call raises an [Exception] whose text names the module and gives the
    text of the error, and the modules after it are not imported. *)
Theorem run_patches_stop_at_first_failure (st : Bootstrap.state World)
    before bad after e :
  heap (settings st) !! _patches st = Some (OList (before ++ bad :: after)) ->
  (forall patch w,
     In patch before ->
     exists w', import_module (heap (settings st)) patch w = (Return tt, w')) ->
  (forall w, exists w', import_module (heap (settings st)) bad w = (Raise e, w')) ->
  is_Exception e = true ->
  exists st',
    _run_patches py_str import_module st
    = (Raise (Exception ("Unable to import patch module "
                         +:+ py_str (heap (settings st)) bad
                         +:+ " due to: " +:+ exn_str e)), st')
    /\ imported st' = (imported st ++ before ++ [bad])%list.
Proof.
  intros Hlist Hbefore Hbad Hexn. unfold _run_patches. rewrite Hlist. clear Hlist.
  generalize (world st) as w. generalize (imported st) as log.
  induction before as [| patch before IH]; intros log w; simpl.
  - destruct (Hbad w) as [w' ->]. rewrite Hexn.
    eexists. split; [reflexivity |]. reflexivity.
  - destruct (Hbefore patch w (or_introl eq_refl)) as [w' ->].
    destruct (IH (fun q w0 Hq => Hbefore q w0 (or_intror Hq)) (log ++ [patch])%list w')
      as (st' & Hrun & Hlog).
    destruct (import_patches py_str import_module (heap (settings st))
                (before ++ bad :: after) w' (log ++ [patch])%list) as [[r w2] log2].
    injection Hrun as -> <-. simpl in Hlog.
    eexists. split; [reflexivity |]. simpl.
    now rewrite Hlog, <- app_assoc.
Qed.

End BootstrapFacts.

Section BootstrapExamples.
Import Django Conf Bootstrap Examples MoreExamples.

Lemma parse_extends_patches_witness :
  heap (settings bootstrapper) !! _patches bootstrapper
  = Some (OList [5%nat; 6%nat; 7%nat])
  /\ fst (_parse "PATCHES" bootstrapper) = Return tt
  /\ heap (settings (snd (_parse "PATCHES" bootstrapper))) !! _patches bootstrapper
     = Some (OList [5%nat; 6%nat; 7%nat; 2%nat]).
Proof.
  destruct (parse_extends_patches "PATCHES" bootstrapper
              [("TENANT_MODEL", 0%nat); ("PUBLIC_HOST", 1%nat); ("PATCHES", 3%nat)]
              [5%nat; 6%nat; 7%nat] eq_refl eq_refl) as (Hlist & _).
  split; [reflexivity |].
  exact (Hlist [2%nat] (or_intror eq_refl)).
Defined.

Lemma validation_requires_model_and_host_witness :
  fst (_run_validation path_text project settings_fresh)
  = Raise (ImproperlyConfigured TENANT_MODEL_undefined)
  /\ is_Some (entries_get "PUBLIC_HOST"
                [("TENANT_MODEL", 0%nat); ("PUBLIC_HOST", 1%nat); ("PATCHES", 3%nat)]).
Proof.
  split.
  - apply (validation_requires_model_and_host path_text project settings_fresh
             [("PUBLIC_HOST", 0%nat)] eq_refl).
    reflexivity.
  - apply (validation_requires_model_and_host path_text project settings_with_patch
             [("TENANT_MODEL", 0%nat); ("PUBLIC_HOST", 1%nat); ("PATCHES", 3%nat)]
             eq_refl).
    reflexivity.
Defined.

Lemma run_imports_after_validation_witness :
  imported (snd (run "PATCHES" path_text import_counted project bootstrapper))
  = [5%nat; 6%nat; 7%nat; 2%nat].
Proof.
  destruct (run_imports_after_validation "PATCHES" path_text import_counted project
              bootstrapper) as (Hrun & _).
  destruct (Hrun _ eq_refl) as (st1 & s & patches & Hparse & _ & Hlist & Himported).
  injection Hparse as <-. injection Hlist as <-. exact Himported.
Defined.

Lemma run_patches_stop_at_first_failure_witness :
  exists st',
    _run_patches path_text import_counted bootstrapper_missing
    = (Raise (Exception ("Unable to import patch module myapp.missing due to: "
                         +:+ "No module named 'myapp.missing'")), st')
    /\ imported st' = [0%nat; 1%nat].
Proof.
  apply (run_patches_stop_at_first_failure path_text import_counted bootstrapper_missing
           [0%nat] 1%nat [2%nat] (Exception "No module named 'myapp.missing'")).
  - reflexivity.
  - intros patch w [<- | []]. eexists. reflexivity.
  - intros w. eexists. reflexivity.
  - reflexivity.
Defined.

End BootstrapExamples.
